(** * nslookup: the DNS response walker, the reverse-name deriver, the
      direct UDP exchange and the driver of [nslookup.c]

    The C functions are embedded as Rocq functions that keep their names.
    A function body is a computation that records what it does (bytes it
    loads from the response, callbacks, system calls, diagnostics) and
    either leaves through a [return] or continues. Pointers into the
    response are offsets from its first byte [r]. *)

From Stdlib Require Import ZArith List String Ascii Bool Lia.
From Stdlib Require Import Strings.Byte DecimalString HexadecimalString.
Import ListNotations.

Local Open Scope Z_scope.

(** ** Constants of the anonymous [enum] *)

Definition RR_TYPE_A : Z := 1.
Definition RR_TYPE_CNAME : Z := 5.
Definition RR_TYPE_PTR : Z := 12.
Definition RR_TYPE_AAAA : Z := 28.
Definition POLL_TIMEOUT : Z := 5000.
Definition MAXREVLEN : Z := 73.

Definition EXIT_SUCCESS : Z := 0.
Definition EXIT_FAILURE : Z := 1.
Definition AF_INET : Z := 2.
Definition AF_INET6 : Z := 10.

(** ** Memory seen through a pointer

    [r i] is the byte stored at [r + i]. The declared length of a
    response is a separate number: nothing in the type stops a load at or
    after it, exactly as in C. *)

Definition mem : Type := Z -> Z.

Definition byte_at (r : mem) (i : Z) : Z := r i mod 256.

Definition mem_of_list (l : list Z) : mem :=
  fun i => if i <? 0 then 0 else nth (Z.to_nat i) l 0.

(** ** What a run does *)

(** Arguments of one call of the per-record callback
    [dns_print(ctx, rr, data, len, as, p, plen)]; pointers are offsets
    from the message start, so [p] itself is offset 0. *)
Record call : Type := mkCall {
  cb_rr : Z;
  cb_data : Z;
  cb_len : Z;
  cb_as : Z;
  cb_plen : Z
}.

Inductive syscall : Type :=
| sys_socket (family : Z)
| sys_bind (fd : Z)
| sys_sendto (fd : Z) (msg : Z) (msglen : Z)
| sys_poll (fd : Z) (timeout : Z)
| sys_recvfrom (fd : Z) (alen : Z)
| sys_close (fd : Z).

Inductive event : Type :=
| EvLoad (off : Z)                         (* dns_parse loads r[off] *)
| EvCall (c : call)                        (* dns_parse enters dns_print *)
| EvStderr (text : string)                 (* fprintf(stderr, ...) *)
| EvStdout (text : string)                 (* printf, fputc on stdout *)
| EvPrintAddress (label name : string) (family : Z) (addr : Z)
| EvSys (s : syscall)                      (* res_ssend system call *)
| EvResSend (msg : Z) (msglen : Z)         (* libc res_send *)
| EvGetaddrinfo (server : string)
| EvFreeaddrinfo.

Definition trace : Type := list event.

(** ** Function bodies with early [return]

    [M R A]: the events performed so far, and either [inl rc] (the
    enclosing C function has executed [return rc]) or [inr a] (control
    continues with [a]). *)

Definition M (R A : Type) : Type := (trace * (R + A))%type.

Definition ret {R A : Type} (a : A) : M R A := ([], inr a).

Definition Return {R A : Type} (rc : R) : M R A := ([], inl rc).

Definition emit {R : Type} (e : event) : M R unit := ([e], inr tt).

Definition bind {R A B : Type} (m : M R A) (k : A -> M R B) : M R B :=
  match m with
  | (t, inl rc) => (t, inl rc)
  | (t, inr a) => let '(t', x) := k a in (t ++ t', x)
  end.

Declare Scope body_scope.
Delimit Scope body_scope with body.
Notation "x <- m ;; k" := (bind m (fun x => k))
  (at level 61, m at next level, right associativity) : body_scope.
Notation "m ;; k" := (bind m (fun _ => k))
  (at level 61, right associativity) : body_scope.
Local Open Scope body_scope.

(** A whole function: falling off the end and [return] meet here. *)
Definition events {R : Type} (m : M R R) : trace := fst m.

Definition result {R : Type} (m : M R R) : R :=
  match snd m with inl rc => rc | inr rc => rc end.

(** A call of another C function from inside a body: its events happen
    here, and its return value is the value of the call. *)
Definition invoke {R S : Type} (callee : M S S) : M R S :=
  (events callee, inr (result callee)).

(** ** Diagnostics and presentation *)

Definition NL : string := String (ascii_of_nat 10) EmptyString.
Definition TAB : string := String (ascii_of_nat 9) EmptyString.

(** [fprintf(stderr, "...\n")]: one line on the error stream. *)
Definition stderr_line (msg : string) : event := EvStderr (msg ++ NL).

(** [print_address]: the two [printf] lines, the second through
    [inet_ntop] of the address stored at [addr]. *)
Definition print_address {R : Type} (label name : string) (family addr : Z)
  : M R unit :=
  emit (EvPrintAddress label name family addr).

(** ** dns_print and dns_parse *)

Section Parser.

(** libc's [dn_expand(msg, eom, src, dst, dstsiz)], by message, length of
    the message ([eom - msg]) and offset of [src]: the expanded name, or
    [None] for a negative return. *)
Variable dn_expand : mem -> Z -> Z -> option string.

Definition dns_print (rr data len as_ : Z) (p : mem) (plen : Z) : M Z Z :=
  match dn_expand p plen as_ with
  | None => emit (stderr_line "dn_expand() error") ;; Return (-1)
  | Some name =>
      (if (rr =? RR_TYPE_A) || (rr =? RR_TYPE_AAAA) then
         print_address "Name:" name
           (if rr =? RR_TYPE_A then AF_INET else AF_INET6) data
       else if (rr =? RR_TYPE_CNAME) || (rr =? RR_TYPE_PTR) then
         emit (EvStdout (name ++ TAB ++
                 (if rr =? RR_TYPE_CNAME then "canonical name = "
                  else "name = "))) ;;
         match dn_expand p plen data with
         | None => emit (stderr_line "dn_expand() error") ;; Return (-1)
         | Some name => emit (EvStdout (name ++ "." ++ NL))
         end
       else ret tt) ;;
      ret 0
  end.

Variable r : mem.
Variable rlen : Z.

Definition load {R : Type} (off : Z) : M R Z :=
  emit (EvLoad off) ;; ret (byte_at r off).

(** [while (p-r < rlen && p[0]-1U < 127) p++;]
    The loop runs at most [rlen - p] times, and [skip_labels] below gives
    it that many: when they are used up, [p-r < rlen] is false and the
    loop ends without a load. *)
Fixpoint skip_labels_from {R : Type} (n : nat) (p : Z) : M R Z :=
  match n with
  | O => ret p
  | S n' =>
      if p <? rlen then
        b <- load p ;;
        if (b - 1) mod 2 ^ 32 <? 127 then skip_labels_from n' (p + 1)
        else ret p
      else ret p
  end.

Definition skip_labels {R : Type} (p : Z) : M R Z :=
  skip_labels_from (Z.to_nat (rlen - p)) p.

(** [p[0]>193 || (p[0]==193 && p[1]>254) || p>r+rlen-6], evaluated left
    to right with the short circuits of C ([p[0]] is the source's
    dereference of [p]). *)
Definition bad_name_end {R : Type} (p : Z) : M R bool :=
  b <- load p ;;
  if 193 <? b then ret true
  else
    b' <- load p ;;
    c <- (if b' =? 193 then b1 <- load (p + 1) ;; ret (254 <? b1)
          else ret false) ;;
    if (c : bool) then ret true else ret (rlen - 6 <? p).

(** The source's double negation of [p[0]]. *)
Definition nonzero (b : Z) : Z := if b =? 0 then 0 else 1.

(** [while (qdcount--) { ... }] *)
Fixpoint questions (qdcount : nat) (p : Z) : M Z Z :=
  match qdcount with
  | O => ret p
  | S qdcount' =>
      p <- skip_labels p ;;
      bad <- bad_name_end p ;;
      if (bad : bool) then Return (-1)
      else
        b <- load p ;;
        questions qdcount' (p + (5 + nonzero b))
  end.

(** [while (ancount--) { ... }] *)
Fixpoint answers (ancount : nat) (p : Z) : M Z Z :=
  match ancount with
  | O => ret p
  | S ancount' =>
      let as_ := p in
      p <- skip_labels p ;;
      bad <- bad_name_end p ;;
      if (bad : bool) then Return (-1)
      else
        b <- load p ;;
        let p := p + (1 + nonzero b) in
        hi <- load (p + 8) ;;
        lo <- load (p + 9) ;;
        let len := (hi * 256 + lo) mod 2 ^ 32 in
        if rlen <? p + len then Return (-1)
        else
          rr <- load (p + 1) ;;
          emit (EvCall (mkCall rr (p + 10) len as_ rlen)) ;;
          rc <- invoke (dns_print rr (p + 10) len as_ r rlen) ;;
          if rc <? 0 then Return (-1)
          else answers ancount' (p + (10 + len))
  end.

(** The two section walks, entered at [p = r+12]. *)
Definition walk_sections (qdcount ancount : Z) : M Z Z :=
  p <- questions (Z.to_nat qdcount) 12 ;;
  answers (Z.to_nat ancount) p ;;
  ret 0.

Definition dns_parse : M Z Z :=
  if rlen <? 12 then Return (-1)
  else
    flags <- load 3 ;;
    if negb (Z.land flags 15 =? 0) then Return (-1)
    else
      q_hi <- load 4 ;;
      q_lo <- load 5 ;;
      let qdcount := q_hi * 256 + q_lo in
      a_hi <- load 6 ;;
      a_lo <- load 7 ;;
      let ancount := a_hi * 256 + a_lo in
      if 64 <? qdcount + ancount then Return (-1)
      else walk_sections qdcount ancount.

End Parser.

(** ** res_ssend: the direct exchange *)

Record addrinfo : Type := mkAddrinfo {
  ai_family : Z;
  ai_addrlen : Z;
  ai_addr : Z
}.

(** What the network does during one call of [res_ssend]: the return
    values of the five system calls, and the content of the answer buffer
    once [recvfrom] has run. *)
Record net : Type := mkNet {
  socket_rv : Z;
  bind_rv : Z;
  sendto_rv : Z;
  poll_rv : Z;
  recvfrom_rv : Z;
  answer_buf : mem
}.

(** The label [err_close]: [close(fd); return -1;] *)
Definition err_close (fd : Z) : M Z Z :=
  emit (EvSys (sys_close fd)) ;; Return (-1).

Definition res_ssend (n : net) (srv : addrinfo) (msg msglen anslen : Z)
  : M Z Z :=
  emit (EvSys (sys_socket (ai_family srv))) ;;
  let fd := socket_rv n in
  if fd <? 0 then
    emit (stderr_line "cannot create the socket") ;; Return (-1)
  else
    emit (EvSys (sys_bind fd)) ;;
    if bind_rv n <? 0 then
      emit (stderr_line "bind failure") ;; err_close fd
    else
      emit (EvSys (sys_sendto fd msg msglen)) ;;
      if sendto_rv n <? 0 then
        emit (stderr_line "sendto failure") ;; err_close fd
      else
        emit (EvSys (sys_poll fd POLL_TIMEOUT)) ;;
        if poll_rv n <=? 0 then
          emit (stderr_line "poll timeout") ;; err_close fd
        else
          let alen := anslen in
          emit (EvSys (sys_recvfrom fd alen)) ;;
          let rlen := recvfrom_rv n in
          if rlen <? 0 then
            emit (stderr_line "recvfrom error") ;; err_close fd
          else
            emit (EvSys (sys_close fd)) ;; Return rlen.

(** ** reverse_lookup *)

(** What the caller of [reverse_lookup] sees: the process aborted in
    [assert], or the function returned its argument [addr] (the same
    pointer, nothing written through it), or it returned [buf], which
    then holds the given NUL-terminated text. *)
Inductive lookup_result : Type :=
| assert_failed
| ret_addr
| ret_buf (text : string).

(** [arr[0]] for a pointer [arr] into the bytes of an address. *)
Definition octet (a : list byte) (arr : Z) : Z :=
  Z.of_N (Byte.to_N (nth (Z.to_nat arr) a x00)).

(** printf's [%u] and [%x] conversions. *)
Definition fmt_u (v : Z) : string :=
  DecimalString.NilEmpty.string_of_uint (N.to_uint (Z.to_N v)).

Definition fmt_x (v : Z) : string :=
  HexadecimalString.NilEmpty.string_of_uint (N.to_hex_uint (Z.to_N v)).

(** [snprintf] returns the length of the whole formatted text, whatever
    the size it was given. *)
Definition snprintf (text : string) : Z := Z.of_nat (String.length text).

(** The text of one iteration: ["%u."] of the octet in the first loop,
    ["%x.%x."] of its low and high nibble in the second. *)
Definition v4_text (o : Z) : string := (fmt_u o ++ ".")%string.

Definition v6_text (o : Z) : string :=
  (fmt_x (Z.land o 15) ++ "." ++ fmt_x (Z.land (Z.shiftr o 4) 15) ++ ".")%string.

(** Both [for] loops of [reverse_lookup] have this body:
    [l = snprintf(p, len, ...); if (l < 0 || l >= len) return addr;
     arr--; p += l; len -= l;]
    [written] is what [buf] holds up to [p]; [None] is [return addr]. *)
Fixpoint emit_loop (text_of : Z -> string) (a : list byte) (count : nat)
    (arr : Z) (written : string) (len : Z) : option (string * Z) :=
  match count with
  | O => Some (written, len)
  | S count' =>
      let text := text_of (octet a arr) in
      let l := snprintf text in
      if (l <? 0) || (len <=? l) then None
      else emit_loop text_of a count' (arr - 1) (written ++ text)%string (len - l)
  end.

Section Reverse.

(** libc's [inet_pton] for [AF_INET] and [AF_INET6]: the 4 or 16 bytes of
    the address in network order, or [None] when it returns 0. *)
Variable inet_pton4 : string -> option (list byte).
Variable inet_pton6 : string -> option (list byte).

(** The function after its [assert]. *)
Definition reverse_lookup_body (addr : string) (len : Z) : lookup_result :=
  match inet_pton4 addr with
  | Some v4 =>
      match emit_loop v4_text v4 4 3 "" len with
      | None => ret_addr
      | Some (p, len) =>
          if len <=? 12 then ret_addr
          else ret_buf (p ++ "in-addr.arpa")
      end
  | None =>
      match inet_pton6 addr with
      | Some v6 =>
          match emit_loop v6_text v6 16 15 "" len with
          | None => ret_addr
          | Some (p, len) =>
              if len <=? 8 then ret_addr
              else ret_buf (p ++ "ip6.arpa")
          end
      | None => ret_addr
      end
  end.

Definition reverse_lookup (addr : string) (len : Z) : lookup_result :=
  if len <? MAXREVLEN then assert_failed
  else reverse_lookup_body addr len.

End Reverse.

(** ** main *)

Definition ns_c_in : Z := 1.
Definition ns_t_a : Z := 1.
Definition ns_t_ptr : Z := 12.
Definition ns_t_aaaa : Z := 28.

(** Exit status of a process killed by [abort()]. *)
Definition ABORTED : Z := 134.

(** [memcmp(a, b, 2) != 0] *)
Definition memcmp2 (a b : mem) : bool :=
  negb ((byte_at a 0 =? byte_at b 0) && (byte_at a 1 =? byte_at b 1)).

Section Program.

Variable inet_pton4 : string -> option (list byte).
Variable inet_pton6 : string -> option (list byte).
Variable dn_expand : mem -> Z -> Z -> option string.

(** libc's [res_mkquery(0, name, class, type, 0, 0, 0, buf, buflen)]:
    its return value and the bytes it leaves in [buf]. *)
Variable res_mkquery : string -> Z -> Z -> Z * mem.

(** libc's [getaddrinfo(server, "53", &hints, &res)]: [None] when it
    fails or leaves [res] null. *)
Variable getaddrinfo : string -> option addrinfo.

(** libc's [res_send] in iteration [i] of the loop of [main]: its
    return value and the bytes of [response] afterwards. *)
Variable res_send : Z -> Z * mem.

(** The network during the [res_ssend] of iteration [i]. *)
Variable network : Z -> net.

Definition resolve_server (server : string)
  : M (option addrinfo) (option addrinfo) :=
  emit (EvGetaddrinfo server) ;;
  match getaddrinfo server with
  | None =>
      emit (stderr_line ("cannot resolve " ++ server)) ;; Return None
  | Some res =>
      print_address "Server:" server (ai_family res) (ai_addr res) ;;
      emit (EvStdout NL) ;;
      Return (Some res)
  end.

Section Loop.

Variable argc : Z.
Variable argv2 : string.
(** [query[0]] and [query[1]]; a pointer to [query[i]] is [i]. *)
Variable query : Z -> mem.
Variable qlen2 : Z.
Variable qcount : Z.

(** [if (i == 0) { srv = resolve_server(server); if (srv == NULL)
    return EXIT_FAILURE; }]; on later iterations [srv] keeps the
    value the first one gave it. *)
Definition server_once (i : Z) (server : string) (srv : option addrinfo)
  : M Z (option addrinfo) :=
  if i =? 0 then
    s <- invoke (resolve_server server) ;;
    match s with
    | None => Return EXIT_FAILURE
    | Some _ => ret s
    end
  else ret srv.

(** The [if (argc == 2) ... else if (argc == 3) ... else abort();] of
    the loop body: the server pointer, [rlen] and the bytes of
    [response] after it. *)
Definition exchange (i : Z) (srv : option addrinfo)
    (current_query qlen : Z) : M Z (option addrinfo * Z * mem) :=
  if argc =? 2 then
    srv <- server_once i "127.0.0.1" srv ;;
    emit (EvResSend current_query qlen) ;;
    let '(rlen, response) := res_send i in
    ret (srv, rlen, response)
  else if argc =? 3 then
    srv <- server_once i argv2 srv ;;
    match srv with
    | Some a =>
        rlen <- invoke (res_ssend (network i) a current_query qlen 1024) ;;
        ret (srv, rlen, answer_buf (network i))
    | None => Return ABORTED
    end
  else Return ABORTED.

(** [switch (i)]: case 0 points [current_query] at [query[0]]; case 1
    points it at [query[1]] and falls through its assignment of [qlen2]
    to [qlen] into the empty default. *)
Definition switch_query (i current_query : Z) : Z :=
  if i =? 0 then 0 else if i =? 1 then 1 else current_query.

Definition switch_qlen (i qlen : Z) : Z :=
  if i =? 1 then qlen2 else qlen.

(** [if (i == qcount-1) freeaddrinfo(srv);] *)
Definition free_last (i : Z) : M Z unit :=
  if i =? qcount - 1 then emit EvFreeaddrinfo else ret tt.

(** One pass through the body of the [for] loop, with the variables
    that outlive it. *)
Definition query_step (i : Z) (current_query qlen : Z)
    (srv : option addrinfo) : M Z (Z * Z * option addrinfo) :=
  let current_query := switch_query i current_query in
  let qlen := switch_qlen i qlen in
  if qlen <? 0 then
    emit (stderr_line "cannot build the query") ;; Return EXIT_FAILURE
  else
    x <- exchange i srv current_query qlen ;;
    let '(srv, rlen, response) := x in
    free_last i ;;
    if rlen <? 0 then
      emit (stderr_line "cannot send the query") ;; Return EXIT_FAILURE
    else if memcmp2 (query current_query) response then
      emit (stderr_line "qsections don't match") ;; Return EXIT_FAILURE
    else
      rc <- invoke (dns_parse dn_expand response rlen) ;;
      if rc <? 0 then
        emit (stderr_line "decode failure") ;; Return EXIT_FAILURE
      else ret (current_query, qlen, srv).

(** [for (int i = 0; i < qcount; i++) { ... }], [n] passes from [i]. *)
Fixpoint queries (n : nat) (i : Z) (current_query qlen : Z)
    (srv : option addrinfo) : M Z unit :=
  match n with
  | O => ret tt
  | S n' =>
      x <- query_step i current_query qlen srv ;;
      let '(current_query, qlen, srv) := x in
      queries n' (i + 1) current_query qlen srv
  end.

End Loop.

(** [name], as a string: the text of [ptr] or the caller's [argv[1]]. *)
Definition lookup_name (argv1 : string) : string :=
  match reverse_lookup inet_pton4 inet_pton6 argv1 MAXREVLEN with
  | ret_buf text => text
  | _ => argv1
  end.

(** [strcmp(name, argv[1]) == 0] *)
Definition forward (argv1 : string) : bool :=
  String.eqb (lookup_name argv1) argv1.

Definition main (argc : Z) (argv0 argv1 argv2 : string) : M Z Z :=
  if (argc <? 2) || (3 <? argc) then
    emit (stderr_line ("Usage: " ++ argv0 ++ " [HOST] [SERVER]")) ;;
    Return EXIT_FAILURE
  else
    match reverse_lookup inet_pton4 inet_pton6 argv1 MAXREVLEN with
    | assert_failed => Return ABORTED
    | _ =>
        let name := lookup_name argv1 in
        (if forward argv1 then
           let '(qlen, q0) := res_mkquery name ns_c_in ns_t_a in
           let '(qlen2, q1) := res_mkquery name ns_c_in ns_t_aaaa in
           queries argc argv2 (fun i => if i =? 0 then q0 else q1)
             qlen2 2 2 0 0 qlen None
         else
           let '(qlen, q0) := res_mkquery name ns_c_in ns_t_ptr in
             (* qlen2 and query[1] are left unset and never used *)
           queries argc argv2 (fun _ => q0) qlen 1 1 0 0 qlen None) ;;
        ret EXIT_SUCCESS
    end.

(** *** The first pass of a forward lookup *)

Definition first_qlen (argv1 : string) : Z :=
  fst (res_mkquery (lookup_name argv1) ns_c_in ns_t_a).

Definition second_qlen (argv1 : string) : Z :=
  fst (res_mkquery (lookup_name argv1) ns_c_in ns_t_aaaa).

Definition forward_queries (argv1 : string) : Z -> mem :=
  fun i =>
    if i =? 0 then snd (res_mkquery (lookup_name argv1) ns_c_in ns_t_a)
    else snd (res_mkquery (lookup_name argv1) ns_c_in ns_t_aaaa).

Definition first_exchange (argc : Z) (argv1 argv2 : string)
  : M Z (option addrinfo * Z * mem) :=
  exchange argc argv2 0 None 0 (first_qlen argv1).

(** The stages at which the first query can fail: the build, the
    resolution of the server, the transport, the comparison of the
    transaction ids, the decoding. *)
Inductive first_query_fails (argc : Z) (argv1 argv2 : string) : Prop :=
| fails_build :
    first_qlen argv1 < 0 -> first_query_fails argc argv1 argv2
| fails_server (t : trace) (rc : Z) :
    0 <= first_qlen argv1 ->
    first_exchange argc argv1 argv2 = (t, inl rc) ->
    first_query_fails argc argv1 argv2
| fails_transport (t : trace) (srv : option addrinfo) (rlen : Z)
    (response : mem) :
    0 <= first_qlen argv1 ->
    first_exchange argc argv1 argv2 = (t, inr (srv, rlen, response)) ->
    rlen < 0 -> first_query_fails argc argv1 argv2
| fails_mismatch (t : trace) (srv : option addrinfo) (rlen : Z)
    (response : mem) :
    0 <= first_qlen argv1 ->
    first_exchange argc argv1 argv2 = (t, inr (srv, rlen, response)) ->
    0 <= rlen -> memcmp2 (forward_queries argv1 0) response = true ->
    first_query_fails argc argv1 argv2
| fails_decode (t : trace) (srv : option addrinfo) (rlen : Z)
    (response : mem) :
    0 <= first_qlen argv1 ->
    first_exchange argc argv1 argv2 = (t, inr (srv, rlen, response)) ->
    0 <= rlen -> memcmp2 (forward_queries argv1 0) response = false ->
    result (dns_parse dn_expand response rlen) < 0 ->
    first_query_fails argc argv1 argv2.

End Program.

(** ** Header fields *)

(** Question and answer count, big-endian in header bytes 4-5 and 6-7. *)
Definition qdcount_of (r : mem) : Z := byte_at r 4 * 256 + byte_at r 5.
Definition ancount_of (r : mem) : Z := byte_at r 6 * 256 + byte_at r 7.

(** The response code: the low four bits of header byte 3. *)
Definition rcode_of (r : mem) : Z := Z.land (byte_at r 3) 15.

Definition is_load (e : event) : bool :=
  match e with EvLoad _ => true | _ => false end.

Definition is_call (e : event) : bool :=
  match e with EvCall _ => true | _ => false end.

(** ** Sample inputs *)

Definition sample_dn_expand : mem -> Z -> Z -> option string :=
  fun _ _ _ => Some "host.example"%string.

(** A response cut after its header: id 7, flags 0x8180 (response, no
    error), one question announced. *)
Definition header_only : list Z :=
  [0; 7; 129; 128; 0; 1; 0; 0; 0; 0; 0; 0].

(** A response of 23 bytes: header announcing one answer, then a record
    with the root name, type A, class IN, a TTL and a data length of 10,
    cut right after the length field. *)
Definition truncated_record : list Z :=
  [0; 7; 129; 128; 0; 0; 0; 1; 0; 0; 0; 0;
   0; 0; 1; 0; 1; 0; 0; 0; 60; 0; 10].

(** A server failure (response code 2). *)
Definition servfail : list Z :=
  [0; 7; 129; 130; 0; 1; 0; 0; 0; 0; 0; 0].

(** [qd] questions and [an] answers announced, nothing after the header. *)
Definition counts (qd an : Z) : list Z :=
  [0; 7; 129; 128; 0; qd; 0; an; 0; 0; 0; 0].

(** One question [a. IN A] and its answer [1.2.3.4], the owner name a
    compression pointer to offset 12. *)
Definition one_answer : list Z :=
  [0; 7; 129; 128; 0; 1; 0; 1; 0; 0; 0; 0;
   1; 97; 0; 0; 1; 0; 1;
   192; 12; 0; 1; 0; 1; 0; 0; 0; 60; 0; 4; 1; 2; 3; 4].

(** ** Sample networks and events of the exchange *)

Definition is_poll (e : event) : bool :=
  match e with EvSys (sys_poll _ _) => true | _ => false end.

Definition is_close (e : event) : bool :=
  match e with EvSys (sys_close _) => true | _ => false end.

(** A network on which the socket, the bind and the send succeed and
    nothing comes back. *)
Definition silent_net : net := mkNet 3 0 29 0 0 (fun _ => 0).

(** A network that answers with the 35 bytes of [one_answer]. *)
Definition answering_net : net := mkNet 3 0 29 1 35 (mem_of_list one_answer).

Definition sample_srv : addrinfo := mkAddrinfo AF_INET 16 0.

(** ** Reverse names

    [loop_texts] lists what the iterations of a loop of [reverse_lookup]
    format, in order; [writes] adds the suffix that [strncpy] appends.
    The other definitions say what the specification says about them. *)

Fixpoint loop_texts (text_of : Z -> string) (a : list byte) (count : nat)
    (arr : Z) : list string :=
  match count with
  | O => []
  | S count' => text_of (octet a arr) :: loop_texts text_of a count' (arr - 1)
  end.

Definition writes_v4 (v4 : list byte) : list string :=
  loop_texts v4_text v4 4 3 ++ ["in-addr.arpa"%string].

Definition writes_v6 (v6 : list byte) : list string :=
  loop_texts v6_text v6 16 15 ++ ["ip6.arpa"%string].

Definition writes (inet_pton4 inet_pton6 : string -> option (list byte))
    (addr : string) : list string :=
  match inet_pton4 addr with
  | Some v4 => writes_v4 v4
  | None =>
      match inet_pton6 addr with
      | Some v6 => writes_v6 v6
      | None => []
      end
  end.

(** The texts one after the other. *)
Fixpoint join (ws : list string) : string :=
  match ws with
  | [] => EmptyString
  | w :: ws' => (w ++ join ws')%string
  end.

(** Capacity checked at every incremental write: a write overflows when
    its text and the terminating NUL do not fit in what is left. *)
Fixpoint would_overflow (ws : list string) (len : Z) : bool :=
  match ws with
  | [] => false
  | w :: ws' => (len <=? snprintf w) || would_overflow ws' (len - snprintf w)
  end.

(** Each part followed by a dot. *)
Fixpoint dotted (parts : list string) : string :=
  match parts with
  | [] => EmptyString
  | part :: parts' => (part ++ "." ++ dotted parts')%string
  end.

Definition decimal (b : byte) : string :=
  DecimalString.NilEmpty.string_of_uint (N.to_uint (Byte.to_N b)).

Definition hex_digit (n : N) : string :=
  match String.get (N.to_nat n) "0123456789abcdef" with
  | Some c => String c EmptyString
  | None => EmptyString
  end.

(** Low nibble before high nibble. *)
Definition nibbles (b : byte) : list N :=
  [N.modulo (Byte.to_N b) 16; N.div (Byte.to_N b) 16].

(** The octets in reverse order, each followed by a dot, then the suffix
    of the IPv4 reverse zone. *)
Definition in_addr_arpa (v4 : list byte) : string :=
  (dotted (map decimal (rev v4)) ++ "in-addr.arpa")%string.

(** The nibbles of the bytes in reverse order, low nibble first, each as
    one hex digit followed by a dot, then the suffix of the IPv6 reverse
    zone. *)
Definition ip6_arpa (v6 : list byte) : string :=
  (dotted (map hex_digit (flat_map nibbles (rev v6))) ++ "ip6.arpa")%string.

(** A resolver of literals that knows the two addresses of the
    specification's examples. *)
Definition sample_pton4 (s : string) : option (list byte) :=
  if String.eqb s "192.0.2.1" then Some [xc0; x00; x02; x01] else None.

Definition sample_pton6 (s : string) : option (list byte) :=
  if String.eqb s "2001:db8::1" then
    Some [x20; x01; x0d; xb8; x00; x00; x00; x00;
          x00; x00; x00; x00; x00; x00; x00; x01]
  else None.

(** ** Events by kind *)

(** An exchange carrying the query at [query[q]]: the [res_send] of libc
    or the [sendto] of [res_ssend]. *)
Definition about_query (q : Z) (e : event) : bool :=
  match e with
  | EvResSend msg _ => msg =? q
  | EvSys (sys_sendto _ msg _) => msg =? q
  | _ => false
  end.

(** What the parser and its callback can do. *)
Definition parser_event (e : event) : Prop :=
  match e with
  | EvLoad _ | EvCall _ | EvStderr _ | EvStdout _ | EvPrintAddress _ _ _ _ =>
      True
  | _ => False
  end.

(** What an exchange of the query at [query[q]] can do: no load from a
    response, no callback, and no query sent but that one. *)
Definition exchange_event (q : Z) (e : event) : Prop :=
  match e with
  | EvLoad _ | EvCall _ => False
  | EvResSend msg _ => msg = q
  | EvSys (sys_sendto _ msg _) => msg = q
  | _ => True
  end.

(** Every event of a body is of kind [P]. *)
Definition all_events {R A : Type} (P : event -> Prop) (m : M R A) : Prop :=
  Forall P (fst m).

(** Every event of a body is of kind [P], and if the body continues, it
    continues with a value in [Q]. *)
Definition ensures {R A : Type} (P : event -> Prop) (Q : A -> Prop)
    (m : M R A) : Prop :=
  Forall P (fst m) /\ forall a, snd m = inr a -> Q a.

(** How far dns_parse gets from a message of [rlen] bytes: loads stay
    below [rlen + 12], and the data handed to the callback ends at most
    10 bytes after the message. *)
Definition within (rlen : Z) (e : event) : Prop :=
  match e with
  | EvLoad off => 0 <= off < rlen + 12
  | EvCall c =>
      cb_plen c = rlen /\ cb_as c <= cb_data c /\
      cb_data c + cb_len c <= rlen + 10
  | _ => True
  end.

(** The first two bytes of a message: its transaction id. *)
Definition first_two (m : mem) : Z * Z := (byte_at m 0, byte_at m 1).

(** ** A sample world *)

(** The query libc builds: id 7, one question [a. IN type]. *)
Definition sample_res_mkquery (name : string) (class type : Z) : Z * mem :=
  (19, mem_of_list [0; 7; 1; 0; 0; 1; 0; 0; 0; 0; 0; 0;
                    1; 97; 0; 0; type; 0; class]).

Definition sample_getaddrinfo (server : string) : option addrinfo :=
  Some sample_srv.

(** [one_answer] under another transaction id. *)
Definition other_id_answer : list Z :=
  [0; 8; 129; 128; 0; 1; 0; 1; 0; 0; 0; 0;
   1; 97; 0; 0; 1; 0; 1;
   192; 12; 0; 1; 0; 1; 0; 0; 0; 60; 0; 4; 1; 2; 3; 4].

Definition good_res_send (i : Z) : Z * mem := (35, mem_of_list one_answer).

Definition other_id_res_send (i : Z) : Z * mem :=
  (35, mem_of_list other_id_answer).

Definition sample_network (i : Z) : net := answering_net.

(** ** Counting and projecting events *)

Definition is_stderr (e : event) : bool :=
  match e with EvStderr _ => true | _ => false end.

Definition is_free (e : event) : bool :=
  match e with EvFreeaddrinfo => true | _ => false end.

Definition is_getaddrinfo (e : event) : bool :=
  match e with EvGetaddrinfo _ => true | _ => false end.

(** How many events of a trace are of kind [f]. *)
Definition count (f : event -> bool) (t : trace) : nat :=
  List.length (filter f t).

(** The system calls of a trace, in order. *)
Definition syscalls (t : trace) : list syscall :=
  flat_map (fun e => match e with EvSys s => [s] | _ => [] end) t.

(** The callbacks of a trace, in order. *)
Definition calls (t : trace) : list call :=
  flat_map (fun e => match e with EvCall c => [c] | _ => [] end) t.

(** ** What the walk of a message does *)

(** A callback as the message [r] of [rlen] bytes shows it: the owner
    name starts in the message, after the header; the data follows the
    ten bytes of fixed fields, whose type byte and length field are the
    ones the callback receives. *)
Definition call_ok (r : mem) (rlen : Z) (c : call) : Prop :=
  cb_plen c = rlen /\
  12 <= cb_as c <= rlen - 6 /\
  cb_as c + 11 <= cb_data c <= rlen + 6 /\
  cb_rr c = byte_at r (cb_data c - 9) /\
  cb_len c = byte_at r (cb_data c - 2) * 256 + byte_at r (cb_data c - 1) /\
  cb_data c + cb_len c <= rlen + 10.

Definition walk_event (r : mem) (rlen : Z) (e : event) : Prop :=
  match e with
  | EvLoad off => 3 <= off < rlen + 12
  | EvCall c => call_ok r rlen c
  | _ => True
  end.

(** Every [return] of a body gives a value in [S]. *)
Definition returns_only {R A : Type} (S : R -> Prop) (m : M R A) : Prop :=
  forall rc, snd m = inl rc -> S rc.

(** A body has at most [n] events of kind [f], and exactly [n] when it
    runs to its end. *)
Definition exactly {R A : Type} (f : event -> bool) (n : nat) (m : M R A)
  : Prop :=
  (count f (fst m) <= n)%nat /\
  forall a, snd m = inr a -> count f (fst m) = n.

(** The diagnostic of [dns_print]. *)
Definition dn_expand_error : event := stderr_line "dn_expand() error".

(** A body in which the event [e0] happens at most once, as the last
    thing before a [return]. *)
Definition stops_at {R A : Type} (e0 : event) (m : M R A) : Prop :=
  match snd m with
  | inr _ => ~ In e0 (fst m)
  | inl _ => ~ In e0 (fst m) \/ exists t, fst m = t ++ [e0] /\ ~ In e0 t
  end.

(** A [dn_expand] that expands nothing. *)
Definition failing_dn_expand : mem -> Z -> Z -> option string :=
  fun _ _ _ => None.

(** ** The layout of the records the walk accepts *)

(** A name as the walk takes it: from [p] on, bytes from 1 to 127 up to
    the first other byte, at [e], which lies inside the message. *)
Definition name_ends (r : mem) (rlen p e : Z) : Prop :=
  p <= e < rlen /\
  (forall i, p <= i < e -> 1 <= byte_at r i <= 127) /\
  ~ (1 <= byte_at r e <= 127).

(** What the walk wants at the end of a name: a byte of at most 193
    there, with the pair (193, 255) excluded, and six more bytes of
    message from it on. *)
Definition name_end_ok (r : mem) (rlen e : Z) : Prop :=
  byte_at r e <= 193 /\
  (byte_at r e = 193 -> byte_at r (e + 1) <= 254) /\
  e <= rlen - 6.

(** [n] questions lie from [p] to [p']: after each name, one byte for a
    zero end or two for any other, and four bytes of type and class. *)
Inductive questions_at (r : mem) (rlen : Z) : nat -> Z -> Z -> Prop :=
| questions_done (p : Z) : questions_at r rlen 0 p p
| questions_next (n : nat) (p e p' : Z) :
    name_ends r rlen p e -> name_end_ok r rlen e ->
    questions_at r rlen n (e + (5 + nonzero (byte_at r e))) p' ->
    questions_at r rlen (S n) p p'.

(** The callback arguments of the record whose name starts at [as_] and
    whose fixed fields start at [q]. *)
Definition record_call (r : mem) (rlen as_ q : Z) : call :=
  mkCall (byte_at r (q + 1)) (q + 10)
    (byte_at r (q + 8) * 256 + byte_at r (q + 9)) as_ rlen.

Definition print_call (dn_expand : mem -> Z -> Z -> option string)
    (r : mem) (c : call) : M Z Z :=
  dns_print dn_expand (cb_rr c) (cb_data c) (cb_len c) (cb_as c) r (cb_plen c).

(** [n] answers lie from [p] on and are the records [cs]: after each
    name and its end, ten bytes of fixed fields whose length field, added
    to their offset, stays within the message; then the data; and the
    callback accepts each record. *)
Inductive answers_at (dn_expand : mem -> Z -> Z -> option string) (r : mem)
    (rlen : Z) : nat -> Z -> list call -> Prop :=
| answers_done (p : Z) : answers_at dn_expand r rlen 0 p []
| answers_next (n : nat) (p e : Z) (cs : list call) :
    name_ends r rlen p e -> name_end_ok r rlen e ->
    e + (1 + nonzero (byte_at r e)) +
      cb_len (record_call r rlen p (e + (1 + nonzero (byte_at r e))))
      <= rlen ->
    0 <= result (print_call dn_expand r
                   (record_call r rlen p (e + (1 + nonzero (byte_at r e))))) ->
    answers_at dn_expand r rlen n
      (e + (1 + nonzero (byte_at r e)) +
         (10 + cb_len (record_call r rlen p
                         (e + (1 + nonzero (byte_at r e)))))) cs ->
    answers_at dn_expand r rlen (S n) p
      (record_call r rlen p (e + (1 + nonzero (byte_at r e))) :: cs).

(** A response that is its header and the question [a. IN A]. *)
Definition question_only : list Z :=
  [0; 7; 129; 128; 0; 1; 0; 0; 0; 0; 0; 0;
   1; 97; 0; 0; 1; 0; 1].

(** ** Reading a reverse name back *)

(** The value of a decimal digit, and of a lower-case hex digit. *)
Definition digit_value (c : ascii) : option N :=
  let n := N_of_ascii c in
  if ((48 <=? n) && (n <=? 57))%N then Some (n - 48)%N else None.

Definition hex_value (c : ascii) : option N :=
  let n := N_of_ascii c in
  if ((48 <=? n) && (n <=? 57))%N then Some (n - 48)%N
  else if ((97 <=? n) && (n <=? 102))%N then Some (n - 87)%N
  else None.

(** The number written in decimal up to the first dot, and what follows
    the dot. *)
Fixpoint read_decimal (s : string) (acc : N) : option (N * string) :=
  match s with
  | EmptyString => None
  | String c rest =>
      if Ascii.eqb c "."%char then Some (acc, rest)
      else match digit_value c with
           | Some d => read_decimal rest (acc * 10 + d)%N
           | None => None
           end
  end.

(** The byte written as its low nibble, a dot, its high nibble, a dot,
    and what follows. *)
Definition read_nibbles (s : string) : option (N * string) :=
  match s with
  | String lo (String d1 (String hi (String d2 rest))) =>
      if Ascii.eqb d1 "."%char && Ascii.eqb d2 "."%char then
        match hex_value lo, hex_value hi with
        | Some l, Some h => Some (h * 16 + l, rest)%N
        | _, _ => None
        end
      else None
  | _ => None
  end.

(** A resolver of literals that knows two IPv4 and two IPv6 addresses. *)
Definition two_pton4 (s : string) : option (list byte) :=
  if String.eqb s "192.0.2.1" then Some [xc0; x00; x02; x01]
  else if String.eqb s "192.0.2.10" then Some [xc0; x00; x02; x0a]
  else None.

Definition two_pton6 (s : string) : option (list byte) :=
  if String.eqb s "2001:db8::1" then
    Some [x20; x01; x0d; xb8; x00; x00; x00; x00;
          x00; x00; x00; x00; x00; x00; x00; x01]
  else if String.eqb s "2001:db8::10" then
    Some [x20; x01; x0d; xb8; x00; x00; x00; x00;
          x00; x00; x00; x00; x00; x00; x00; x10]
  else None.

(** ** What a pass of the loop of [main] does *)

(** A query handed to the network: by libc's [res_send] or by the
    [sendto] of [res_ssend]. *)
Definition is_send (e : event) : bool :=
  match e with
  | EvResSend _ _ => true
  | EvSys (sys_sendto _ _ _) => true
  | _ => false
  end.

(** The server [main] resolves. *)
Definition server_name (argc : Z) (argv2 : string) : string :=
  if argc =? 2 then "127.0.0.1"%string else argv2.

(** What the exchange of pass [i] for the query at [query[q]] can do:
    resolve the server (in the first pass only, and only the server of
    this run), print, and carry that one query by the transport that
    [argc] selects. It loads nothing from a response, calls nothing back
    and frees nothing. *)
Definition exchange_kind (argc : Z) (argv2 : string) (i q : Z) (e : event)
  : Prop :=
  match e with
  | EvLoad _ | EvCall _ | EvFreeaddrinfo => False
  | EvGetaddrinfo s => i = 0 /\ s = server_name argc argv2
  | EvResSend msg _ => argc = 2 /\ msg = q
  | EvSys s =>
      argc = 3 /\ match s with sys_sendto _ msg _ => msg = q | _ => True end
  | EvStderr _ | EvStdout _ | EvPrintAddress _ _ _ _ => True
  end.

(** The same, for a whole run: any pass, either query. *)
Definition run_kind (argc : Z) (argv2 : string) (e : event) : Prop :=
  match e with
  | EvGetaddrinfo s => s = server_name argc argv2
  | EvResSend msg _ => argc = 2 /\ (msg = 0 \/ msg = 1)
  | EvSys s =>
      argc = 3 /\
      match s with sys_sendto _ msg _ => msg = 0 \/ msg = 1 | _ => True end
  | _ => True
  end.


Section Built.

Variable inet_pton4 : string -> option (list byte).
Variable inet_pton6 : string -> option (list byte).
Variable res_mkquery : string -> Z -> Z -> Z * mem.

(** The query of a reverse lookup. *)
Definition ptr_qlen (argv1 : string) : Z :=
  fst (res_mkquery (lookup_name inet_pton4 inet_pton6 argv1) ns_c_in ns_t_ptr).

Definition ptr_query (argv1 : string) : Z -> mem :=
  fun _ =>
    snd (res_mkquery (lookup_name inet_pton4 inet_pton6 argv1) ns_c_in
           ns_t_ptr).

(** The length [res_mkquery] returned for the first query of a run, and
    the number of queries of the run. *)
Definition built_qlen (argv1 : string) : Z :=
  if forward inet_pton4 inet_pton6 argv1 then
    first_qlen inet_pton4 inet_pton6 res_mkquery argv1
  else ptr_qlen argv1.

Definition run_qcount (argv1 : string) : nat :=
  if forward inet_pton4 inet_pton6 argv1 then 2%nat else 1%nat.

End Built.

(** A resolver that knows no server, and a [res_mkquery] that fails. *)
Definition no_getaddrinfo : string -> option addrinfo := fun _ => None.

Definition failing_res_mkquery (name : string) (class type : Z) : Z * mem :=
  (-1, fun _ => 0).

(** A [res_mkquery] that builds the A and PTR queries and fails on
    AAAA. *)
Definition no_aaaa_res_mkquery (name : string) (class type : Z) : Z * mem :=
  if type =? ns_t_aaaa then (-1, fun _ => 0)
  else sample_res_mkquery name class type.

(** * Properties *)

(** ** Function bodies *)

Lemma bind_inl {R A B : Type} (t : trace) (rc : R) (k : A -> M R B) :
  bind (t, inl rc) k = (t, inl rc).
Proof. reflexivity. Qed.

Lemma bind_inr {R A B : Type} (t : trace) (a : A) (k : A -> M R B) :
  bind (t, inr a) k = (t ++ fst (k a), snd (k a)).
Proof. unfold bind. destruct (k a); reflexivity. Qed.

Lemma bind_emit {R B : Type} (e : event) (k : unit -> M R B) :
  bind (emit e) k = (e :: fst (k tt), snd (k tt)).
Proof. unfold emit. rewrite bind_inr. reflexivity. Qed.

Lemma bind_ret {R A B : Type} (a : A) (k : A -> M R B) :
  bind (ret a) k = k a.
Proof. unfold ret. rewrite bind_inr. destruct (k a); reflexivity. Qed.

Lemma bind_invoke {R S B : Type} (callee : M S S) (k : S -> M R B) :
  bind (invoke callee) k =
  (events callee ++ fst (k (result callee)), snd (k (result callee))).
Proof. unfold invoke. apply bind_inr. Qed.

Lemma bind_load {R B : Type} (r : mem) (off : Z) (k : Z -> M R B) :
  bind (load r off) k =
  (EvLoad off :: fst (k (byte_at r off)), snd (k (byte_at r off))).
Proof. unfold load, emit, ret, bind. destruct (k (byte_at r off)); reflexivity. Qed.

(** What a body has done is not undone by what follows it. *)
Lemma bind_prefix {R A B : Type} (m : M R A) (k : A -> M R B) :
  exists t, fst (bind m k) = fst m ++ t.
Proof.
  destruct m as [t [rc | a]].
  - exists []. cbn. now rewrite app_nil_r.
  - rewrite bind_inr. eexists. reflexivity.
Qed.

(** A body that has returned stays returned, whatever follows it. *)
Lemma bind_returned {R A B : Type} (m : M R A) (k : A -> M R B) (rc : R) :
  snd m = inl rc -> bind m k = (fst m, inl rc).
Proof. destruct m as [t [x | a]]; simpl; intros H; congruence. Qed.

(** ** dns_parse *)

Section ParserFacts.

Variable dn_expand : mem -> Z -> Z -> option string.
Variable r : mem.
Variable rlen : Z.

(** The model of the name-skipping loop leaves it only where the loop
    condition of the source is false: at or after [r+rlen], or on a
    byte outside 1..127. *)
Lemma skip_labels_from_exit (n : nat) (p : Z) :
  rlen - p <= Z.of_nat n ->
  exists t p',
    skip_labels_from r rlen (R := Z) n p = (t, inr p') /\
    p <= p' /\
    (p' < rlen -> ((byte_at r p' - 1) mod 2 ^ 32 <? 127) = false).
Proof.
  revert p. induction n as [| n IH]; intros p Hn.
  - exists [], p. repeat split; [lia | intros; lia].
  - cbn [skip_labels_from].
    destruct (Z.ltb_spec p rlen) as [Hlt | Hge].
    + rewrite bind_load.
      destruct ((byte_at r p - 1) mod 2 ^ 32 <? 127) eqn:Hb.
      * destruct (IH (p + 1)) as (t & p' & E & Hle & Hex); [lia |].
        rewrite E. exists (EvLoad p :: t), p'. cbn.
        repeat split; [lia | exact Hex].
      * exists [EvLoad p], p. cbn.
        repeat split; [lia | intros _; exact Hb].
    + exists [], p. repeat split; [lia | intros; lia].
Qed.

Lemma skip_labels_exit (p : Z) :
  exists t p',
    skip_labels r rlen (R := Z) p = (t, inr p') /\
    p <= p' /\
    (p' < rlen -> ((byte_at r p' - 1) mod 2 ^ 32 <? 127) = false).
Proof. apply skip_labels_from_exit. lia. Qed.

(** Past the three header checks, dns_parse is the loads of header bytes
    3 to 7 followed by the walk of the two sections. *)
Lemma dns_parse_accepted :
  12 <= rlen -> rcode_of r = 0 ->
  qdcount_of r + ancount_of r <= 64 ->
  dns_parse dn_expand r rlen =
  (map EvLoad [3; 4; 5; 6; 7] ++
     fst (walk_sections dn_expand r rlen (qdcount_of r) (ancount_of r)),
   snd (walk_sections dn_expand r rlen (qdcount_of r) (ancount_of r))).
Proof.
  intros Hl Hrc Hsum. unfold dns_parse.
  destruct (Z.ltb_spec rlen 12); [lia |].
  rewrite bind_load. fold (rcode_of r). rewrite Hrc.
  cbn [Z.eqb negb]. rewrite !bind_load.
  fold (qdcount_of r) (ancount_of r).
  destruct (Z.ltb_spec 64 (qdcount_of r + ancount_of r)); [lia |].
  reflexivity.
Qed.

(** C3. A response shorter than 12 bytes, or one whose byte 3 has a
    non-zero bit among its low four (the response code), is rejected:
    dns_parse returns -1, and all it has done by then is at most the
    load of byte 3: no callback, no byte of a question or an answer. *)
Theorem dns_parse_rejects_bad_header :
  rlen < 12 \/ rcode_of r <> 0 ->
  result (dns_parse dn_expand r rlen) = -1 /\
  (forall e, In e (events (dns_parse dn_expand r rlen)) -> e = EvLoad 3).
Proof.
  intros H. unfold dns_parse.
  destruct (Z.ltb_spec rlen 12) as [Hs | Hl].
  - split; [reflexivity | intros e []].
  - destruct H as [H | H]; [lia |].
    rewrite bind_load. fold (rcode_of r).
    destruct (Z.eqb_spec (rcode_of r) 0) as [E | _]; [contradiction |].
    cbn. split; [reflexivity |].
    intros e [<- | []]. reflexivity.
Qed.

(** C7. A message whose question count plus answer count exceeds 64 is
    rejected with -1 having loaded nothing but header bytes (offsets
    below 12) and called nothing; with a header of at least 12 bytes, a
    zero response code and a sum of at most 64, dns_parse loads header
    bytes 3 to 7 and then is the walk of the two sections. *)
Theorem dns_parse_count_bound :
  (64 < qdcount_of r + ancount_of r ->
     result (dns_parse dn_expand r rlen) = -1 /\
     (forall e, In e (events (dns_parse dn_expand r rlen)) ->
        exists off, e = EvLoad off /\ 3 <= off <= 7)) /\
  (12 <= rlen -> rcode_of r = 0 ->
     qdcount_of r + ancount_of r <= 64 ->
     dns_parse dn_expand r rlen =
     (map EvLoad [3; 4; 5; 6; 7] ++
        fst (walk_sections dn_expand r rlen (qdcount_of r) (ancount_of r)),
      snd (walk_sections dn_expand r rlen (qdcount_of r) (ancount_of r)))).
Proof.
  split.
  - intros Hsum. unfold dns_parse.
    destruct (Z.ltb_spec rlen 12) as [Hs | Hl].
    { split; [reflexivity | intros e []]. }
    rewrite bind_load. fold (rcode_of r).
    destruct (Z.eqb_spec (rcode_of r) 0) as [E | _].
    + cbn [negb]. rewrite !bind_load.
      fold (qdcount_of r) (ancount_of r).
      destruct (Z.ltb_spec 64 (qdcount_of r + ancount_of r)); [| lia].
      cbn. split; [reflexivity |].
      intros e He.
      repeat (destruct He as [<- | He]; [eexists; split; [reflexivity | lia] |]).
      destruct He.
    + cbn. split; [reflexivity |].
      intros e [<- | []]. eexists; split; [reflexivity | lia].
  - apply dns_parse_accepted.
Qed.

End ParserFacts.

(** Where the walk leaves the declared length: with one question
    announced and nothing after the 12-byte header, the name loop stops at
    [r+12] without a load, and the test after it starts by loading that
    byte. This holds whatever the memory holds. *)
Lemma questions_load_at_length (r : mem) (n : nat) :
  exists t, fst (questions r 12 (S n) 12) = EvLoad 12 :: t.
Proof.
  cbn [questions]. unfold skip_labels.
  change (Z.to_nat (12 - 12)) with 0%nat.
  cbn [skip_labels_from]. rewrite bind_ret.
  match goal with
  | |- context [bind (bad_name_end r 12 12) ?k] =>
      destruct (bind_prefix (bad_name_end r 12 12) k) as [t Ht]
  end.
  rewrite Ht. unfold bad_name_end at 1. rewrite bind_load. cbn [fst app].
  eexists. reflexivity.
Qed.

Lemma header_only_overread (dn_expand : mem -> Z -> Z -> option string)
    (r : mem) :
  rcode_of r = 0 -> 1 <= qdcount_of r ->
  qdcount_of r + ancount_of r <= 64 ->
  In (EvLoad 12) (events (dns_parse dn_expand r 12)).
Proof.
  intros Hrc Hqd Hsum.
  unfold events.
  rewrite (dns_parse_accepted dn_expand r 12 ltac:(lia) Hrc Hsum).
  cbn [fst].
  apply in_or_app. right. unfold walk_sections.
  destruct (Z.to_nat (qdcount_of r)) as [| n] eqn:Hn; [lia |].
  destruct (questions_load_at_length r n) as [t Ht].
  destruct (questions r 12 (S n) 12) as [tq [rc | p]] eqn:Eq;
    cbn [fst] in Ht; subst tq.
  - rewrite bind_inl. cbn. left. reflexivity.
  - rewrite bind_inr. cbn. left. reflexivity.
Qed.

(** C1. On the 12-byte response [header_only], declared length 12,
    dns_parse loads the byte at offset 12, the first byte after the
    declared length. *)
Theorem dns_parse_loads_at_declared_length :
  In (EvLoad 12)
     (events (dns_parse sample_dn_expand (mem_of_list header_only) 12)).
Proof. vm_compute. do 5 right. left. reflexivity. Qed.

(** C2. On the 23-byte response [truncated_record], declared length 23,
    dns_parse calls the callback with the resource data at offset 23 and
    length 10, a region that ends at offset 33, and then returns 0. *)
Theorem dns_parse_passes_data_beyond_message :
  In (EvCall (mkCall 1 23 10 12 23))
     (events (dns_parse sample_dn_expand (mem_of_list truncated_record) 23)) /\
  result (dns_parse sample_dn_expand (mem_of_list truncated_record) 23) = 0 /\
  cb_plen (mkCall 1 23 10 12 23)
    < cb_data (mkCall 1 23 10 12 23) + cb_len (mkCall 1 23 10 12 23).
Proof.
  split; [| split].
  - vm_compute. do 12 right. left. reflexivity.
  - vm_compute. reflexivity.
  - vm_compute. reflexivity.
Qed.

(** ** res_ssend *)

(** C8. [res_ssend] polls at most once, for [POLL_TIMEOUT] = 5000
    milliseconds; when the socket, the bind and the send have succeeded
    and the poll reports nothing readable, it prints "poll timeout",
    closes the socket and returns -1 without a second send, poll or any
    receive; whenever the socket was created, the last thing the function
    does is close it, once; when it was not, there is nothing to close. *)
Theorem res_ssend_single_bounded_wait (n : net) (srv : addrinfo)
    (msg msglen anslen : Z) :
  (forall fd tmo,
     In (EvSys (sys_poll fd tmo)) (events (res_ssend n srv msg msglen anslen)) ->
     tmo = 5000) /\
  (List.length (filter is_poll (events (res_ssend n srv msg msglen anslen)))
     <= 1)%nat /\
  (0 <= socket_rv n -> 0 <= bind_rv n -> 0 <= sendto_rv n -> poll_rv n <= 0 ->
     res_ssend n srv msg msglen anslen =
     ([EvSys (sys_socket (ai_family srv));
       EvSys (sys_bind (socket_rv n));
       EvSys (sys_sendto (socket_rv n) msg msglen);
       EvSys (sys_poll (socket_rv n) 5000);
       stderr_line "poll timeout";
       EvSys (sys_close (socket_rv n))], inl (-1))) /\
  (0 <= socket_rv n ->
     exists t,
       events (res_ssend n srv msg msglen anslen) =
       t ++ [EvSys (sys_close (socket_rv n))] /\
       filter is_close t = []) /\
  (socket_rv n < 0 ->
     result (res_ssend n srv msg msglen anslen) = -1 /\
     filter is_close (events (res_ssend n srv msg msglen anslen)) = []).
Proof.
  unfold res_ssend, err_close.
  destruct (Z.ltb_spec (socket_rv n) 0) as [Hs | Hs];
    [| destruct (Z.ltb_spec (bind_rv n) 0) as [Hb | Hb];
       [| destruct (Z.ltb_spec (sendto_rv n) 0) as [Hd | Hd];
          [| destruct (Z.leb_spec (poll_rv n) 0) as [Hp | Hp];
             [| destruct (Z.ltb_spec (recvfrom_rv n) 0) as [Hr | Hr]]]]];
    cbn; (split; [| split; [| split; [| split]]]);
    try (intros; lia); try lia;
    try (intros fd tmo He;
         repeat (destruct He as [He | He]; [try discriminate He |]);
         try contradiction; inversion He; reflexivity);
    try (intros; reflexivity);
    try (intros _; split; reflexivity).
  - intros _. exists [EvSys (sys_socket (ai_family srv));
                      EvSys (sys_bind (socket_rv n));
                      stderr_line "bind failure"]. split; reflexivity.
  - intros _. exists [EvSys (sys_socket (ai_family srv));
                      EvSys (sys_bind (socket_rv n));
                      EvSys (sys_sendto (socket_rv n) msg msglen);
                      stderr_line "sendto failure"]. split; reflexivity.
  - intros _. exists [EvSys (sys_socket (ai_family srv));
                      EvSys (sys_bind (socket_rv n));
                      EvSys (sys_sendto (socket_rv n) msg msglen);
                      EvSys (sys_poll (socket_rv n) POLL_TIMEOUT);
                      stderr_line "poll timeout"]. split; reflexivity.
  - intros _. exists [EvSys (sys_socket (ai_family srv));
                      EvSys (sys_bind (socket_rv n));
                      EvSys (sys_sendto (socket_rv n) msg msglen);
                      EvSys (sys_poll (socket_rv n) POLL_TIMEOUT);
                      EvSys (sys_recvfrom (socket_rv n) anslen);
                      stderr_line "recvfrom error"]. split; reflexivity.
  - intros _. exists [EvSys (sys_socket (ai_family srv));
                      EvSys (sys_bind (socket_rv n));
                      EvSys (sys_sendto (socket_rv n) msg msglen);
                      EvSys (sys_poll (socket_rv n) POLL_TIMEOUT);
                      EvSys (sys_recvfrom (socket_rv n) anslen)].
    split; reflexivity.
Qed.

(** ** reverse_lookup *)

Lemma append_assoc (s1 s2 s3 : string) :
  ((s1 ++ s2) ++ s3 = s1 ++ (s2 ++ s3))%string.
Proof. induction s1 as [| c s1 IH]; cbn; [| rewrite IH]; reflexivity. Qed.

Lemma append_nil_r (s : string) : (s ++ "" = s)%string.
Proof. induction s as [| c s IH]; cbn; [| rewrite IH]; reflexivity. Qed.

Lemma snprintf_append (s1 s2 : string) :
  snprintf (s1 ++ s2) = snprintf s1 + snprintf s2.
Proof.
  unfold snprintf. induction s1 as [| c s1 IH]; cbn [String.append String.length].
  - reflexivity.
  - rewrite !Nat2Z.inj_succ. lia.
Qed.

Lemma snprintf_nonneg (s : string) : 0 <= snprintf s.
Proof. unfold snprintf. lia. Qed.

Lemma join_app (ws1 ws2 : list string) :
  join (ws1 ++ ws2) = (join ws1 ++ join ws2)%string.
Proof.
  induction ws1 as [| w ws1 IH]; cbn; [reflexivity |].
  rewrite IH, append_assoc. reflexivity.
Qed.

Lemma would_overflow_app (ws1 ws2 : list string) (len : Z) :
  would_overflow (ws1 ++ ws2) len =
  would_overflow ws1 len || would_overflow ws2 (len - snprintf (join ws1)).
Proof.
  revert len. induction ws1 as [| w ws1 IH]; intros len;
    cbn [would_overflow join app orb].
  - change (snprintf "") with 0. rewrite Z.sub_0_r. reflexivity.
  - rewrite IH, snprintf_append, orb_assoc.
    replace (len - (snprintf w + snprintf (join ws1)))
      with (len - snprintf w - snprintf (join ws1)) by lia.
    reflexivity.
Qed.

(** What fits as a whole fits write by write, and conversely. *)
Lemma would_overflow_total (ws : list string) (len : Z) :
  would_overflow ws len = true <-> ws <> [] /\ len <= snprintf (join ws).
Proof.
  revert len. induction ws as [| w ws IH]; intros len;
    cbn [would_overflow join].
  - split; [discriminate | intros [H _]; contradiction].
  - rewrite orb_true_iff, IH, snprintf_append, Z.leb_le.
    pose proof (snprintf_nonneg (join ws)).
    split.
    + intros [H1 | [_ H2]]; split; try discriminate; lia.
    + intros [_ Hle]. destruct ws as [| w' ws].
      * left. change (snprintf (join [])) with 0 in Hle. lia.
      * destruct (Z.le_gt_cases len (snprintf w)); [left; assumption |].
        right. split; [discriminate | lia].
Qed.

(** The loop of the source against the list of its writes. *)
Lemma emit_loop_writes (text_of : Z -> string) (a : list byte) (count : nat) :
  forall (arr : Z) (written : string) (len : Z),
    emit_loop text_of a count arr written len =
    if would_overflow (loop_texts text_of a count arr) len then None
    else Some ((written ++ join (loop_texts text_of a count arr))%string,
               len - snprintf (join (loop_texts text_of a count arr))).
Proof.
  induction count as [| count IH]; intros arr written len;
    cbn [emit_loop loop_texts would_overflow join].
  - rewrite append_nil_r. change (snprintf "") with 0.
    rewrite Z.sub_0_r. reflexivity.
  - pose proof (snprintf_nonneg (text_of (octet a arr))) as Hnn.
    destruct (Z.ltb_spec (snprintf (text_of (octet a arr))) 0); [lia |].
    cbn [orb].
    destruct (len <=? snprintf (text_of (octet a arr))); cbn [orb];
      [reflexivity |].
    rewrite IH.
    destruct (would_overflow _ _); [reflexivity |].
    rewrite append_assoc, snprintf_append.
    replace (len - snprintf (text_of (octet a arr)) -
             snprintf (join (loop_texts text_of a count (arr - 1))))
      with (len - (snprintf (text_of (octet a arr)) +
                   snprintf (join (loop_texts text_of a count (arr - 1)))))
      by lia.
    reflexivity.
Qed.

(** One iteration formats at most four characters in the first loop and
    exactly four in the second, whatever the byte. *)
Lemma v4_text_bound (b : byte) : snprintf (v4_text (Z.of_N (Byte.to_N b))) <= 4.
Proof. destruct b; vm_compute; discriminate. Qed.

Lemma v6_text_size (b : byte) : snprintf (v6_text (Z.of_N (Byte.to_N b))) = 4.
Proof. destruct b; vm_compute; reflexivity. Qed.

Lemma v4_text_decimal (b : byte) :
  v4_text (Z.of_N (Byte.to_N b)) = (decimal b ++ ".")%string.
Proof. unfold v4_text, fmt_u, decimal. rewrite N2Z.id. reflexivity. Qed.

Lemma v6_text_nibbles (b : byte) :
  v6_text (Z.of_N (Byte.to_N b)) = dotted (map hex_digit (nibbles b)).
Proof. destruct b; vm_compute; reflexivity. Qed.

Lemma loop_v4_bound (a : list byte) (count : nat) (arr : Z) :
  snprintf (join (loop_texts v4_text a count arr)) <= 4 * Z.of_nat count.
Proof.
  revert arr. induction count as [| count IH]; intros arr;
    cbn [loop_texts join].
  - change (snprintf "") with 0. lia.
  - rewrite snprintf_append. specialize (IH (arr - 1)).
    pose proof (v4_text_bound (nth (Z.to_nat arr) a x00)) as Hb.
    fold (octet a arr) in Hb. lia.
Qed.

Lemma loop_v6_size (a : list byte) (count : nat) (arr : Z) :
  snprintf (join (loop_texts v6_text a count arr)) = 4 * Z.of_nat count.
Proof.
  revert arr. induction count as [| count IH]; intros arr;
    cbn [loop_texts join].
  - reflexivity.
  - rewrite snprintf_append, (IH (arr - 1)).
    pose proof (v6_text_size (nth (Z.to_nat arr) a x00)) as Hb.
    fold (octet a arr) in Hb. lia.
Qed.

(** The longest names: 28 bytes with the terminator for IPv4, and always
    73 for IPv6. *)
Lemma writes_v4_bound (v4 : list byte) : snprintf (join (writes_v4 v4)) <= 28.
Proof.
  unfold writes_v4. rewrite join_app, snprintf_append.
  pose proof (loop_v4_bound v4 4 3).
  change (snprintf (join ["in-addr.arpa"%string])) with 12. lia.
Qed.

Lemma writes_v6_size (v6 : list byte) : snprintf (join (writes_v6 v6)) = 72.
Proof.
  unfold writes_v6. rewrite join_app, snprintf_append, loop_v6_size.
  reflexivity.
Qed.

Lemma fits_no_overflow (ws : list string) (len : Z) :
  snprintf (join ws) < len -> would_overflow ws len = false.
Proof.
  intros H. destruct (would_overflow ws len) eqn:E; [| reflexivity].
  apply would_overflow_total in E. lia.
Qed.

(** The loops walk the address from its last byte to its first. *)
Lemma loop_texts_app (text_of : Z -> string) (a l : list byte) (count : nat) :
  forall arr : Z,
    Z.of_nat count = arr + 1 -> (count <= List.length a)%nat ->
    loop_texts text_of (a ++ l) count arr = loop_texts text_of a count arr.
Proof.
  induction count as [| count IH]; intros arr Harr Hlen; cbn [loop_texts].
  - reflexivity.
  - rewrite IH by lia. unfold octet.
    rewrite app_nth1 by lia. reflexivity.
Qed.

Lemma loop_texts_rev (text_of : Z -> string) (a : list byte) :
  loop_texts text_of a (List.length a) (Z.of_nat (List.length a) - 1) =
  map (fun b => text_of (Z.of_N (Byte.to_N b))) (rev a).
Proof.
  induction a as [| x a IH] using rev_ind; [reflexivity |].
  rewrite length_app, Nat.add_1_r, rev_unit. cbn [loop_texts map].
  f_equal.
  - unfold octet.
    replace (Z.to_nat (Z.of_nat (S (List.length a)) - 1))
      with (List.length a) by lia.
    rewrite nth_middle. reflexivity.
  - rewrite loop_texts_app by lia.
    replace (Z.of_nat (S (List.length a)) - 1 - 1)
      with (Z.of_nat (List.length a) - 1) by lia.
    exact IH.
Qed.

Lemma dotted_app (l1 l2 : list string) :
  dotted (l1 ++ l2) = (dotted l1 ++ dotted l2)%string.
Proof.
  induction l1 as [| x l1 IH]; cbn [dotted app String.append];
    [reflexivity |].
  rewrite IH, !append_assoc. reflexivity.
Qed.

Lemma join_v4_texts (l : list byte) :
  join (map (fun b => v4_text (Z.of_N (Byte.to_N b))) l) =
  dotted (map decimal l).
Proof.
  induction l as [| b l IH]; cbn [map join dotted]; [reflexivity |].
  rewrite IH, v4_text_decimal, append_assoc. reflexivity.
Qed.

Lemma join_v6_texts (l : list byte) :
  join (map (fun b => v6_text (Z.of_N (Byte.to_N b))) l) =
  dotted (map hex_digit (flat_map nibbles l)).
Proof.
  induction l as [| b l IH]; cbn [map join flat_map]; [reflexivity |].
  rewrite IH, v6_text_nibbles, map_app, dotted_app. reflexivity.
Qed.

Lemma writes_v4_name (v4 : list byte) :
  List.length v4 = 4%nat -> join (writes_v4 v4) = in_addr_arpa v4.
Proof.
  intros H. unfold writes_v4, in_addr_arpa.
  rewrite join_app, <- join_v4_texts, <- loop_texts_rev, H.
  cbn [join]. rewrite append_nil_r. reflexivity.
Qed.

Lemma writes_v6_name (v6 : list byte) :
  List.length v6 = 16%nat -> join (writes_v6 v6) = ip6_arpa v6.
Proof.
  intros H. unfold writes_v6, ip6_arpa.
  rewrite join_app, <- join_v6_texts, <- loop_texts_rev, H.
  cbn [join]. rewrite append_nil_r. reflexivity.
Qed.

Section ReverseFacts.

Variable inet_pton4 : string -> option (list byte).
Variable inet_pton6 : string -> option (list byte).

Local Abbreviation body := (reverse_lookup_body inet_pton4 inet_pton6).
Local Abbreviation lookup := (reverse_lookup inet_pton4 inet_pton6).

Lemma reverse_lookup_body_v4 (addr : string) (len : Z) (v4 : list byte) :
  inet_pton4 addr = Some v4 ->
  body addr len =
  if would_overflow (writes_v4 v4) len then ret_addr
  else ret_buf (join (writes_v4 v4)).
Proof.
  intros E. unfold reverse_lookup_body, writes_v4. rewrite E.
  rewrite emit_loop_writes, would_overflow_app, join_app.
  destruct (would_overflow (loop_texts v4_text v4 4 3) len); [reflexivity |].
  cbn [orb would_overflow join]. rewrite orb_false_r, append_nil_r.
  change (snprintf "in-addr.arpa") with 12.
  destruct (_ <=? 12); reflexivity.
Qed.

Lemma reverse_lookup_body_v6 (addr : string) (len : Z) (v6 : list byte) :
  inet_pton4 addr = None -> inet_pton6 addr = Some v6 ->
  body addr len =
  if would_overflow (writes_v6 v6) len then ret_addr
  else ret_buf (join (writes_v6 v6)).
Proof.
  intros E4 E6. unfold reverse_lookup_body, writes_v6. rewrite E4, E6.
  rewrite emit_loop_writes, would_overflow_app, join_app.
  destruct (would_overflow (loop_texts v6_text v6 16 15) len); [reflexivity |].
  cbn [orb would_overflow join]. rewrite orb_false_r, append_nil_r.
  change (snprintf "ip6.arpa") with 8.
  destruct (_ <=? 8); reflexivity.
Qed.

Lemma reverse_lookup_body_none (addr : string) (len : Z) :
  inet_pton4 addr = None -> inet_pton6 addr = None ->
  body addr len = ret_addr.
Proof.
  intros E4 E6. unfold reverse_lookup_body. rewrite E4, E6. reflexivity.
Qed.

Lemma reverse_lookup_asserted (addr : string) (len : Z) :
  MAXREVLEN <= len -> lookup addr len = body addr len.
Proof.
  intros H. unfold reverse_lookup.
  destruct (Z.ltb_spec len MAXREVLEN); [lia | reflexivity].
Qed.

(** After the assertion: the argument comes back exactly when the input
    is no literal or a write would overflow, and the joined writes come
    back in [buf] otherwise, at every capacity. *)
Lemma reverse_lookup_body_cases (addr : string) (len : Z) :
  (body addr len = ret_addr <->
     (inet_pton4 addr = None /\ inet_pton6 addr = None) \/
     would_overflow (writes inet_pton4 inet_pton6 addr) len = true) /\
  (~ ((inet_pton4 addr = None /\ inet_pton6 addr = None) \/
      would_overflow (writes inet_pton4 inet_pton6 addr) len = true) ->
   body addr len = ret_buf (join (writes inet_pton4 inet_pton6 addr))).
Proof.
  unfold writes.
  destruct (inet_pton4 addr) as [v4 |] eqn:E4;
    [| destruct (inet_pton6 addr) as [v6 |] eqn:E6].
  - rewrite (reverse_lookup_body_v4 addr len v4 E4).
    destruct (would_overflow (writes_v4 v4) len); split.
    + split; [intros _; right; reflexivity | reflexivity].
    + intros H. exfalso. apply H. right. reflexivity.
    + split; [discriminate | intros [[H _] | H]; discriminate].
    + reflexivity.
  - rewrite (reverse_lookup_body_v6 addr len v6 E4 E6).
    destruct (would_overflow (writes_v6 v6) len); split.
    + split; [intros _; right; reflexivity | reflexivity].
    + intros H. exfalso. apply H. right. reflexivity.
    + split; [discriminate | intros [[_ H] | H]; discriminate].
    + reflexivity.
  - rewrite (reverse_lookup_body_none addr len E4 E6). split.
    + split; [intros _; left; split; reflexivity | reflexivity].
    + intros H. exfalso. apply H. left. split; reflexivity.
Qed.

(** C5. With a capacity of at least [MAXREVLEN], an input that parses as
    an IPv4 literal yields [buf] holding its four octets in reverse
    order, each followed by a dot, then "in-addr.arpa"; an input that
    parses as an IPv6 literal yields [buf] holding its 32 nibbles, bytes
    in reverse order and the low nibble first, each as a hex digit
    followed by a dot, then "ip6.arpa". *)
Theorem reverse_lookup_derives_reverse_name (addr : string) (len : Z) :
  MAXREVLEN <= len ->
  (forall v4, inet_pton4 addr = Some v4 -> List.length v4 = 4%nat ->
     lookup addr len = ret_buf (in_addr_arpa v4)) /\
  (forall v6, inet_pton4 addr = None -> inet_pton6 addr = Some v6 ->
     List.length v6 = 16%nat ->
     lookup addr len = ret_buf (ip6_arpa v6) /\
     List.length (flat_map nibbles (rev v6)) = 32%nat).
Proof.
  intros Hlen. rewrite reverse_lookup_asserted by assumption.
  unfold MAXREVLEN in Hlen. split.
  - intros v4 E4 H4. rewrite (reverse_lookup_body_v4 addr len v4 E4).
    pose proof (writes_v4_bound v4).
    rewrite fits_no_overflow by lia.
    rewrite writes_v4_name by assumption. reflexivity.
  - intros v6 E4 E6 H6. split.
    + rewrite (reverse_lookup_body_v6 addr len v6 E4 E6).
      pose proof (writes_v6_size v6).
      rewrite fits_no_overflow by lia.
      rewrite writes_v6_name by assumption. reflexivity.
    + rewrite (flat_map_constant_length (c := 2%nat)) by reflexivity.
      rewrite length_rev, H6. reflexivity.
Qed.

(** C9. With a capacity of at least [MAXREVLEN] = 73 and an input that
    parses as an IPv4 or IPv6 literal, no iteration of either loop takes
    its [return addr], the test after the loop finds more room than the
    suffix needs, and [buf] is returned; for IPv6 the name with its
    terminator takes exactly 73 bytes. *)
Theorem reverse_lookup_fallback_unreachable (addr : string) (len : Z) :
  MAXREVLEN <= len ->
  (forall v4, inet_pton4 addr = Some v4 ->
     exists p len',
       emit_loop v4_text v4 4 3 "" len = Some (p, len') /\ 12 < len' /\
       lookup addr len = ret_buf (p ++ "in-addr.arpa")) /\
  (forall v6, inet_pton4 addr = None -> inet_pton6 addr = Some v6 ->
     exists p len',
       emit_loop v6_text v6 16 15 "" len = Some (p, len') /\ 8 < len' /\
       lookup addr len = ret_buf (p ++ "ip6.arpa") /\
       snprintf (p ++ "ip6.arpa") + 1 = 73).
Proof.
  intros Hlen. rewrite reverse_lookup_asserted by assumption.
  unfold MAXREVLEN in Hlen. split.
  - intros v4 E4. pose proof (loop_v4_bound v4 4 3) as Hb.
    rewrite emit_loop_writes, fits_no_overflow by lia.
    eexists _, _. split; [reflexivity |]. split; [lia |].
    unfold reverse_lookup_body. rewrite E4.
    rewrite emit_loop_writes, fits_no_overflow by lia.
    destruct (Z.leb_spec
                (len - snprintf (join (loop_texts v4_text v4 4 3))) 12);
      [lia | reflexivity].
  - intros v6 E4 E6. pose proof (loop_v6_size v6 16 15) as Hb.
    rewrite emit_loop_writes, fits_no_overflow by lia.
    eexists _, _. split; [reflexivity |]. split; [lia |]. split.
    + unfold reverse_lookup_body. rewrite E4, E6.
      rewrite emit_loop_writes, fits_no_overflow by lia.
      destruct (Z.leb_spec
                  (len - snprintf (join (loop_texts v6_text v6 16 15))) 8);
        [lia | reflexivity].
    + cbn [String.append]. rewrite snprintf_append, Hb. reflexivity.
Qed.

(** C6, as the code has it. Below [MAXREVLEN] the assertion ends the
    process and nothing is returned. From [MAXREVLEN] on, the argument
    itself comes back exactly when the input parses as neither an IPv4
    nor an IPv6 literal or a write would overflow (which no write does at
    such a capacity), and in every other case [buf] comes back holding
    the derived name. The code after the assertion behaves so at every
    capacity. *)
Theorem reverse_lookup_fallback_iff (addr : string) (len : Z) :
  (len < MAXREVLEN -> lookup addr len = assert_failed) /\
  (MAXREVLEN <= len ->
     (lookup addr len = ret_addr <->
        (inet_pton4 addr = None /\ inet_pton6 addr = None) \/
        would_overflow (writes inet_pton4 inet_pton6 addr) len = true) /\
     (~ ((inet_pton4 addr = None /\ inet_pton6 addr = None) \/
         would_overflow (writes inet_pton4 inet_pton6 addr) len = true) ->
      lookup addr len = ret_buf (join (writes inet_pton4 inet_pton6 addr))) /\
     would_overflow (writes inet_pton4 inet_pton6 addr) len = false) /\
  ((body addr len = ret_addr <->
      (inet_pton4 addr = None /\ inet_pton6 addr = None) \/
      would_overflow (writes inet_pton4 inet_pton6 addr) len = true) /\
   (~ ((inet_pton4 addr = None /\ inet_pton6 addr = None) \/
       would_overflow (writes inet_pton4 inet_pton6 addr) len = true) ->
    body addr len = ret_buf (join (writes inet_pton4 inet_pton6 addr)))).
Proof.
  split; [| split].
  - intros H. unfold reverse_lookup.
    destruct (Z.ltb_spec len MAXREVLEN); [reflexivity | lia].
  - intros H. rewrite reverse_lookup_asserted by assumption.
    destruct (reverse_lookup_body_cases addr len) as [H1 H2].
    split; [exact H1 | split; [exact H2 |]].
    unfold MAXREVLEN in H. unfold writes.
    destruct (inet_pton4 addr) as [v4 |];
      [| destruct (inet_pton6 addr) as [v6 |]].
    + pose proof (writes_v4_bound v4). apply fits_no_overflow. lia.
    + pose proof (writes_v6_size v6). apply fits_no_overflow. lia.
    + reflexivity.
  - apply reverse_lookup_body_cases.
Qed.

End ReverseFacts.

(** ** The events of a body, kind by kind *)

Lemma all_bind {R A B : Type} (P : event -> Prop) (m : M R A)
    (k : A -> M R B) :
  all_events P m -> (forall a, all_events P (k a)) -> all_events P (bind m k).
Proof.
  unfold all_events. destruct m as [t [rc | a]]; intros Hm Hk.
  - exact Hm.
  - rewrite bind_inr. apply Forall_app. split; [exact Hm | apply Hk].
Qed.

Lemma all_events_impl {R A : Type} (P Q : event -> Prop) (m : M R A) :
  (forall e, P e -> Q e) -> all_events P m -> all_events Q m.
Proof. intros H. unfold all_events. apply Forall_impl. exact H. Qed.

Lemma all_ret {R A : Type} (P : event -> Prop) (a : A) :
  all_events P (ret (R := R) a).
Proof. constructor. Qed.

Lemma all_Return {R A : Type} (P : event -> Prop) (rc : R) :
  all_events P (Return (A := A) rc).
Proof. constructor. Qed.

Lemma all_emit {R : Type} (P : event -> Prop) (e : event) :
  P e -> all_events P (emit (R := R) e).
Proof. intros H. repeat constructor. exact H. Qed.

Lemma all_invoke {R S : Type} (P : event -> Prop) (callee : M S S) :
  all_events P callee -> all_events P (invoke (R := R) callee).
Proof. intros H. exact H. Qed.

Ltac all_step :=
  first
    [ apply all_bind; [| intros ? ]
    | apply all_ret
    | apply all_Return
    | apply all_emit; exact I
    | apply all_invoke ].

Section ParserEvents.

Variable dn_expand : mem -> Z -> Z -> option string.
Variable r : mem.
Variable rlen : Z.

Lemma load_events {R : Type} (off : Z) :
  all_events parser_event (load (R := R) r off).
Proof. unfold load. repeat all_step. Qed.

Lemma skip_labels_events {R : Type} (n : nat) (p : Z) :
  all_events parser_event (skip_labels_from (R := R) r rlen n p).
Proof.
  revert p. induction n as [| n IH]; intros p; cbn [skip_labels_from];
    [all_step |].
  destruct (p <? rlen); [| all_step].
  all_step; [apply load_events |].
  destruct (_ <? 127); [apply IH | all_step].
Qed.

Lemma bad_name_end_events {R : Type} (p : Z) :
  all_events parser_event (bad_name_end (R := R) r rlen p).
Proof.
  unfold bad_name_end. all_step; [apply load_events |].
  destruct (193 <? _); [all_step |].
  all_step; [apply load_events |].
  all_step.
  - destruct (_ =? 193); [| all_step].
    all_step; [apply load_events | all_step].
  - destruct a1; all_step.
Qed.

Lemma dns_print_events (rr data len as_ : Z) (p : mem) (plen : Z) :
  all_events parser_event (dns_print dn_expand rr data len as_ p plen).
Proof.
  unfold dns_print, print_address.
  destruct (dn_expand p plen as_); [| repeat all_step].
  all_step; [| all_step].
  destruct (_ || _); [all_step |].
  destruct (_ || _); [| all_step].
  all_step; [all_step |].
  destruct (dn_expand p plen data); repeat all_step.
Qed.

Lemma questions_events (n : nat) (p : Z) :
  all_events parser_event (questions r rlen n p).
Proof.
  revert p. induction n as [| n IH]; intros p; cbn [questions];
    [all_step |].
  all_step; [apply skip_labels_events |].
  all_step; [apply bad_name_end_events |].
  destruct a0; [all_step |].
  all_step; [apply load_events | apply IH].
Qed.

Lemma answers_events (n : nat) (p : Z) :
  all_events parser_event (answers dn_expand r rlen n p).
Proof.
  revert p. induction n as [| n IH]; intros p; cbn [answers];
    [all_step |].
  all_step; [apply skip_labels_events |].
  all_step; [apply bad_name_end_events |].
  destruct a0; [all_step |].
  all_step; [apply load_events |].
  all_step; [apply load_events |].
  all_step; [apply load_events |].
  destruct (rlen <? _); [all_step |].
  all_step; [apply load_events |].
  all_step; [all_step |].
  all_step; [all_step; apply dns_print_events |].
  destruct (_ <? 0); [all_step | apply IH].
Qed.

Lemma dns_parse_events :
  all_events parser_event (dns_parse dn_expand r rlen).
Proof.
  unfold dns_parse, walk_sections.
  destruct (rlen <? 12); [all_step |].
  all_step; [apply load_events |].
  destruct (negb _); [all_step |].
  do 4 (all_step; [apply load_events |]).
  destruct (64 <? _); [all_step |].
  all_step; [apply questions_events |].
  all_step; [apply answers_events | all_step].
Qed.

End ParserEvents.

(** ** How far the walk can stray *)

Lemma ensures_bind {R A B : Type} (P : event -> Prop) (Q : A -> Prop)
    (Q' : B -> Prop) (m : M R A) (k : A -> M R B) :
  ensures P Q m -> (forall a, Q a -> ensures P Q' (k a)) ->
  ensures P Q' (bind m k).
Proof.
  unfold ensures. destruct m as [t [rc | a]]; cbn [fst snd];
    intros [Hm Hq] Hk.
  - split; [exact Hm | discriminate].
  - rewrite bind_inr. destruct (Hk a (Hq a eq_refl)) as [Hk1 Hk2].
    split; [apply Forall_app; split; assumption | exact Hk2].
Qed.

Lemma ensures_ret {R A : Type} (P : event -> Prop) (Q : A -> Prop) (a : A) :
  Q a -> ensures P Q (ret (R := R) a).
Proof.
  intros H. split; [constructor |]. cbn. intros a' E.
  inversion E. subst. exact H.
Qed.

Lemma ensures_Return {R A : Type} (P : event -> Prop) (Q : A -> Prop)
    (rc : R) :
  ensures P Q (Return (A := A) rc).
Proof. split; [constructor | discriminate]. Qed.

Lemma ensures_load {R : Type} (P : event -> Prop) (Q : Z -> Prop) (r : mem)
    (off : Z) :
  P (EvLoad off) -> Q (byte_at r off) -> ensures P Q (load (R := R) r off).
Proof.
  intros Hp Hq. split; [repeat constructor; exact Hp |].
  cbn. intros a E. inversion E. subst. exact Hq.
Qed.

Lemma ensures_all {R A : Type} (P : event -> Prop) (m : M R A) :
  all_events P m -> ensures P (fun _ => True) m.
Proof. intros H. split; [exact H | trivial]. Qed.

Lemma byte_at_range (r : mem) (i : Z) : 0 <= byte_at r i < 256.
Proof. unfold byte_at. apply Z.mod_pos_bound. lia. Qed.

Lemma nonzero_range (b : Z) : 0 <= nonzero b <= 1.
Proof. unfold nonzero. destruct (b =? 0); lia. Qed.

Section Envelope.

Variable dn_expand : mem -> Z -> Z -> option string.
Variable r : mem.
Variable rlen : Z.

Lemma skip_labels_within {R : Type} (n : nat) (p : Z) :
  0 <= p ->
  ensures (within rlen) (fun p' => p <= p' <= Z.max p rlen)
    (skip_labels_from (R := R) r rlen n p).
Proof.
  revert p. induction n as [| n IH]; intros p Hp; cbn [skip_labels_from].
  - apply ensures_ret. lia.
  - destruct (Z.ltb_spec p rlen) as [Hlt | Hge]; [| apply ensures_ret; lia].
    eapply ensures_bind.
    + apply (ensures_load _ (fun _ => True)); [cbn [within]; lia | exact I].
    + intros b _. destruct (_ <? 127); [| apply ensures_ret; lia].
      destruct (IH (p + 1) ltac:(lia)) as [H1 H2].
      split; [exact H1 |]. intros p' E. specialize (H2 p' E). lia.
Qed.

Lemma bad_name_end_within {R : Type} (p : Z) :
  0 <= p <= rlen + 10 ->
  ensures (within rlen) (fun bad => bad = false -> p <= rlen - 6)
    (bad_name_end (R := R) r rlen p).
Proof.
  intros Hp. unfold bad_name_end.
  eapply ensures_bind.
  { apply (ensures_load _ (fun _ => True)); [cbn [within]; lia | exact I]. }
  intros b _. destruct (193 <? b); [apply ensures_ret; discriminate |].
  eapply ensures_bind.
  { apply (ensures_load _ (fun _ => True)); [cbn [within]; lia | exact I]. }
  intros b' _. eapply ensures_bind with (Q := fun _ => True).
  { destruct (b' =? 193); [| apply ensures_ret; exact I].
    eapply ensures_bind.
    - apply (ensures_load _ (fun _ => True)); [cbn [within]; lia | exact I].
    - intros b1 _. apply ensures_ret. exact I. }
  intros c _. destruct c; apply ensures_ret; [discriminate |].
  intros H. apply Z.ltb_ge in H. exact H.
Qed.

Lemma dns_print_within (rr data len as_ : Z) (p : mem) (plen : Z) :
  all_events (within rlen) (dns_print dn_expand rr data len as_ p plen).
Proof.
  unfold dns_print, print_address.
  destruct (dn_expand p plen as_); [| repeat all_step].
  all_step; [| all_step].
  destruct (_ || _); [all_step |].
  destruct (_ || _); [| all_step].
  all_step; [all_step |].
  destruct (dn_expand p plen data); repeat all_step.
Qed.

Lemma questions_within (n : nat) (p : Z) :
  0 <= p <= rlen ->
  ensures (within rlen) (fun p' => 0 <= p' <= rlen) (questions r rlen n p).
Proof.
  revert p. induction n as [| n IH]; intros p Hp; cbn [questions].
  { apply ensures_ret. exact Hp. }
  eapply ensures_bind; [apply skip_labels_within; lia |].
  intros p1 Hp1. cbv beta in Hp1.
  eapply ensures_bind; [apply bad_name_end_within; lia |].
  intros bad Hbad. destruct bad; [apply ensures_Return |].
  specialize (Hbad eq_refl).
  eapply ensures_bind.
  { apply (ensures_load _ (fun _ => True)); [cbn [within]; lia | exact I]. }
  intros b _. pose proof (nonzero_range b). apply IH. lia.
Qed.

Lemma answers_within (n : nat) (p : Z) :
  0 <= p <= rlen + 10 ->
  ensures (within rlen) (fun _ => True) (answers dn_expand r rlen n p).
Proof.
  revert p. induction n as [| n IH]; intros p Hp; cbn [answers].
  { apply ensures_ret. exact I. }
  eapply ensures_bind; [apply skip_labels_within; lia |].
  intros p1 Hp1. cbv beta in Hp1.
  eapply ensures_bind; [apply bad_name_end_within; lia |].
  intros bad Hbad. destruct bad; [apply ensures_Return |].
  specialize (Hbad eq_refl).
  eapply ensures_bind.
  { apply (ensures_load _ (fun _ => True)); [cbn [within]; lia | exact I]. }
  intros b _. pose proof (nonzero_range b) as Hnz. cbv zeta.
  eapply ensures_bind.
  { apply (ensures_load _ (fun _ => True)); [cbn [within]; lia | exact I]. }
  intros hi _.
  eapply ensures_bind.
  { apply (ensures_load _ (fun _ => True)); [cbn [within]; lia | exact I]. }
  intros lo _.
  pose proof (Z.mod_pos_bound (hi * 256 + lo) (2 ^ 32) ltac:(lia)) as Hlen.
  destruct (Z.ltb_spec rlen (p1 + (1 + nonzero b) +
                             (hi * 256 + lo) mod 2 ^ 32));
    [apply ensures_Return |].
  eapply ensures_bind.
  { apply (ensures_load _ (fun _ => True)); [cbn [within]; lia | exact I]. }
  intros rr _.
  eapply ensures_bind with (Q := fun _ => True).
  { split; [| trivial]. repeat constructor; cbn [within cb_plen cb_as cb_data cb_len]; lia. }
  intros _ _.
  eapply ensures_bind with (Q := fun _ => True).
  { apply ensures_all, all_invoke, dns_print_within. }
  intros rc _. destruct (rc <? 0); [apply ensures_Return |].
  apply IH. lia.
Qed.

(** Whatever the message, dns_parse loads no byte at or after offset
    [rlen + 12], and the data it hands to the callback ends at most 10
    bytes after the message. *)
Lemma dns_parse_within :
  all_events (within rlen) (dns_parse dn_expand r rlen).
Proof.
  unfold dns_parse.
  destruct (Z.ltb_spec rlen 12); [all_step |].
  assert (Hh : forall off, 0 <= off < 12 ->
                 all_events (within rlen) (load (R := Z) r off)).
  { intros off Hoff. unfold load. all_step; [| all_step].
    apply all_emit. cbn [within]. lia. }
  all_step; [apply Hh; lia |].
  destruct (negb _); [all_step |].
  rewrite !bind_load. unfold all_events. cbn [fst].
  repeat (constructor; [cbn [within]; lia |]).
  destruct (64 <? _); [constructor |].
  assert (Hw : ensures (within rlen) (fun _ : Z => True)
                 (walk_sections dn_expand r rlen
                    (byte_at r 4 * 256 + byte_at r 5)
                    (byte_at r 6 * 256 + byte_at r 7))).
  { unfold walk_sections.
    eapply ensures_bind; [apply questions_within; lia |].
    intros p Hp. cbv beta in Hp.
    eapply ensures_bind with (Q := fun _ => True).
    - apply answers_within. lia.
    - intros _ _. apply ensures_ret. exact I. }
  exact (proj1 Hw).
Qed.

End Envelope.

(** ** main *)

Lemma res_ssend_events (n : net) (srv : addrinfo) (msg msglen anslen : Z) :
  all_events (exchange_event msg) (res_ssend n srv msg msglen anslen).
Proof.
  unfold res_ssend, err_close.
  all_step; [all_step |].
  destruct (socket_rv n <? 0); [repeat all_step |].
  all_step; [all_step |].
  destruct (bind_rv n <? 0); [repeat all_step |].
  all_step; [apply all_emit; reflexivity |].
  destruct (sendto_rv n <? 0); [repeat all_step |].
  all_step; [all_step |].
  destruct (poll_rv n <=? 0); [repeat all_step |].
  all_step; [all_step |].
  destruct (recvfrom_rv n <? 0); repeat all_step.
Qed.

Lemma parser_event_exchanges_nothing (q : Z) (e : event) :
  parser_event e -> about_query q e = false.
Proof. destruct e; cbn; intros H; try reflexivity; contradiction. Qed.

Lemma exchange_event_other_query (q q' : Z) (e : event) :
  q <> q' -> exchange_event q e -> about_query q' e = false.
Proof.
  intros Hq. destruct e as [| | | | | s | msg | |]; cbn; intros H;
    try reflexivity.
  - destruct s; try reflexivity. subst. apply Z.eqb_neq. exact Hq.
  - subst. apply Z.eqb_neq. exact Hq.
Qed.

Lemma exchange_event_no_parse (q : Z) (e : event) :
  exchange_event q e -> is_load e = false /\ is_call e = false.
Proof. destruct e; cbn; intros H; try contradiction; split; reflexivity. Qed.

Section ProgramFacts.

Variable inet_pton4 : string -> option (list byte).
Variable inet_pton6 : string -> option (list byte).
Variable dn_expand : mem -> Z -> Z -> option string.
Variable res_mkquery : string -> Z -> Z -> Z * mem.
Variable getaddrinfo : string -> option addrinfo.
Variable res_send : Z -> Z * mem.
Variable network : Z -> net.

Lemma resolve_server_events (q : Z) (server : string) :
  all_events (exchange_event q) (resolve_server getaddrinfo server).
Proof.
  unfold resolve_server, print_address.
  all_step; [all_step |].
  destruct (getaddrinfo server); repeat all_step.
Qed.

Lemma resolve_server_result (server : string) :
  result (resolve_server getaddrinfo server) = getaddrinfo server.
Proof.
  unfold resolve_server, print_address.
  rewrite bind_emit. destruct (getaddrinfo server); reflexivity.
Qed.

Section LoopFacts.

Variable argc : Z.
Variable argv2 : string.
Variable query : Z -> mem.
Variable qlen2 : Z.
Variable qcount : Z.

Local Abbreviation exch := (exchange getaddrinfo res_send network argc argv2).
Local Abbreviation step :=
  (query_step dn_expand getaddrinfo res_send network argc argv2 query qlen2
     qcount).
Local Abbreviation loop :=
  (queries dn_expand getaddrinfo res_send network argc argv2 query qlen2
     qcount).

Lemma server_once_events (q i : Z) (server : string)
    (srv : option addrinfo) :
  all_events (exchange_event q) (server_once getaddrinfo i server srv).
Proof.
  unfold server_once. destruct (i =? 0); [| all_step].
  all_step; [apply all_invoke, resolve_server_events |].
  destruct a; all_step.
Qed.

Lemma exchange_events (i : Z) (srv : option addrinfo) (cq qlen : Z) :
  all_events (exchange_event cq) (exch i srv cq qlen).
Proof.
  unfold exchange.
  destruct (argc =? 2); [| destruct (argc =? 3)]; [| | all_step].
  - all_step; [apply server_once_events |].
    all_step; [apply all_emit; reflexivity |].
    destruct (res_send i). all_step.
  - all_step; [apply server_once_events |].
    destruct a; [| all_step].
    all_step; [apply all_invoke, res_ssend_events | all_step].
Qed.

Lemma free_last_continues (i : Z) :
  snd (free_last qcount i) = inr tt.
Proof. unfold free_last. destruct (i =? qcount - 1); reflexivity. Qed.

(** The loop body once the exchange has handed back a response. *)
Lemma query_step_after_exchange (i cq qlen : Z) (srv srv' : option addrinfo)
    (rlen : Z) (response : mem) (t : trace) :
  0 <= switch_qlen qlen2 i qlen ->
  exch i srv (switch_query i cq) (switch_qlen qlen2 i qlen) =
    (t, inr (srv', rlen, response)) ->
  step i cq qlen srv =
  bind (t ++ fst (free_last qcount i), inr tt)
    (fun _ =>
       if rlen <? 0 then
         bind (emit (stderr_line "cannot send the query"))
           (fun _ => Return EXIT_FAILURE)
       else if memcmp2 (query (switch_query i cq)) response then
         bind (emit (stderr_line "qsections don't match"))
           (fun _ => Return EXIT_FAILURE)
       else
         bind (invoke (dns_parse dn_expand response rlen))
           (fun rc =>
              if rc <? 0 then
                bind (emit (stderr_line "decode failure"))
                  (fun _ => Return EXIT_FAILURE)
              else ret (switch_query i cq, switch_qlen qlen2 i qlen, srv'))).
Proof.
  intros Hq E. unfold query_step.
  destruct (Z.ltb_spec (switch_qlen qlen2 i qlen) 0); [lia |].
  rewrite E, bind_inr.
  pose proof (free_last_continues i) as Hf.
  destruct (free_last qcount i) as [tf [rc | []]]; [discriminate |].
  cbn [fst]. rewrite !bind_inr. cbn [fst snd].
  rewrite app_assoc. reflexivity.
Qed.

Lemma memcmp2_first_two (a b : mem) :
  memcmp2 a b = true <-> first_two a <> first_two b.
Proof.
  unfold memcmp2, first_two.
  destruct (Z.eqb_spec (byte_at a 0) (byte_at b 0)) as [E0 | N0];
    destruct (Z.eqb_spec (byte_at a 1) (byte_at b 1)) as [E1 | N1]; cbn;
    split; intros H; try reflexivity; try discriminate; try congruence.
Qed.

(** C4. Once the exchange of a pass has handed back a response ([rlen]
    not negative), a response whose first two bytes differ from those of
    the query sent ends the program: the loop returns [EXIT_FAILURE],
    which is not zero, having printed "qsections don't match" (not the
    "cannot send the query" of a failed transport) and nothing else after
    the exchange, so no byte of the response is loaded and no record is
    handed to the callback. Only a response with the same two bytes goes
    on to [dns_parse]. This holds for every content of the response. *)
Theorem query_step_checks_transaction_id (i cq qlen : Z)
    (srv srv' : option addrinfo) (rlen : Z) (response : mem) (t : trace) :
  0 <= switch_qlen qlen2 i qlen ->
  exch i srv (switch_query i cq) (switch_qlen qlen2 i qlen) =
    (t, inr (srv', rlen, response)) ->
  0 <= rlen ->
  (first_two (query (switch_query i cq)) <> first_two response ->
     (forall n, loop (S n) i cq qlen srv =
        (t ++ fst (free_last qcount i) ++
           [stderr_line "qsections don't match"], inl EXIT_FAILURE)) /\
     EXIT_FAILURE <> 0 /\
     stderr_line "qsections don't match" <>
       stderr_line "cannot send the query" /\
     Forall (fun e => is_load e = false /\ is_call e = false)
       (t ++ fst (free_last qcount i) ++
          [stderr_line "qsections don't match"])) /\
  (first_two (query (switch_query i cq)) = first_two response ->
     exists rest,
       step i cq qlen srv =
       (t ++ fst (free_last qcount i) ++
          events (dns_parse dn_expand response rlen) ++ fst rest,
        snd rest) /\
       rest =
       (if result (dns_parse dn_expand response rlen) <? 0 then
          bind (emit (stderr_line "decode failure"))
            (fun _ => Return EXIT_FAILURE)
        else ret (switch_query i cq, switch_qlen qlen2 i qlen, srv'))).
Proof.
  intros Hq E Hr.
  pose proof (query_step_after_exchange i cq qlen srv srv' rlen response t
                Hq E) as Hstep.
  destruct (Z.ltb_spec rlen 0); [lia |].
  split.
  - intros Hne. apply memcmp2_first_two in Hne. rewrite Hne in Hstep.
    rewrite bind_inr, bind_emit in Hstep. cbn [fst snd Return] in Hstep.
    rewrite <- app_assoc in Hstep.
    split; [| split; [| split]].
    + intros n. cbn [queries]. rewrite Hstep. reflexivity.
    + discriminate.
    + discriminate.
    + apply Forall_app. split.
      * pose proof (exchange_events i srv (switch_query i cq)
                      (switch_qlen qlen2 i qlen)) as He.
        unfold all_events in He. rewrite E in He. cbn [fst] in He.
        eapply Forall_impl; [| exact He].
        intros e. apply exchange_event_no_parse.
      * unfold free_last. destruct (i =? qcount - 1);
          repeat constructor.
  - intros Heq.
    destruct (memcmp2 (query (switch_query i cq)) response) eqn:Hm.
    { apply memcmp2_first_two in Hm. contradiction. }
    rewrite bind_inr, bind_invoke in Hstep. cbn [fst snd] in Hstep.
    eexists. split; [| reflexivity].
    rewrite Hstep, <- app_assoc. reflexivity.
Qed.

(** A [return] in a pass is a [return] of the loop, and a pass that
    falls through hands its variables to the next one. *)
Lemma queries_returned (n : nat) (i cq qlen : Z) (srv : option addrinfo)
    (rc : Z) :
  snd (step i cq qlen srv) = inl rc ->
  loop (S n) i cq qlen srv = (fst (step i cq qlen srv), inl rc).
Proof. intros H. cbn [queries]. apply bind_returned. exact H. Qed.

Lemma queries_continued (n : nat) (i cq qlen : Z) (srv : option addrinfo)
    (t : trace) (cq' qlen' : Z) (srv' : option addrinfo) :
  step i cq qlen srv = (t, inr (cq', qlen', srv')) ->
  loop (S n) i cq qlen srv =
  (t ++ fst (loop n (i + 1) cq' qlen' srv'),
   snd (loop n (i + 1) cq' qlen' srv')).
Proof. intros H. cbn [queries]. rewrite H, bind_inr. reflexivity. Qed.

(** A pass never sends a query other than its own. *)
Lemma query_step_events (i cq qlen : Z) (srv : option addrinfo) (q : Z) :
  switch_query i cq <> q ->
  all_events (fun e => about_query q e = false) (step i cq qlen srv).
Proof.
  intros Hq. unfold query_step.
  destruct (switch_qlen qlen2 i qlen <? 0).
  { all_step; [apply all_emit; reflexivity | all_step]. }
  all_step.
  { eapply all_events_impl; [| apply exchange_events].
    intros e. apply exchange_event_other_query. exact Hq. }
  destruct a as [[srv' rlen] response].
  all_step.
  { unfold free_last. destruct (i =? qcount - 1);
      [apply all_emit; reflexivity | all_step]. }
  destruct (rlen <? 0).
  { all_step; [apply all_emit; reflexivity | all_step]. }
  destruct (memcmp2 _ _).
  { all_step; [apply all_emit; reflexivity | all_step]. }
  all_step.
  { apply all_invoke. eapply all_events_impl; [| apply dns_parse_events].
    intros e. apply parser_event_exchanges_nothing. }
  destruct (a0 <? 0); [| all_step].
  all_step; [apply all_emit; reflexivity | all_step].
Qed.

(** With two or three arguments, the first exchange leaves [main] only
    through the [return EXIT_FAILURE] after [resolve_server]. *)
Lemma exchange_first_returns (cq qlen : Z) (t : trace) (rc : Z) :
  2 <= argc <= 3 ->
  exch 0 None cq qlen = (t, inl rc) -> rc = EXIT_FAILURE.
Proof.
  intros Hargc. unfold exchange, server_once. cbn [Z.eqb].
  destruct (Z.eqb_spec argc 2) as [E2 | N2];
    [| destruct (Z.eqb_spec argc 3) as [E3 | N3]; [| lia]].
  - rewrite bind_invoke, resolve_server_result.
    destruct (getaddrinfo "127.0.0.1") as [a |].
    + cbn [ret fst snd]. rewrite bind_inr, bind_emit.
      destruct (res_send 0). cbn. discriminate.
    + cbn. intros H. inversion H. reflexivity.
  - rewrite bind_invoke, resolve_server_result.
    destruct (getaddrinfo argv2) as [a |].
    + cbn [ret fst snd]. rewrite bind_inr, bind_invoke.
      cbn. discriminate.
    + cbn. intros H. inversion H. reflexivity.
Qed.

End LoopFacts.

Local Abbreviation prog :=
  (main inet_pton4 inet_pton6 dn_expand res_mkquery getaddrinfo res_send
     network).
Local Abbreviation fails :=
  (first_query_fails inet_pton4 inet_pton6 dn_expand res_mkquery getaddrinfo
     res_send network).
Local Abbreviation qlen1 := (first_qlen inet_pton4 inet_pton6 res_mkquery).
Local Abbreviation qlen2 := (second_qlen inet_pton4 inet_pton6 res_mkquery).
Local Abbreviation queries2 :=
  (forward_queries inet_pton4 inet_pton6 res_mkquery).
Local Abbreviation exchange1 :=
  (first_exchange inet_pton4 inet_pton6 res_mkquery getaddrinfo res_send
     network).

Lemma reverse_lookup_body_returns (addr : string) (len : Z) :
  reverse_lookup_body inet_pton4 inet_pton6 addr len <> assert_failed.
Proof.
  unfold reverse_lookup_body.
  destruct (inet_pton4 addr); [| destruct (inet_pton6 addr)];
    repeat match goal with
           | |- context [match ?x with _ => _ end] => destruct x
           end; discriminate.
Qed.

(** A forward lookup is the loop over two queries. *)
Lemma main_forward (argc : Z) (argv0 argv1 argv2 : string) :
  2 <= argc <= 3 -> forward inet_pton4 inet_pton6 argv1 = true ->
  prog argc argv0 argv1 argv2 =
  bind (queries dn_expand getaddrinfo res_send network argc argv2
          (queries2 argv1) (qlen2 argv1) 2 2 0 0 (qlen1 argv1) None)
       (fun _ => ret EXIT_SUCCESS).
Proof.
  intros Hargc Hfwd. unfold main.
  destruct (Z.ltb_spec argc 2); [lia |].
  destruct (Z.ltb_spec 3 argc); [lia |]. cbn [orb].
  rewrite Hfwd. unfold first_qlen, second_qlen, forward_queries.
  destruct (res_mkquery (lookup_name inet_pton4 inet_pton6 argv1) ns_c_in
              ns_t_a) as [qlen q0].
  destruct (res_mkquery (lookup_name inet_pton4 inet_pton6 argv1) ns_c_in
              ns_t_aaaa) as [qlen' q1].
  cbn [fst snd].
  pose proof (reverse_lookup_body_returns argv1 MAXREVLEN) as Hb.
  unfold reverse_lookup. change (MAXREVLEN <? MAXREVLEN) with false.
  cbv iota.
  destruct (reverse_lookup_body inet_pton4 inet_pton6 argv1 MAXREVLEN);
    [contradiction | reflexivity | reflexivity].
Qed.

Local Abbreviation step1 :=
  (fun argc argv1 argv2 =>
     query_step dn_expand getaddrinfo res_send network argc argv2
       (queries2 argv1) (qlen2 argv1) 2 0 0 (qlen1 argv1) None).

(** Whatever the stage, a failing first query makes the first pass
    execute [return EXIT_FAILURE]. *)
Lemma first_pass_returns (argc : Z) (argv1 argv2 : string) :
  2 <= argc <= 3 -> fails argc argv1 argv2 ->
  snd (step1 argc argv1 argv2) = inl EXIT_FAILURE.
Proof.
  intros Hargc Hf. cbv beta.
  destruct Hf as [Hq | t rc Hq E | t srv rlen response Hq E Hr
                  | t srv rlen response Hq E Hr Hm
                  | t srv rlen response Hq E Hr Hm Hd].
  - unfold query_step. change (switch_qlen (qlen2 argv1) 0 (qlen1 argv1))
      with (qlen1 argv1).
    destruct (Z.ltb_spec (qlen1 argv1) 0); [reflexivity | lia].
  - unfold query_step. change (switch_qlen (qlen2 argv1) 0 (qlen1 argv1))
      with (qlen1 argv1).
    destruct (Z.ltb_spec (qlen1 argv1) 0); [lia |].
    unfold first_exchange in E. change (switch_query 0 0) with 0.
    rewrite E, bind_inl. cbn [snd].
    rewrite (exchange_first_returns argc argv2 0 (qlen1 argv1) t rc Hargc E).
    reflexivity.
  - rewrite (query_step_after_exchange argc argv2 (queries2 argv1)
               (qlen2 argv1) 2 0 0 (qlen1 argv1) None srv rlen response t
               Hq E).
    rewrite bind_inr. destruct (Z.ltb_spec rlen 0); [reflexivity | lia].
  - rewrite (query_step_after_exchange argc argv2 (queries2 argv1)
               (qlen2 argv1) 2 0 0 (qlen1 argv1) None srv rlen response t
               Hq E).
    rewrite bind_inr. destruct (Z.ltb_spec rlen 0); [lia |].
    change (switch_query 0 0) with 0. rewrite Hm. reflexivity.
  - rewrite (query_step_after_exchange argc argv2 (queries2 argv1)
               (qlen2 argv1) 2 0 0 (qlen1 argv1) None srv rlen response t
               Hq E).
    rewrite bind_inr. destruct (Z.ltb_spec rlen 0); [lia |].
    change (switch_query 0 0) with 0. rewrite Hm, bind_invoke.
    destruct (Z.ltb_spec (result (dns_parse dn_expand response rlen)) 0);
      [reflexivity | lia].
Qed.

(** A first query that passes every stage leaves the first pass with the
    events of its exchange followed by those of the whole parse. *)
Lemma first_pass_continues (argc : Z) (argv1 argv2 : string) (t : trace)
    (srv : option addrinfo) (rlen : Z) (response : mem) :
  0 <= qlen1 argv1 ->
  exchange1 argc argv1 argv2 = (t, inr (srv, rlen, response)) ->
  0 <= rlen -> memcmp2 (queries2 argv1 0) response = false ->
  0 <= result (dns_parse dn_expand response rlen) ->
  step1 argc argv1 argv2 =
  (t ++ events (dns_parse dn_expand response rlen),
   inr (0, qlen1 argv1, srv)).
Proof.
  intros Hq E Hr Hm Hd. cbv beta.
  rewrite (query_step_after_exchange argc argv2 (queries2 argv1)
             (qlen2 argv1) 2 0 0 (qlen1 argv1) None srv rlen response t
             Hq E).
  rewrite bind_inr. destruct (Z.ltb_spec rlen 0); [lia |].
  change (switch_query 0 0) with 0. rewrite Hm, bind_invoke.
  destruct (Z.ltb_spec (result (dns_parse dn_expand response rlen)) 0);
    [lia |].
  cbn. rewrite !app_nil_r. reflexivity.
Qed.

End ProgramFacts.

(** * Further properties of the code *)

(** ** res_ssend *)

(** X1. [res_ssend] returns a non-negative value exactly when the
    socket, the bind and the send succeed, the poll reports something
    readable and the receive succeeds; that value is what [recvfrom]
    returned. Every other outcome is -1, and it comes with exactly one
    line on the error stream, where a success prints none. *)
Theorem res_ssend_result (n : net) (srv : addrinfo) (msg msglen anslen : Z) :
  (0 <= result (res_ssend n srv msg msglen anslen) <->
     0 <= socket_rv n /\ 0 <= bind_rv n /\ 0 <= sendto_rv n /\
     0 < poll_rv n /\ 0 <= recvfrom_rv n) /\
  (0 <= result (res_ssend n srv msg msglen anslen) ->
     result (res_ssend n srv msg msglen anslen) = recvfrom_rv n) /\
  (result (res_ssend n srv msg msglen anslen) < 0 ->
     result (res_ssend n srv msg msglen anslen) = -1) /\
  count is_stderr (events (res_ssend n srv msg msglen anslen)) =
    if result (res_ssend n srv msg msglen anslen) <? 0 then 1%nat else 0%nat.
Proof.
  unfold res_ssend, err_close.
  destruct (Z.ltb_spec (socket_rv n) 0) as [Hs | Hs];
    [| destruct (Z.ltb_spec (bind_rv n) 0) as [Hb | Hb];
       [| destruct (Z.ltb_spec (sendto_rv n) 0) as [Hd | Hd];
          [| destruct (Z.leb_spec (poll_rv n) 0) as [Hp | Hp];
             [| destruct (Z.ltb_spec (recvfrom_rv n) 0) as [Hr | Hr]]]]];
    cbn [bind emit Return ret fst snd app result events];
    repeat split; intros; try lia; try reflexivity.
  unfold count. cbn [filter is_stderr stderr_line List.length].
  destruct (Z.ltb_spec (recvfrom_rv n) 0); [lia | reflexivity].
Qed.

(** X2. The system calls of [res_ssend] are, in this order, a
    non-empty beginning of: socket, bind, sendto of the given message,
    poll, recvfrom into the given size; followed by the close of the
    socket when it was created. The receive is reached only after a
    poll that reported something readable, so one message is sent and at
    most one received. *)
Theorem res_ssend_syscall_order (n : net) (srv : addrinfo)
    (msg msglen anslen : Z) :
  exists k : nat,
    (1 <= k)%nat /\
    syscalls (events (res_ssend n srv msg msglen anslen)) =
      firstn k [sys_socket (ai_family srv);
                sys_bind (socket_rv n);
                sys_sendto (socket_rv n) msg msglen;
                sys_poll (socket_rv n) POLL_TIMEOUT;
                sys_recvfrom (socket_rv n) anslen] ++
      (if socket_rv n <? 0 then [] else [sys_close (socket_rv n)]) /\
    ((5 <= k)%nat -> 0 <= sendto_rv n /\ 0 < poll_rv n).
Proof.
  unfold res_ssend, err_close.
  destruct (Z.ltb_spec (socket_rv n) 0) as [Hs | Hs];
    [exists 1%nat
    | destruct (Z.ltb_spec (bind_rv n) 0) as [Hb | Hb];
      [exists 2%nat
      | destruct (Z.ltb_spec (sendto_rv n) 0) as [Hd | Hd];
        [exists 3%nat
        | destruct (Z.leb_spec (poll_rv n) 0) as [Hp | Hp];
          [exists 4%nat
          | exists 5%nat;
            destruct (Z.ltb_spec (recvfrom_rv n) 0) as [Hr | Hr]]]]];
    (split; [lia | split; [reflexivity | intros; lia]]).
Qed.

(** ** dns_print *)

(** X3. [dns_print] returns -1 exactly when [dn_expand] fails on the
    owner name, or the record is a CNAME or a PTR and [dn_expand] fails
    on its data; its last act is then the line "dn_expand() error", the
    only one on the error stream. Otherwise it returns 0 and the error
    stream stays empty. A record of any other type than A, AAAA, CNAME
    and PTR prints nothing at all. *)
Theorem dns_print_reports_expansion_failure
    (dn_expand : mem -> Z -> Z -> option string)
    (rr data len as_ : Z) (p : mem) (plen : Z) :
  (dn_expand p plen as_ = None \/
   ((rr = RR_TYPE_CNAME \/ rr = RR_TYPE_PTR) /\
    dn_expand p plen data = None) ->
   result (dns_print dn_expand rr data len as_ p plen) = -1 /\
   exists t,
     events (dns_print dn_expand rr data len as_ p plen) =
       t ++ [stderr_line "dn_expand() error"] /\
     count is_stderr t = 0%nat) /\
  (~ (dn_expand p plen as_ = None \/
      ((rr = RR_TYPE_CNAME \/ rr = RR_TYPE_PTR) /\
       dn_expand p plen data = None)) ->
   result (dns_print dn_expand rr data len as_ p plen) = 0 /\
   count is_stderr (events (dns_print dn_expand rr data len as_ p plen))
     = 0%nat) /\
  (dn_expand p plen as_ <> None ->
   rr <> RR_TYPE_A -> rr <> RR_TYPE_AAAA ->
   rr <> RR_TYPE_CNAME -> rr <> RR_TYPE_PTR ->
   events (dns_print dn_expand rr data len as_ p plen) = []).
Proof.
  unfold dns_print, print_address.
  destruct (dn_expand p plen as_) as [name |] eqn:Eo.
  2:{ split; [| split].
      - intros _. split; [reflexivity |]. exists []. split; reflexivity.
      - intros H. exfalso. apply H. left. reflexivity.
      - intros H. contradiction. }
  destruct (Z.eqb_spec rr RR_TYPE_A) as [Ea | Na];
    [| destruct (Z.eqb_spec rr RR_TYPE_AAAA) as [Eaa | Naa]];
    cbn [orb].
  1,2: (split; [| split];
        [ intros [H | [[H | H] _]];
          [discriminate | subst; discriminate | subst; discriminate]
        | intros _; split; reflexivity
        | intros _ H1 H2; contradiction ]).
  destruct (Z.eqb_spec rr RR_TYPE_CNAME) as [Ec | Nc];
    [| destruct (Z.eqb_spec rr RR_TYPE_PTR) as [Ep | Np]];
    cbn [orb].
  1,2: (destruct (dn_expand p plen data) as [target |] eqn:Ed;
        (split; [| split];
         [ first
             [ intros [H | [_ H]]; discriminate
             | intros _; split; [reflexivity |];
               eexists [_]; split; reflexivity ]
         | first
             [ intros _; split; reflexivity
             | intros H; exfalso; apply H; right; split;
               [auto | reflexivity] ]
         | intros _ _ _ H1 H2; contradiction ])).
  split; [| split].
  - intros [H | [[H | H] _]]; [discriminate | contradiction | contradiction].
  - intros _. split; reflexivity.
  - intros. reflexivity.
Qed.

(** ** dns_parse: where it reads and what it hands over *)

Section WalkFacts.

Variable dn_expand : mem -> Z -> Z -> option string.
Variable r : mem.
Variable rlen : Z.

Lemma load_walk {R : Type} (off : Z) :
  3 <= off < rlen + 12 ->
  ensures (walk_event r rlen) (fun v => v = byte_at r off)
    (load (R := R) r off).
Proof. intros H. apply ensures_load; [exact H | reflexivity]. Qed.

Lemma skip_labels_walk {R : Type} (n : nat) (p : Z) :
  12 <= p ->
  ensures (walk_event r rlen) (fun p' => p <= p' <= Z.max p rlen)
    (skip_labels_from (R := R) r rlen n p).
Proof.
  revert p. induction n as [| n IH]; intros p Hp; cbn [skip_labels_from].
  - apply ensures_ret. lia.
  - destruct (Z.ltb_spec p rlen) as [Hlt | Hge]; [| apply ensures_ret; lia].
    eapply ensures_bind; [apply load_walk; lia |].
    intros b _. destruct (_ <? 127); [| apply ensures_ret; lia].
    destruct (IH (p + 1) ltac:(lia)) as [H1 H2].
    split; [exact H1 |]. intros p' E. specialize (H2 p' E). lia.
Qed.

Lemma bad_name_end_walk {R : Type} (p : Z) :
  12 <= p <= rlen + 10 ->
  ensures (walk_event r rlen) (fun bad => bad = false -> p <= rlen - 6)
    (bad_name_end (R := R) r rlen p).
Proof.
  intros Hp. unfold bad_name_end.
  eapply ensures_bind; [apply load_walk; lia |].
  intros b _. destruct (193 <? b); [apply ensures_ret; discriminate |].
  eapply ensures_bind; [apply load_walk; lia |].
  intros b' _. eapply ensures_bind with (Q := fun _ => True).
  { destruct (b' =? 193); [| apply ensures_ret; exact I].
    eapply ensures_bind; [apply load_walk; lia |].
    intros b1 _. apply ensures_ret. exact I. }
  intros c _. destruct c; apply ensures_ret; [discriminate |].
  intros H. apply Z.ltb_ge in H. exact H.
Qed.

Lemma dns_print_walk (rr data len as_ : Z) (p : mem) (plen : Z) :
  all_events (walk_event r rlen) (dns_print dn_expand rr data len as_ p plen).
Proof.
  unfold dns_print, print_address.
  destruct (dn_expand p plen as_); [| repeat all_step].
  all_step; [| all_step].
  destruct (_ || _); [all_step |].
  destruct (_ || _); [| all_step].
  all_step; [all_step |].
  destruct (dn_expand p plen data); repeat all_step.
Qed.

Lemma questions_walk (n : nat) (p : Z) :
  12 <= p <= rlen ->
  ensures (walk_event r rlen) (fun p' => 12 <= p' <= rlen)
    (questions r rlen n p).
Proof.
  revert p. induction n as [| n IH]; intros p Hp; cbn [questions].
  { apply ensures_ret. exact Hp. }
  eapply ensures_bind; [apply skip_labels_walk; lia |].
  intros p1 Hp1. cbv beta in Hp1.
  eapply ensures_bind; [apply bad_name_end_walk; lia |].
  intros bad Hbad. destruct bad; [apply ensures_Return |].
  specialize (Hbad eq_refl).
  eapply ensures_bind; [apply load_walk; lia |].
  intros b _. pose proof (nonzero_range b). apply IH. lia.
Qed.

Lemma answers_walk (n : nat) (p : Z) :
  12 <= p <= rlen + 10 ->
  ensures (walk_event r rlen) (fun _ => True) (answers dn_expand r rlen n p).
Proof.
  revert p. induction n as [| n IH]; intros p Hp; cbn [answers].
  { apply ensures_ret. exact I. }
  eapply ensures_bind; [apply skip_labels_walk; lia |].
  intros p1 Hp1. cbv beta in Hp1.
  eapply ensures_bind; [apply bad_name_end_walk; lia |].
  intros bad Hbad. destruct bad; [apply ensures_Return |].
  specialize (Hbad eq_refl).
  eapply ensures_bind; [apply load_walk; lia |].
  intros b _. pose proof (nonzero_range b) as Hnz. cbv zeta.
  eapply ensures_bind; [apply load_walk; lia |].
  intros hi Hhi. cbv beta in Hhi.
  eapply ensures_bind; [apply load_walk; lia |].
  intros lo Hlo. cbv beta in Hlo.
  pose proof (byte_at_range r (p1 + (1 + nonzero b) + 8)) as Rhi.
  pose proof (byte_at_range r (p1 + (1 + nonzero b) + 9)) as Rlo.
  rewrite Z.mod_small by (subst hi lo; lia).
  destruct (Z.ltb_spec rlen (p1 + (1 + nonzero b) + (hi * 256 + lo)));
    [apply ensures_Return |].
  eapply ensures_bind; [apply load_walk; lia |].
  intros rr Hrr. cbv beta in Hrr.
  eapply ensures_bind with (Q := fun _ => True).
  { split; [| trivial]. apply Forall_cons; [| apply Forall_nil].
    cbn [walk_event]. unfold call_ok.
    cbn [cb_plen cb_as cb_data cb_len cb_rr].
    replace (p1 + (1 + nonzero b) + 10 - 9) with (p1 + (1 + nonzero b) + 1)
      by lia.
    replace (p1 + (1 + nonzero b) + 10 - 2) with (p1 + (1 + nonzero b) + 8)
      by lia.
    replace (p1 + (1 + nonzero b) + 10 - 1) with (p1 + (1 + nonzero b) + 9)
      by lia.
    subst hi lo rr. repeat split; try lia. }
  intros _ _.
  eapply ensures_bind with (Q := fun _ => True).
  { apply ensures_all, all_invoke, dns_print_walk. }
  intros rc _. destruct (rc <? 0); [apply ensures_Return |].
  apply IH. subst hi lo. lia.
Qed.

Lemma dns_parse_walk :
  all_events (walk_event r rlen) (dns_parse dn_expand r rlen).
Proof.
  unfold dns_parse.
  destruct (Z.ltb_spec rlen 12); [all_step |].
  rewrite bind_load. unfold all_events. cbn [fst].
  constructor; [cbn [walk_event]; lia |].
  destruct (negb _); [constructor |].
  rewrite !bind_load. cbn [fst].
  repeat (constructor; [cbn [walk_event]; lia |]).
  destruct (64 <? _); [constructor |].
  assert (Hw : ensures (walk_event r rlen) (fun _ : Z => True)
                 (walk_sections dn_expand r rlen
                    (byte_at r 4 * 256 + byte_at r 5)
                    (byte_at r 6 * 256 + byte_at r 7))).
  { unfold walk_sections.
    eapply ensures_bind; [apply questions_walk; lia |].
    intros p Hp. cbv beta in Hp.
    eapply ensures_bind with (Q := fun _ => True).
    - apply answers_walk. lia.
    - intros _ _. apply ensures_ret. exact I. }
  exact (proj1 Hw).
Qed.

(** X4. Whatever the message and its declared length, every byte
    [dns_parse] loads lies from offset 3 up to, but not including, offset
    [rlen + 12]; and every record it hands to the callback has its owner
    name starting inside the message after the header, its data right
    after ten bytes of fixed fields, the type byte and the data length
    that the message stores in those fields, and a data region that ends
    at most ten bytes after the message. *)
Theorem dns_parse_reads_and_calls :
  (forall off, In (EvLoad off) (events (dns_parse dn_expand r rlen)) ->
     3 <= off < rlen + 12) /\
  (forall c, In (EvCall c) (events (dns_parse dn_expand r rlen)) ->
     call_ok r rlen c).
Proof.
  pose proof dns_parse_walk as H. unfold all_events in H.
  rewrite Forall_forall in H. unfold events.
  split; intros x Hx; exact (H _ Hx).
Qed.

End WalkFacts.

(** ** Counting events of a body *)

Lemma count_app (f : event -> bool) (t1 t2 : trace) :
  count f (t1 ++ t2) = (count f t1 + count f t2)%nat.
Proof. unfold count. rewrite filter_app, length_app. reflexivity. Qed.

Lemma count_none (f : event -> bool) (t : trace) :
  Forall (fun e => f e = false) t -> count f t = 0%nat.
Proof.
  unfold count. induction 1 as [| e t He _ IH]; cbn; [reflexivity |].
  rewrite He. exact IH.
Qed.

Lemma exactly_bind {R A B : Type} (f : event -> bool) (n1 n2 : nat)
    (m : M R A) (k : A -> M R B) :
  exactly f n1 m -> (forall a, exactly f n2 (k a)) ->
  exactly f (n1 + n2) (bind m k).
Proof.
  unfold exactly. destruct m as [t [rc | a]]; cbn [fst snd];
    intros [Hle Heq] Hk.
  - rewrite bind_inl. cbn [fst snd]. split; [lia | discriminate].
  - rewrite bind_inr. cbn [fst snd]. rewrite count_app.
    destruct (Hk a) as [Hk1 Hk2]. specialize (Heq a eq_refl).
    split; [lia |]. intros b Hb. rewrite (Hk2 b Hb). lia.
Qed.

Lemma exactly_none {R A : Type} (f : event -> bool) (m : M R A) :
  all_events (fun e => f e = false) m -> exactly f 0 m.
Proof.
  intros H. unfold exactly. rewrite (count_none f _ H).
  split; [lia | reflexivity].
Qed.

Lemma exactly_Return {R A : Type} (f : event -> bool) (n : nat) (rc : R) :
  exactly f n (Return (A := A) rc).
Proof. split; [cbn; lia | discriminate]. Qed.

Lemma returns_only_bind {R A B : Type} (S : R -> Prop) (m : M R A)
    (k : A -> M R B) :
  returns_only S m -> (forall a, returns_only S (k a)) ->
  returns_only S (bind m k).
Proof.
  unfold returns_only. destruct m as [t [rc | a]]; intros Hm Hk rc' E.
  - rewrite bind_inl in E. cbn in E. apply (Hm rc'). cbn. congruence.
  - rewrite bind_inr in E. eapply Hk. exact E.
Qed.

Lemma returns_only_continues {R A : Type} (S : R -> Prop) (m : M R A)
    (a : A) :
  snd m = inr a -> returns_only S m.
Proof. intros E rc E'. congruence. Qed.

(** ** The parts of the walk, for any kind of event they produce *)

Section WalkKinds.

Variable dn_expand : mem -> Z -> Z -> option string.
Variable r : mem.
Variable rlen : Z.
Variable P : event -> Prop.
Hypothesis P_load : forall off, P (EvLoad off).

Lemma load_any {R : Type} (off : Z) : all_events P (load (R := R) r off).
Proof. unfold load. all_step; [apply all_emit, P_load | all_step]. Qed.

Lemma skip_labels_any {R : Type} (n : nat) (p : Z) :
  all_events P (skip_labels_from (R := R) r rlen n p).
Proof.
  revert p. induction n as [| n IH]; intros p; cbn [skip_labels_from];
    [all_step |].
  destruct (p <? rlen); [| all_step].
  all_step; [apply load_any |].
  destruct (_ <? 127); [apply IH | all_step].
Qed.

Lemma bad_name_end_any {R : Type} (p : Z) :
  all_events P (bad_name_end (R := R) r rlen p).
Proof.
  unfold bad_name_end. all_step; [apply load_any |].
  destruct (193 <? _); [all_step |].
  all_step; [apply load_any |].
  all_step.
  - destruct (_ =? 193); [| all_step].
    all_step; [apply load_any | all_step].
  - destruct a1; all_step.
Qed.

Lemma questions_any (n : nat) (p : Z) :
  all_events P (questions r rlen n p).
Proof.
  revert p. induction n as [| n IH]; intros p; cbn [questions];
    [all_step |].
  all_step; [apply skip_labels_any |].
  all_step; [apply bad_name_end_any |].
  destruct a0; [all_step |].
  all_step; [apply load_any | apply IH].
Qed.

Lemma skip_labels_continues {R : Type} (n : nat) (p : Z) :
  exists p', snd (skip_labels_from (R := R) r rlen n p) = inr p'.
Proof.
  revert p. induction n as [| n IH]; intros p; cbn [skip_labels_from].
  - eexists. reflexivity.
  - destruct (p <? rlen); [| eexists; reflexivity].
    rewrite bind_load. cbn [snd].
    destruct (_ <? 127); [apply IH | eexists; reflexivity].
Qed.

Lemma bad_name_end_continues {R : Type} (p : Z) :
  exists bad, snd (bad_name_end (R := R) r rlen p) = inr bad.
Proof.
  unfold bad_name_end, load, bind, emit, ret. cbn.
  repeat match goal with
         | |- context [if ?c then _ else _] => destruct c; cbn
         end; eexists; reflexivity.
Qed.

End WalkKinds.

Lemma dns_print_output (dn_expand : mem -> Z -> Z -> option string)
    (P : event -> Prop) (rr data len as_ : Z) (p : mem) (plen : Z) :
  (forall s, P (EvStderr s)) -> (forall s, P (EvStdout s)) ->
  (forall l n f a, P (EvPrintAddress l n f a)) ->
  all_events P (dns_print dn_expand rr data len as_ p plen).
Proof.
  intros H1 H2 H3. unfold dns_print, print_address.
  destruct (dn_expand p plen as_).
  2:{ all_step; [apply all_emit, H1 | all_step]. }
  all_step; [| all_step].
  destruct (_ || _); [apply all_emit, H3 |].
  destruct (_ || _); [| all_step].
  all_step; [apply all_emit, H2 |].
  destruct (dn_expand p plen data).
  - apply all_emit, H2.
  - all_step; [apply all_emit, H1 | all_step].
Qed.

(** ** dns_parse: how many records, and what it returns *)

Section CountFacts.

Variable dn_expand : mem -> Z -> Z -> option string.
Variable r : mem.
Variable rlen : Z.

Lemma load_no_call {R : Type} (off : Z) :
  exactly is_call 0 (load (R := R) r off).
Proof. apply exactly_none, load_any. reflexivity. Qed.

Lemma answers_calls (n : nat) (p : Z) :
  exactly is_call n (answers dn_expand r rlen n p).
Proof.
  revert p. induction n as [| n IH]; intros p; cbn [answers].
  { apply exactly_none. all_step. }
  apply (exactly_bind is_call 0 (S n)).
  { apply exactly_none, skip_labels_any. reflexivity. }
  intros p1. apply (exactly_bind is_call 0 (S n)).
  { apply exactly_none, bad_name_end_any. reflexivity. }
  intros bad. destruct bad; [apply exactly_Return |].
  apply (exactly_bind is_call 0 (S n)); [apply load_no_call |].
  intros b. cbv zeta.
  apply (exactly_bind is_call 0 (S n)); [apply load_no_call |].
  intros hi.
  apply (exactly_bind is_call 0 (S n)); [apply load_no_call |].
  intros lo. destruct (rlen <? _); [apply exactly_Return |].
  apply (exactly_bind is_call 0 (S n)); [apply load_no_call |].
  intros rr. apply (exactly_bind is_call 1 n).
  { split; [cbn; lia | reflexivity]. }
  intros _. apply (exactly_bind is_call 0 n).
  { apply exactly_none, all_invoke, dns_print_output; reflexivity. }
  intros rc. destruct (rc <? 0); [apply exactly_Return | apply IH].
Qed.

Lemma walk_sections_calls (qdcount ancount : Z) :
  exactly is_call (Z.to_nat ancount)
    (walk_sections dn_expand r rlen qdcount ancount).
Proof.
  unfold walk_sections. generalize (Z.to_nat ancount). intros n.
  apply (exactly_bind is_call 0 n).
  { apply exactly_none, questions_any. reflexivity. }
  intros p. rewrite <- (Nat.add_0_r n) at 1.
  apply exactly_bind; [apply answers_calls |].
  intros _. apply exactly_none. all_step.
Qed.

Lemma questions_returns (n : nat) (p : Z) :
  returns_only (fun rc => rc = -1) (questions r rlen n p).
Proof.
  revert p. induction n as [| n IH]; intros p; cbn [questions].
  { intros rc E. discriminate. }
  apply returns_only_bind.
  { destruct (skip_labels_continues r rlen (R := Z)
                (Z.to_nat (rlen - p)) p) as [p' E].
    eapply returns_only_continues. exact E. }
  intros p1. apply returns_only_bind.
  { destruct (bad_name_end_continues r rlen (R := Z) p1) as [b E].
    eapply returns_only_continues. exact E. }
  intros bad. destruct bad.
  { intros rc E. inversion E. reflexivity. }
  apply returns_only_bind; [intros rc E; discriminate | intros b; apply IH].
Qed.

Lemma answers_returns (n : nat) (p : Z) :
  returns_only (fun rc => rc = -1) (answers dn_expand r rlen n p).
Proof.
  revert p. induction n as [| n IH]; intros p; cbn [answers].
  { intros rc E. discriminate. }
  apply returns_only_bind.
  { destruct (skip_labels_continues r rlen (R := Z)
                (Z.to_nat (rlen - p)) p) as [p' E].
    eapply returns_only_continues. exact E. }
  intros p1. apply returns_only_bind.
  { destruct (bad_name_end_continues r rlen (R := Z) p1) as [b E].
    eapply returns_only_continues. exact E. }
  intros bad. destruct bad.
  { intros rc E. inversion E. reflexivity. }
  apply returns_only_bind; [intros rc E; discriminate |].
  intros b. cbv zeta.
  apply returns_only_bind; [intros rc E; discriminate |]. intros hi.
  apply returns_only_bind; [intros rc E; discriminate |]. intros lo.
  destruct (rlen <? _); [intros rc E; inversion E; reflexivity |].
  apply returns_only_bind; [intros rc E; discriminate |]. intros rr.
  apply returns_only_bind; [intros rc E; discriminate |]. intros _.
  apply returns_only_bind; [intros rc E; discriminate |]. intros rc.
  destruct (rc <? 0); [intros rc' E; inversion E; reflexivity | apply IH].
Qed.

Lemma walk_sections_result (qdcount ancount : Z) :
  snd (walk_sections dn_expand r rlen qdcount ancount) = inr 0 \/
  snd (walk_sections dn_expand r rlen qdcount ancount) = inl (-1).
Proof.
  unfold walk_sections.
  pose proof (questions_returns (Z.to_nat qdcount) 12) as Hq.
  destruct (questions r rlen (Z.to_nat qdcount) 12) as [tq [rc | p]].
  { right. rewrite bind_inl. cbn. f_equal. apply Hq. reflexivity. }
  rewrite bind_inr. cbn [snd].
  pose proof (answers_returns (Z.to_nat ancount) p) as Ha.
  destruct (answers dn_expand r rlen (Z.to_nat ancount) p) as [ta [rc | p']].
  { right. rewrite bind_inl. cbn. f_equal. apply Ha. reflexivity. }
  left. rewrite bind_inr. reflexivity.
Qed.

(** X5. [dns_parse] returns 0 or -1. It hands to the callback at most
    as many records as the header's answer count says, and never more
    than 64. When it returns 0, the message had at least its 12 header
    bytes, a zero response code and at most 64 questions and answers in
    all, and the callback has been called exactly once per announced
    answer. *)
Theorem dns_parse_calls_per_answer :
  (result (dns_parse dn_expand r rlen) = 0 \/
   result (dns_parse dn_expand r rlen) = -1) /\
  (count is_call (events (dns_parse dn_expand r rlen))
     <= Z.to_nat (ancount_of r))%nat /\
  (count is_call (events (dns_parse dn_expand r rlen)) <= 64)%nat /\
  (result (dns_parse dn_expand r rlen) = 0 ->
     12 <= rlen /\ rcode_of r = 0 /\
     qdcount_of r + ancount_of r <= 64 /\
     count is_call (events (dns_parse dn_expand r rlen))
       = Z.to_nat (ancount_of r)).
Proof.
  assert (Hrej : forall t : trace,
             Forall (fun e => is_call e = false) t ->
             dns_parse dn_expand r rlen = (t, inl (-1)) ->
             (result (dns_parse dn_expand r rlen) = 0 \/
              result (dns_parse dn_expand r rlen) = -1) /\
             (count is_call (events (dns_parse dn_expand r rlen))
                <= Z.to_nat (ancount_of r))%nat /\
             (count is_call (events (dns_parse dn_expand r rlen)) <= 64)%nat /\
             (result (dns_parse dn_expand r rlen) = 0 ->
                12 <= rlen /\ rcode_of r = 0 /\
                qdcount_of r + ancount_of r <= 64 /\
                count is_call (events (dns_parse dn_expand r rlen))
                  = Z.to_nat (ancount_of r))).
  { intros t Ht E. rewrite E. unfold result, events. cbn [fst snd].
    rewrite (count_none _ _ Ht).
    repeat split; lia. }
  destruct (Z.lt_ge_cases rlen 12) as [Hs | Hl].
  { apply (Hrej []); [constructor |]. unfold dns_parse.
    destruct (Z.ltb_spec rlen 12); [reflexivity | lia]. }
  destruct (Z.eq_dec (rcode_of r) 0) as [Hrc | Hrc].
  2:{ apply (Hrej [EvLoad 3]); [repeat constructor |]. unfold dns_parse.
      destruct (Z.ltb_spec rlen 12); [lia |].
      rewrite bind_load. fold (rcode_of r).
      destruct (Z.eqb_spec (rcode_of r) 0); [contradiction | reflexivity]. }
  destruct (Z.le_gt_cases (qdcount_of r + ancount_of r) 64) as [Hsum | Hsum].
  2:{ apply (Hrej (map EvLoad [3; 4; 5; 6; 7])); [repeat constructor |].
      unfold dns_parse.
      destruct (Z.ltb_spec rlen 12); [lia |].
      rewrite bind_load. fold (rcode_of r). rewrite Hrc.
      cbn [Z.eqb negb]. rewrite !bind_load.
      fold (qdcount_of r) (ancount_of r).
      destruct (Z.ltb_spec 64 (qdcount_of r + ancount_of r)); [| lia].
      reflexivity. }
  rewrite (dns_parse_accepted dn_expand r rlen Hl Hrc Hsum).
  unfold result, events. cbn [fst snd]. rewrite count_app.
  change (count is_call (map EvLoad [3; 4; 5; 6; 7])) with 0%nat.
  cbn [Nat.add].
  destruct (walk_sections_calls (qdcount_of r) (ancount_of r)) as [Hle Heq].
  pose proof (byte_at_range r 4). pose proof (byte_at_range r 5).
  assert (Hq : 0 <= qdcount_of r) by (unfold qdcount_of; lia).
  destruct (walk_sections_result (qdcount_of r) (ancount_of r)) as [E | E];
    rewrite E.
  - split; [left; reflexivity |]. split; [exact Hle |]. split; [lia |].
    intros _. repeat split; try assumption. apply (Heq 0 E).
  - split; [right; reflexivity |]. split; [exact Hle |]. split; [lia |].
    intros Hz. discriminate.
Qed.

End CountFacts.

(** ** dns_parse: a failed expansion ends the walk *)

Lemma stops_bind {R A B : Type} (e0 : event) (m : M R A) (k : A -> M R B) :
  stops_at e0 m -> (forall a, stops_at e0 (k a)) -> stops_at e0 (bind m k).
Proof.
  unfold stops_at. destruct m as [t [rc | a]]; cbn [fst snd]; intros Hm Hk.
  - rewrite bind_inl. exact Hm.
  - rewrite bind_inr. cbn [fst snd]. specialize (Hk a).
    destruct (k a) as [t' [rc | b]]; cbn [fst snd] in *.
    + destruct Hk as [Hk | (t1 & E & Hk)].
      * left. rewrite in_app_iff. tauto.
      * right. exists (t ++ t1). subst t'. rewrite app_assoc.
        split; [reflexivity |]. rewrite in_app_iff. tauto.
    + rewrite in_app_iff. tauto.
Qed.

Lemma stops_clean {R A : Type} (e0 : event) (m : M R A) :
  all_events (fun e => e <> e0) m -> stops_at e0 m.
Proof.
  unfold all_events, stops_at. intros H.
  assert (Hn : ~ In e0 (fst m)).
  { intros Hin. rewrite Forall_forall in H. exact (H e0 Hin eq_refl). }
  destruct (snd m); [left |]; exact Hn.
Qed.

Lemma dns_print_outcome (dn_expand : mem -> Z -> Z -> option string)
    (rr data len as_ : Z) (p : mem) (plen : Z) :
  (result (dns_print dn_expand rr data len as_ p plen) = -1 /\
   exists t,
     events (dns_print dn_expand rr data len as_ p plen) =
       t ++ [dn_expand_error] /\ ~ In dn_expand_error t) \/
  (result (dns_print dn_expand rr data len as_ p plen) = 0 /\
   ~ In dn_expand_error (events (dns_print dn_expand rr data len as_ p plen))).
Proof.
  unfold dns_print, print_address, dn_expand_error.
  destruct (dn_expand p plen as_) as [name |].
  2:{ left. split; [reflexivity |]. exists []. split; [reflexivity |].
      intros []. }
  destruct (_ || _).
  { right. split; [reflexivity |]. cbn. intros [H | []]. discriminate. }
  destruct (_ || _).
  2:{ right. split; [reflexivity |]. cbn. intros []. }
  destruct (dn_expand p plen data) as [target |].
  - right. split; [reflexivity |]. cbn.
    intros [H | [H | []]]; discriminate.
  - left. split; [reflexivity |]. eexists [_]. split; [reflexivity |].
    cbn. intros [H | []]. discriminate.
Qed.

Section ErrorFacts.

Variable dn_expand : mem -> Z -> Z -> option string.
Variable r : mem.
Variable rlen : Z.

Lemma load_clean {R : Type} (off : Z) :
  stops_at dn_expand_error (load (R := R) r off).
Proof. apply stops_clean, load_any. discriminate. Qed.

Lemma dns_print_then {A : Type} (rr data len as_ : Z) (k : M Z A) :
  stops_at dn_expand_error k ->
  stops_at dn_expand_error
    (bind (invoke (dns_print dn_expand rr data len as_ r rlen))
       (fun rc => if rc <? 0 then Return (-1) else k)).
Proof.
  intros Hk. rewrite bind_invoke.
  destruct (dns_print_outcome dn_expand rr data len as_ r rlen)
    as [[Hr (t & E & Hn)] | [Hr Hn]]; rewrite Hr.
  - unfold stops_at. cbn. right. exists t. rewrite E, app_nil_r.
    split; [reflexivity | exact Hn].
  - cbn [Z.ltb Z.compare]. unfold stops_at in *. cbn [fst snd].
    destruct k as [t' [rc | b]]; cbn [fst snd] in *.
    + destruct Hk as [Hk | (t1 & E & Hk)].
      * left. rewrite in_app_iff. tauto.
      * right. exists (events (dns_print dn_expand rr data len as_ r rlen)
                         ++ t1).
        subst t'. rewrite app_assoc. split; [reflexivity |].
        rewrite in_app_iff. tauto.
    + rewrite in_app_iff. tauto.
Qed.

Lemma answers_stop (n : nat) (p : Z) :
  stops_at dn_expand_error (answers dn_expand r rlen n p).
Proof.
  revert p. induction n as [| n IH]; intros p; cbn [answers].
  { apply stops_clean. all_step. }
  apply stops_bind; [apply stops_clean, skip_labels_any; discriminate |].
  intros p1.
  apply stops_bind; [apply stops_clean, bad_name_end_any; discriminate |].
  intros bad. destruct bad; [apply stops_clean; all_step |].
  apply stops_bind; [apply load_clean |]. intros b. cbv zeta.
  apply stops_bind; [apply load_clean |]. intros hi.
  apply stops_bind; [apply load_clean |]. intros lo.
  destruct (rlen <? _); [apply stops_clean; all_step |].
  apply stops_bind; [apply load_clean |]. intros rr.
  apply stops_bind.
  { apply stops_clean, all_emit. discriminate. }
  intros _. apply dns_print_then. apply IH.
Qed.

Lemma dns_parse_stops :
  stops_at dn_expand_error (dns_parse dn_expand r rlen).
Proof.
  unfold dns_parse, walk_sections.
  destruct (rlen <? 12); [apply stops_clean; all_step |].
  apply stops_bind; [apply load_clean |]. intros flags.
  destruct (negb _); [apply stops_clean; all_step |].
  do 4 (apply stops_bind; [apply load_clean |]; intros ?).
  destruct (64 <? _); [apply stops_clean; all_step |].
  apply stops_bind; [apply stops_clean, questions_any; discriminate |].
  intros p. apply stops_bind; [apply answers_stop |].
  intros _. apply stops_clean. all_step.
Qed.

Lemma dns_parse_result_cases :
  snd (dns_parse dn_expand r rlen) = inr 0 \/
  snd (dns_parse dn_expand r rlen) = inl (-1).
Proof.
  unfold dns_parse.
  destruct (rlen <? 12); [right; reflexivity |].
  rewrite bind_load. cbn [snd].
  destruct (negb _); [right; reflexivity |].
  rewrite !bind_load. cbn [snd].
  destruct (64 <? _); [right; reflexivity |].
  apply walk_sections_result.
Qed.

(** X6. When the callback fails to expand a name and prints
    "dn_expand() error", the walk ends there: that line is the last
    event of [dns_parse], it occurs once, and [dns_parse] returns -1. No
    later record is read or handed over. *)
Theorem dns_parse_stops_at_expansion_error :
  In dn_expand_error (events (dns_parse dn_expand r rlen)) ->
  result (dns_parse dn_expand r rlen) = -1 /\
  exists t,
    events (dns_parse dn_expand r rlen) = t ++ [dn_expand_error] /\
    ~ In dn_expand_error t.
Proof.
  intros Hin. pose proof dns_parse_stops as Hs.
  unfold stops_at, events, result in *.
  destruct dns_parse_result_cases as [E | E]; rewrite E in *.
  - contradiction.
  - destruct Hs as [Hs | Hs]; [contradiction |].
    split; [reflexivity | exact Hs].
Qed.

End ErrorFacts.

(** ** dns_parse: the messages it accepts *)

Lemma calls_app (t1 t2 : trace) : calls (t1 ++ t2) = calls t1 ++ calls t2.
Proof. unfold calls. apply flat_map_app. Qed.

Lemma calls_load (off : Z) (t : trace) : calls (EvLoad off :: t) = calls t.
Proof. reflexivity. Qed.

Lemma calls_call (c : call) (t : trace) : calls (EvCall c :: t) = c :: calls t.
Proof. reflexivity. Qed.

Lemma label_byte (b : Z) :
  0 <= b < 256 ->
  ((b - 1) mod 2 ^ 32 <? 127) = true <-> 1 <= b <= 127.
Proof.
  intros Hb. destruct (Z.eq_dec b 0) as [-> | Hn].
  - split; [intros H; vm_compute in H; discriminate | lia].
  - rewrite Z.mod_small by lia. rewrite Z.ltb_lt. lia.
Qed.

Lemma bind_eq {R A B : Type} (m : M R A) (k : A -> M R B) (t1 : trace)
    (a : A) (t2 : trace) (x : R + B) :
  m = (t1, inr a) -> k a = (t2, x) -> bind m k = (t1 ++ t2, x).
Proof. intros -> E. rewrite bind_inr, E. reflexivity. Qed.

Lemma bind_inv {R A B : Type} (m : M R A) (k : A -> M R B) (t : trace)
    (b : B) :
  bind m k = (t, inr b) ->
  exists t1 a t2, m = (t1, inr a) /\ k a = (t2, inr b) /\ t = t1 ++ t2.
Proof.
  destruct m as [t1 [rc | a]]; [rewrite bind_inl; discriminate |].
  rewrite bind_inr. destruct (k a) as [t2 x] eqn:E. cbn [fst snd].
  intros H. inversion H. subst. exists t1, a, t2.
  split; [reflexivity | split; [exact E | reflexivity]].
Qed.

Lemma bind_load_inv {R B : Type} (r : mem) (off : Z) (k : Z -> M R B)
    (t : trace) (b : B) :
  bind (load r off) k = (t, inr b) ->
  exists t2, k (byte_at r off) = (t2, inr b) /\ t = EvLoad off :: t2.
Proof.
  rewrite bind_load. destruct (k (byte_at r off)) as [t2 x]. cbn [fst snd].
  intros H. inversion H. subst. exists t2. split; reflexivity.
Qed.

Lemma bind_emit_inv {R B : Type} (e : event) (k : unit -> M R B)
    (t : trace) (b : B) :
  bind (emit e) k = (t, inr b) ->
  exists t2, k tt = (t2, inr b) /\ t = e :: t2.
Proof.
  rewrite bind_emit. destruct (k tt) as [t2 x]. cbn [fst snd].
  intros H. inversion H. subst. exists t2. split; reflexivity.
Qed.

Lemma bind_invoke_inv {R S B : Type} (callee : M S S) (k : S -> M R B)
    (t : trace) (b : B) :
  bind (invoke callee) k = (t, inr b) ->
  exists t2, k (result callee) = (t2, inr b) /\ t = events callee ++ t2.
Proof.
  rewrite bind_invoke. destruct (k (result callee)) as [t2 x].
  cbn [fst snd]. intros H. inversion H. subst. exists t2.
  split; reflexivity.
Qed.

Lemma load_eq {R : Type} (r : mem) (off : Z) :
  load (R := R) r off = ([EvLoad off], inr (byte_at r off)).
Proof. reflexivity. Qed.

Lemma len_field (r : mem) (a b : Z) :
  (byte_at r a * 256 + byte_at r b) mod 2 ^ 32 =
  byte_at r a * 256 + byte_at r b.
Proof.
  pose proof (byte_at_range r a). pose proof (byte_at_range r b).
  apply Z.mod_small. lia.
Qed.

Section LayoutFacts.

Variable dn_expand : mem -> Z -> Z -> option string.
Variable r : mem.
Variable rlen : Z.

Lemma skip_labels_from_spec (n : nat) (p : Z) :
  rlen - p <= Z.of_nat n ->
  exists t e,
    skip_labels_from (R := Z) r rlen n p = (t, inr e) /\
    p <= e <= Z.max p rlen /\
    (forall i, p <= i < e -> 1 <= byte_at r i <= 127) /\
    (e < rlen -> ~ (1 <= byte_at r e <= 127)) /\
    calls t = [].
Proof.
  revert p. induction n as [| n IH]; intros p Hn; cbn [skip_labels_from].
  - exists [], p.
    split; [reflexivity |]. split; [lia |]. split; [intros; lia |].
    split; [intros; lia | reflexivity].
  - destruct (Z.ltb_spec p rlen) as [Hlt | Hge].
    2:{ exists [], p.
        split; [reflexivity |]. split; [lia |]. split; [intros; lia |].
        split; [intros; lia | reflexivity]. }
    rewrite bind_load.
    destruct ((byte_at r p - 1) mod 2 ^ 32 <? 127) eqn:Hb.
    + apply (label_byte _ (byte_at_range r p)) in Hb.
      destruct (IH (p + 1) ltac:(lia)) as (t & e & E & He & Hin & Hex & Hc).
      rewrite E. exists (EvLoad p :: t), e. cbn [fst snd].
      split; [reflexivity |]. split; [lia |]. split; [| split].
      * intros i Hi.
        destruct (Z.eq_dec i p) as [-> | Hi']; [exact Hb | apply Hin; lia].
      * exact Hex.
      * exact Hc.
    + exists [EvLoad p], p. cbn [fst snd].
      split; [reflexivity |]. split; [lia |]. split; [intros; lia |].
      split; [| reflexivity].
      intros _ H. apply (label_byte _ (byte_at_range r p)) in H. congruence.
Qed.

(** The loop over a name stops exactly at the end of the name. *)
Lemma skip_labels_name (p e : Z) :
  name_ends r rlen p e ->
  exists t, skip_labels (R := Z) r rlen p = (t, inr e) /\ calls t = [].
Proof.
  intros (Hpe & Hin & Hend). unfold skip_labels.
  destruct (skip_labels_from_spec (Z.to_nat (rlen - p)) p ltac:(lia))
    as (t & e' & E & He' & Hin' & Hex' & Hc).
  exists t. split; [| exact Hc]. rewrite E. do 2 f_equal.
  destruct (Z.lt_trichotomy e' e) as [Hlt | [Heq | Hgt]]; [| exact Heq |].
  - exfalso. apply Hex'; [lia |]. apply Hin. lia.
  - exfalso. apply Hend. apply Hin'. lia.
Qed.

Lemma skip_labels_stops_at (p : Z) (t : trace) (e : Z) :
  skip_labels (R := Z) r rlen p = (t, inr e) -> e < rlen ->
  name_ends r rlen p e /\ calls t = [].
Proof.
  intros E He. unfold skip_labels in E.
  destruct (skip_labels_from_spec (Z.to_nat (rlen - p)) p ltac:(lia))
    as (t' & e' & E' & He' & Hin' & Hex' & Hc).
  rewrite E' in E. inversion E. subst t' e'.
  split; [| exact Hc].
  split; [lia |]. split; [exact Hin' | apply Hex'; exact He].
Qed.

Lemma skip_labels_total (p : Z) :
  exists t e, skip_labels (R := Z) r rlen p = (t, inr e) /\
              (p <= rlen -> e <= rlen) /\ p <= e.
Proof.
  unfold skip_labels.
  destruct (skip_labels_from_spec (Z.to_nat (rlen - p)) p ltac:(lia))
    as (t & e & E & He & _).
  exists t, e. split; [exact E | lia].
Qed.

Lemma bad_name_end_spec (e : Z) :
  exists t bad,
    bad_name_end (R := Z) r rlen e = (t, inr bad) /\ calls t = [] /\
    (bad = false <-> name_end_ok r rlen e).
Proof.
  unfold bad_name_end, name_end_ok, load, bind, emit, ret.
  cbn [fst snd app].
  destruct (Z.ltb_spec 193 (byte_at r e)) as [H1 | H1];
    [| destruct (Z.eqb_spec (byte_at r e) 193) as [H2 | H2];
       [destruct (Z.ltb_spec 254 (byte_at r (e + 1))) as [H3 | H3] |];
       try destruct (Z.ltb_spec (rlen - 6) e) as [H4 | H4]];
    cbn [fst snd app]; eexists _, _;
    (split; [reflexivity |]); (split; [reflexivity |]);
    (split; [first [discriminate | intros _; split; [| split]; intros; lia]
            | first [intros _; reflexivity | intros (Ha & Hb & Hc); lia]]).
Qed.

(** The questions, from the code to their layout and back. *)
Lemma questions_layout (n : nat) (p p' : Z) :
  questions_at r rlen n p p' <->
  exists t, questions r rlen n p = (t, inr p') /\ calls t = [].
Proof.
  revert p. induction n as [| n IH]; intros p; cbn [questions].
  { split.
    - intros H. inversion H. subst. exists []. split; reflexivity.
    - intros (t & E & _). inversion E. constructor. }
  split.
  - intros H. inversion H as [| n0 p0 e p0' Hn Hok Hrest]. subst.
    destruct (skip_labels_name p e Hn) as (t1 & E1 & C1).
    destruct (bad_name_end_spec e) as (t2 & bad & E2 & C2 & Hbad).
    apply Hbad in Hok. subst bad.
    apply IH in Hrest. destruct Hrest as (t3 & E3 & C3).
    rewrite E1, bind_inr, E2, bind_inr, bind_load, E3. cbn [fst snd].
    eexists. split; [reflexivity |].
    rewrite !calls_app, C1, C2. cbn. exact C3.
  - intros (t & E & C).
    destruct (skip_labels_total p) as (t1 & e & E1 & _ & _).
    destruct (bad_name_end_spec e) as (t2 & bad & E2 & C2 & Hbad).
    rewrite E1, bind_inr, E2, bind_inr in E. cbn [fst snd] in E.
    destruct bad; [cbn in E; discriminate |].
    pose proof (proj1 Hbad eq_refl) as Hok.
    rewrite bind_load in E. cbn [fst snd] in E.
    destruct (questions r rlen n (e + (5 + nonzero (byte_at r e))))
      as [t3 [rc | p3]] eqn:E3; cbn [fst snd] in E; [discriminate |].
    inversion E. subst p3.
    destruct (skip_labels_stops_at p t1 e E1) as [Hn C1].
    { destruct Hok as (_ & _ & Hok). lia. }
    apply (questions_next r rlen n p e p' Hn Hok).
    apply IH. exists t3. split; [exact E3 |].
    subst t. rewrite !calls_app in C. cbn in C.
    apply app_eq_nil in C. destruct C as [_ C].
    apply app_eq_nil in C. destruct C as [_ C]. exact C.
Qed.

Lemma dns_print_no_calls (rr data len as_ : Z) (p : mem) (plen : Z) :
  calls (events (dns_print dn_expand rr data len as_ p plen)) = [].
Proof.
  pose proof (dns_print_output dn_expand (fun e => calls [e] = [])
                rr data len as_ p plen ltac:(reflexivity) ltac:(reflexivity)
                ltac:(reflexivity)) as Hall.
  unfold all_events, events in *.
  induction Hall as [| x l Hx _ IHl]; [reflexivity |].
  change (x :: l) with ([x] ++ l). rewrite calls_app, Hx. exact IHl.
Qed.

(** The answers, from the code to their layout and back. *)
Lemma answers_layout (n : nat) (p : Z) (cs : list call) :
  answers_at dn_expand r rlen n p cs <->
  exists t p', answers dn_expand r rlen n p = (t, inr p') /\ calls t = cs.
Proof.
  revert p cs. induction n as [| n IH]; intros p cs; cbn [answers].
  { split.
    - intros H. inversion H. subst. exists [], p. split; reflexivity.
    - intros (t & p' & E & C). inversion E. subst. cbn. constructor. }
  split.
  - intros H. inversion H as [| n0 p0 e cs0 Hn Hok Hlen Hcb Hrest]. subst.
    destruct (skip_labels_name p e Hn) as (t1 & E1 & C1).
    destruct (bad_name_end_spec e) as (t2 & bad & E2 & C2 & Hbad).
    apply Hbad in Hok. subst bad.
    apply IH in Hrest. destruct Hrest as (t3 & p3 & E3 & C3).
    unfold record_call, print_call in Hlen, Hcb, E3.
    cbn [cb_rr cb_data cb_len cb_as cb_plen] in Hlen, Hcb, E3.
    eexists _, p3. split.
    + eapply bind_eq; [exact E1 |].
      eapply bind_eq; [exact E2 |]. cbv iota.
      eapply bind_eq; [apply load_eq |]. cbv zeta.
      eapply bind_eq; [apply load_eq |].
      eapply bind_eq; [apply load_eq |].
      rewrite len_field.
      destruct (Z.ltb_spec rlen
                  (e + (1 + nonzero (byte_at r e)) +
                   (byte_at r (e + (1 + nonzero (byte_at r e)) + 8) * 256 +
                    byte_at r (e + (1 + nonzero (byte_at r e)) + 9))));
        [lia |].
      eapply bind_eq; [apply load_eq |].
      eapply bind_eq; [reflexivity |].
      eapply bind_eq; [reflexivity |].
      destruct (Z.ltb_spec
                  (result
                     (dns_print dn_expand
                        (byte_at r (e + (1 + nonzero (byte_at r e)) + 1))
                        (e + (1 + nonzero (byte_at r e)) + 10)
                        (byte_at r (e + (1 + nonzero (byte_at r e)) + 8) * 256 +
                         byte_at r (e + (1 + nonzero (byte_at r e)) + 9))
                        p r rlen)) 0); [lia |].
      exact E3.
    + rewrite !calls_app, C1, C2, C3.
      change (calls [EvLoad ?x]) with (@nil call).
      unfold invoke. cbn [fst app]. rewrite dns_print_no_calls. reflexivity.
  - intros (t & p' & E & C).
    apply bind_inv in E. destruct E as (t1 & e & u1 & E1 & E & ->).
    apply bind_inv in E. destruct E as (t2 & bad & u2 & E2 & E & ->).
    destruct (bad_name_end_spec e) as (t2' & bad' & E2' & C2 & Hbad).
    rewrite E2' in E2. inversion E2. subst t2' bad'.
    destruct bad; [discriminate |].
    pose proof (proj1 Hbad eq_refl) as Hok.
    destruct (skip_labels_stops_at p t1 e E1) as [Hn C1].
    { destruct Hok as (_ & _ & Hok). lia. }
    apply bind_load_inv in E. destruct E as (u3 & E & ->).
    cbv beta zeta in E.
    apply bind_load_inv in E. destruct E as (u4 & E & ->). cbv beta in E.
    apply bind_load_inv in E. destruct E as (u5 & E & ->). cbv beta in E.
    rewrite len_field in E.
    destruct (Z.ltb_spec rlen
                (e + (1 + nonzero (byte_at r e)) +
                 (byte_at r (e + (1 + nonzero (byte_at r e)) + 8) * 256 +
                  byte_at r (e + (1 + nonzero (byte_at r e)) + 9))))
      as [Hl | Hl]; [discriminate |].
    apply bind_load_inv in E. destruct E as (u6 & E & ->). cbv beta in E.
    apply bind_emit_inv in E. destruct E as (u7 & E & ->).
    apply bind_invoke_inv in E. destruct E as (u8 & E & ->). cbv beta in E.
    destruct (Z.ltb_spec
                (result
                   (dns_print dn_expand
                      (byte_at r (e + (1 + nonzero (byte_at r e)) + 1))
                      (e + (1 + nonzero (byte_at r e)) + 10)
                      (byte_at r (e + (1 + nonzero (byte_at r e)) + 8) * 256 +
                       byte_at r (e + (1 + nonzero (byte_at r e)) + 9))
                      p r rlen)) 0) as [Hr | Hr]; [discriminate |].
    rewrite !calls_app, C1, C2, !calls_load, calls_call, calls_app,
      dns_print_no_calls in C.
    cbn [app] in C. subst cs.
    apply (answers_next dn_expand r rlen n p e (calls u8) Hn Hok).
    + exact Hl.
    + exact Hr.
    + apply IH. exists u8, p'. split; [exact E | reflexivity].
Qed.

Lemma calls_none (t : trace) :
  Forall (fun e => is_call e = false) t -> calls t = [].
Proof.
  induction 1 as [| x l Hx _ IH]; [reflexivity |].
  destruct x; try discriminate Hx; exact IH.
Qed.

Lemma questions_no_calls (n : nat) (p : Z) :
  calls (fst (questions r rlen n p)) = [].
Proof. apply calls_none. apply questions_any. reflexivity. Qed.

(** X7. For a message with its 12 header bytes, a zero response code
    and at most 64 questions and answers, [dns_parse] returns 0 exactly
    when the announced questions and then the announced answers lie in
    the message one after the other, each name ending inside the message
    with at least six bytes left, each answer's length field fitting, and
    the callback accepting every answer. It then has handed exactly those
    answers to the callback, in their order in the message. *)
Theorem dns_parse_accepts_layout :
  12 <= rlen -> rcode_of r = 0 ->
  qdcount_of r + ancount_of r <= 64 ->
  (result (dns_parse dn_expand r rlen) = 0 <->
     exists pq cs,
       questions_at r rlen (Z.to_nat (qdcount_of r)) 12 pq /\
       answers_at dn_expand r rlen (Z.to_nat (ancount_of r)) pq cs) /\
  (forall pq cs,
     questions_at r rlen (Z.to_nat (qdcount_of r)) 12 pq ->
     answers_at dn_expand r rlen (Z.to_nat (ancount_of r)) pq cs ->
     calls (events (dns_parse dn_expand r rlen)) = cs).
Proof.
  intros Hl Hrc Hsum.
  rewrite (dns_parse_accepted dn_expand r rlen Hl Hrc Hsum).
  unfold result, events. cbn [fst snd].
  assert (Hfwd : forall pq cs,
             questions_at r rlen (Z.to_nat (qdcount_of r)) 12 pq ->
             answers_at dn_expand r rlen (Z.to_nat (ancount_of r)) pq cs ->
             exists t,
               walk_sections dn_expand r rlen (qdcount_of r) (ancount_of r)
                 = (t, inr 0) /\ calls t = cs).
  { intros pq cs Hq Ha.
    apply questions_layout in Hq. destruct Hq as (t1 & E1 & C1).
    apply answers_layout in Ha. destruct Ha as (t2 & p' & E2 & C2).
    exists (t1 ++ t2 ++ []). split.
    - unfold walk_sections.
      eapply bind_eq; [exact E1 |]. eapply bind_eq; [exact E2 |].
      reflexivity.
    - rewrite !calls_app, C1, C2. cbn. apply app_nil_r. }
  split.
  - split.
    + intros Hres.
      destruct (walk_sections_result dn_expand r rlen (qdcount_of r)
                  (ancount_of r)) as [E | E]; rewrite E in Hres;
        [| discriminate].
      destruct (walk_sections dn_expand r rlen (qdcount_of r) (ancount_of r))
        as [t x] eqn:Ew. cbn [snd] in E. subst x.
      unfold walk_sections in Ew.
      apply bind_inv in Ew. destruct Ew as (t1 & pq & u1 & E1 & Ew & ->).
      apply bind_inv in Ew. destruct Ew as (t2 & p' & u2 & E2 & _ & ->).
      exists pq, (calls t2). split.
      * apply questions_layout. exists t1. split; [exact E1 |].
        pose proof (questions_no_calls (Z.to_nat (qdcount_of r)) 12) as C.
        rewrite E1 in C. exact C.
      * apply answers_layout. exists t2, p'. split; [exact E2 | reflexivity].
    + intros (pq & cs & Hq & Ha).
      destruct (Hfwd pq cs Hq Ha) as (t & E & _). rewrite E. reflexivity.
  - intros pq cs Hq Ha.
    destruct (Hfwd pq cs Hq Ha) as (t & E & C). rewrite E. cbn [fst].
    rewrite calls_app, C. reflexivity.
Qed.

(** X8. A question whose name ends less than six bytes before the end
    of the message is refused, although a zero-terminated name needs
    only five: with a good header and at least one question, if the
    first question's name ends at an offset above [rlen - 6], [dns_parse]
    returns -1 and calls nothing. A response that is just the header and
    its question is such a message. *)
Theorem dns_parse_rejects_short_tail (e : Z) :
  12 <= rlen -> rcode_of r = 0 ->
  qdcount_of r + ancount_of r <= 64 -> 1 <= qdcount_of r ->
  name_ends r rlen 12 e -> rlen - 6 < e ->
  result (dns_parse dn_expand r rlen) = -1 /\
  calls (events (dns_parse dn_expand r rlen)) = [].
Proof.
  intros Hl Hrc Hsum Hqd Hn He.
  rewrite (dns_parse_accepted dn_expand r rlen Hl Hrc Hsum).
  unfold result, events, walk_sections. cbn [fst snd].
  destruct (Z.to_nat (qdcount_of r)) as [| n] eqn:En; [lia |].
  cbn [questions].
  destruct (skip_labels_name 12 e Hn) as (t1 & E1 & C1).
  destruct (bad_name_end_spec e) as (t2 & bad & E2 & C2 & Hbad).
  destruct bad.
  2:{ destruct (proj1 Hbad eq_refl) as (_ & _ & H). lia. }
  rewrite E1, bind_inr, E2, bind_inr. cbn [fst snd Return].
  rewrite bind_inl. cbn [fst snd].
  split; [reflexivity |].
  rewrite !calls_app, C1, C2. reflexivity.
Qed.

End LayoutFacts.

(** ** reverse_lookup: sizes, and names read back *)

Lemma v4_text_min (b : byte) : 2 <= snprintf (v4_text (Z.of_N (Byte.to_N b))).
Proof. destruct b; vm_compute; discriminate. Qed.

Lemma loop_v4_min (a : list byte) (count : nat) (arr : Z) :
  2 * Z.of_nat count <= snprintf (join (loop_texts v4_text a count arr)).
Proof.
  revert arr. induction count as [| count IH]; intros arr;
    cbn [loop_texts join].
  - change (snprintf "") with 0. lia.
  - rewrite snprintf_append. specialize (IH (arr - 1)).
    pose proof (v4_text_min (nth (Z.to_nat arr) a x00)) as Hb.
    fold (octet a arr) in Hb. lia.
Qed.

Lemma no_overflow_fits (ws : list string) (len : Z) :
  ws <> [] -> would_overflow ws len = false -> snprintf (join ws) < len.
Proof.
  intros Hne H. destruct (Z.lt_ge_cases (snprintf (join ws)) len) as [Hl | Hg];
    [exact Hl |].
  assert (E : would_overflow ws len = true).
  { apply would_overflow_total. split; [exact Hne | lia]. }
  congruence.
Qed.

(** X9. At every capacity, when the code after the assertion returns
    [buf], the name in it and its terminating NUL fit in the capacity;
    the name is 20 to 28 characters long for an IPv4 literal and 72 for
    an IPv6 literal, so a buffer of [MAXREVLEN] bytes holds every
    reverse name. *)
Theorem reverse_lookup_name_fits
    (inet_pton4 inet_pton6 : string -> option (list byte))
    (addr : string) (len : Z) (text : string) :
  reverse_lookup_body inet_pton4 inet_pton6 addr len = ret_buf text ->
  snprintf text + 1 <= len /\
  20 <= snprintf text /\ snprintf text + 1 <= MAXREVLEN /\
  (inet_pton4 addr <> None -> snprintf text <= 28) /\
  (inet_pton4 addr = None -> snprintf text = 72).
Proof.
  intros E.
  destruct (inet_pton4 addr) as [v4 |] eqn:E4;
    [| destruct (inet_pton6 addr) as [v6 |] eqn:E6].
  - rewrite (reverse_lookup_body_v4 inet_pton4 inet_pton6 addr len v4 E4)
      in E.
    destruct (would_overflow (writes_v4 v4) len) eqn:Ho; [discriminate |].
    assert (Et : text = join (writes_v4 v4)) by congruence.
    clear E. subst text.
    apply no_overflow_fits in Ho;
      [| unfold writes_v4; intros H; apply app_eq_nil in H;
         destruct H; discriminate].
    pose proof (writes_v4_bound v4) as Hb.
    assert (Hm : 20 <= snprintf (join (writes_v4 v4))).
    { unfold writes_v4. rewrite join_app, snprintf_append.
      pose proof (loop_v4_min v4 4 3).
      change (snprintf (join ["in-addr.arpa"%string])) with 12. lia. }
    unfold MAXREVLEN.
    split; [lia |]. split; [lia |]. split; [lia |].
    split; [intros _; lia | intros H; discriminate].
  - rewrite (reverse_lookup_body_v6 inet_pton4 inet_pton6 addr len v6 E4 E6)
      in E.
    destruct (would_overflow (writes_v6 v6) len) eqn:Ho; [discriminate |].
    assert (Et : text = join (writes_v6 v6)) by congruence.
    clear E. subst text.
    apply no_overflow_fits in Ho;
      [| unfold writes_v6; intros H; apply app_eq_nil in H;
         destruct H; discriminate].
    pose proof (writes_v6_size v6) as Hb.
    unfold MAXREVLEN.
    split; [lia |]. split; [lia |]. split; [lia |].
    split; [intros H; exfalso; apply H; reflexivity | intros _; lia].
  - rewrite (reverse_lookup_body_none inet_pton4 inet_pton6 addr len E4 E6)
      in E. discriminate.
Qed.

Lemma read_decimal_octet (b : byte) (s : string) :
  read_decimal (decimal b ++ "." ++ s) 0 = Some (Byte.to_N b, s).
Proof. destruct b; reflexivity. Qed.

Lemma read_nibbles_byte (b : byte) (s : string) :
  read_nibbles (dotted (map hex_digit (nibbles b)) ++ s) =
  Some (Byte.to_N b, s).
Proof. destruct b; reflexivity. Qed.

Lemma to_N_inj (b b' : byte) : Byte.to_N b = Byte.to_N b' -> b = b'.
Proof.
  intros H. pose proof (Byte.of_to_N b) as H1.
  pose proof (Byte.of_to_N b') as H2. rewrite H in H1. congruence.
Qed.

Lemma dotted_decimal_inj (suffix : string) (l l' : list byte) :
  List.length l = List.length l' ->
  (dotted (map decimal l) ++ suffix)%string =
  (dotted (map decimal l') ++ suffix)%string ->
  l = l'.
Proof.
  revert l'. induction l as [| b l IH]; intros [| b' l'] Hlen H;
    try discriminate Hlen; [reflexivity |].
  cbn [map dotted] in H. rewrite !append_assoc in H.
  apply (f_equal (fun s => read_decimal s 0)) in H.
  rewrite (read_decimal_octet b), (read_decimal_octet b') in H.
  inversion H as [[Hb Hs]]. apply to_N_inj in Hb. subst b'.
  f_equal. apply IH; [cbn in Hlen; lia | exact Hs].
Qed.

Lemma dotted_nibbles_inj (suffix : string) (l l' : list byte) :
  List.length l = List.length l' ->
  (dotted (map hex_digit (flat_map nibbles l)) ++ suffix)%string =
  (dotted (map hex_digit (flat_map nibbles l')) ++ suffix)%string ->
  l = l'.
Proof.
  revert l'. induction l as [| b l IH]; intros [| b' l'] Hlen H;
    try discriminate Hlen; [reflexivity |].
  cbn [flat_map] in H. rewrite !map_app, !dotted_app, !append_assoc in H.
  apply (f_equal read_nibbles) in H.
  rewrite (read_nibbles_byte b), (read_nibbles_byte b') in H.
  inversion H as [[Hb Hs]]. apply to_N_inj in Hb. subst b'.
  f_equal. apply IH; [cbn in Hlen; lia | exact Hs].
Qed.

Lemma rev_inj {A : Type} (l l' : list A) : rev l = rev l' -> l = l'.
Proof.
  intros H. apply (f_equal (@rev A)) in H.
  rewrite !rev_involutive in H. exact H.
Qed.

Section ReverseInjective.

Variable inet_pton4 : string -> option (list byte).
Variable inet_pton6 : string -> option (list byte).

Lemma reverse_lookup_v4_name (addr : string) (len : Z) (v4 : list byte) :
  MAXREVLEN <= len -> inet_pton4 addr = Some v4 ->
  List.length v4 = 4%nat ->
  reverse_lookup inet_pton4 inet_pton6 addr len = ret_buf (in_addr_arpa v4).
Proof.
  intros Hlen E4 H4.
  rewrite reverse_lookup_asserted by assumption.
  rewrite (reverse_lookup_body_v4 inet_pton4 inet_pton6 addr len v4 E4).
  pose proof (writes_v4_bound v4). unfold MAXREVLEN in Hlen.
  rewrite fits_no_overflow by lia.
  rewrite writes_v4_name by assumption. reflexivity.
Qed.

Lemma reverse_lookup_v6_name (addr : string) (len : Z) (v6 : list byte) :
  MAXREVLEN <= len -> inet_pton4 addr = None -> inet_pton6 addr = Some v6 ->
  List.length v6 = 16%nat ->
  reverse_lookup inet_pton4 inet_pton6 addr len = ret_buf (ip6_arpa v6).
Proof.
  intros Hlen E4 E6 H6.
  rewrite reverse_lookup_asserted by assumption.
  rewrite (reverse_lookup_body_v6 inet_pton4 inet_pton6 addr len v6 E4 E6).
  pose proof (writes_v6_size v6). unfold MAXREVLEN in Hlen.
  rewrite fits_no_overflow by lia.
  rewrite writes_v6_name by assumption. reflexivity.
Qed.

(** X10. Two inputs that parse as different IPv4 addresses never get
    the same reverse name, whatever the capacities from [MAXREVLEN]
    on. *)
Theorem reverse_lookup_v4_distinct (addr addr' : string) (len len' : Z)
    (v4 v4' : list byte) :
  MAXREVLEN <= len -> MAXREVLEN <= len' ->
  inet_pton4 addr = Some v4 -> inet_pton4 addr' = Some v4' ->
  List.length v4 = 4%nat -> List.length v4' = 4%nat ->
  v4 <> v4' ->
  reverse_lookup inet_pton4 inet_pton6 addr len <>
  reverse_lookup inet_pton4 inet_pton6 addr' len'.
Proof.
  intros Hl Hl' E E' H4 H4' Hne Heq.
  rewrite (reverse_lookup_v4_name addr len v4 Hl E H4) in Heq.
  rewrite (reverse_lookup_v4_name addr' len' v4' Hl' E' H4') in Heq.
  inversion Heq as [Hs]. unfold in_addr_arpa in Hs.
  apply dotted_decimal_inj in Hs;
    [| rewrite !length_rev; congruence].
  apply Hne, rev_inj, Hs.
Qed.

(** X11. Two inputs that parse as different IPv6 addresses never get
    the same reverse name, whatever the capacities from [MAXREVLEN]
    on. *)
Theorem reverse_lookup_v6_distinct (addr addr' : string) (len len' : Z)
    (v6 v6' : list byte) :
  MAXREVLEN <= len -> MAXREVLEN <= len' ->
  inet_pton4 addr = None -> inet_pton4 addr' = None ->
  inet_pton6 addr = Some v6 -> inet_pton6 addr' = Some v6' ->
  List.length v6 = 16%nat -> List.length v6' = 16%nat ->
  v6 <> v6' ->
  reverse_lookup inet_pton4 inet_pton6 addr len <>
  reverse_lookup inet_pton4 inet_pton6 addr' len'.
Proof.
  intros Hl Hl' N N' E E' H6 H6' Hne Heq.
  rewrite (reverse_lookup_v6_name addr len v6 Hl N E H6) in Heq.
  rewrite (reverse_lookup_v6_name addr' len' v6' Hl' N' E' H6') in Heq.
  inversion Heq as [Hs]. unfold ip6_arpa in Hs.
  apply dotted_nibbles_inj in Hs;
    [| rewrite !length_rev; congruence].
  apply Hne, rev_inj, Hs.
Qed.

End ReverseInjective.

(** ** main: what a pass does *)

Lemma res_ssend_kind (argc : Z) (argv2 : string) (i : Z) (n : net)
    (srv : addrinfo) (msg msglen anslen : Z) :
  argc = 3 ->
  all_events (exchange_kind argc argv2 i msg)
    (res_ssend n srv msg msglen anslen).
Proof.
  intros Ha. unfold res_ssend, err_close.
  assert (Hs : forall s, match s with
                         | sys_sendto _ m _ => m = msg
                         | _ => True
                         end ->
                         exchange_kind argc argv2 i msg (EvSys s)).
  { intros s H. split; assumption. }
  all_step; [apply all_emit, Hs; exact I |].
  destruct (socket_rv n <? 0); [repeat all_step |].
  all_step; [apply all_emit, Hs; exact I |].
  destruct (bind_rv n <? 0).
  { all_step; [all_step |]. all_step; [apply all_emit, Hs; exact I |].
    all_step. }
  all_step; [apply all_emit, Hs; reflexivity |].
  destruct (sendto_rv n <? 0).
  { all_step; [all_step |]. all_step; [apply all_emit, Hs; exact I |].
    all_step. }
  all_step; [apply all_emit, Hs; exact I |].
  destruct (poll_rv n <=? 0).
  { all_step; [all_step |]. all_step; [apply all_emit, Hs; exact I |].
    all_step. }
  all_step; [apply all_emit, Hs; exact I |].
  destruct (recvfrom_rv n <? 0).
  { all_step; [all_step |]. all_step; [apply all_emit, Hs; exact I |].
    all_step. }
  all_step; [apply all_emit, Hs; exact I | all_step].
Qed.

Lemma res_ssend_sends (n : net) (srv : addrinfo) (msg msglen anslen : Z) :
  (count is_send (events (res_ssend n srv msg msglen anslen)) <= 1)%nat /\
  (0 <= result (res_ssend n srv msg msglen anslen) ->
   count is_send (events (res_ssend n srv msg msglen anslen)) = 1%nat) /\
  count is_getaddrinfo (events (res_ssend n srv msg msglen anslen)) = 0%nat.
Proof.
  unfold res_ssend, err_close.
  destruct (Z.ltb_spec (socket_rv n) 0) as [Hs | Hs];
    [| destruct (Z.ltb_spec (bind_rv n) 0) as [Hb | Hb];
       [| destruct (Z.ltb_spec (sendto_rv n) 0) as [Hd | Hd];
          [| destruct (Z.leb_spec (poll_rv n) 0) as [Hp | Hp];
             [| destruct (Z.ltb_spec (recvfrom_rv n) 0) as [Hr | Hr]]]]];
    cbn; (split; [lia | split; [intros; lia | reflexivity]]).
Qed.



Section PassFacts.

Variable dn_expand : mem -> Z -> Z -> option string.
Variable getaddrinfo : string -> option addrinfo.
Variable res_send : Z -> Z * mem.
Variable network : Z -> net.
Variable argc : Z.
Variable argv2 : string.
Variable query : Z -> mem.
Variable qlen2 : Z.
Variable qcount : Z.

Hypothesis argc_ok : 2 <= argc <= 3.

Local Abbreviation exch := (exchange getaddrinfo res_send network argc argv2).
Local Abbreviation step :=
  (query_step dn_expand getaddrinfo res_send network argc argv2 query qlen2
     qcount).
Local Abbreviation loop :=
  (queries dn_expand getaddrinfo res_send network argc argv2 query qlen2
     qcount).

(** What the server resolution of a pass leaves behind. *)
Lemma server_once_cases (i : Z) (srv : option addrinfo) :
  server_once getaddrinfo i (server_name argc argv2) srv =
  if i =? 0 then
    match getaddrinfo (server_name argc argv2) with
    | None =>
        ([EvGetaddrinfo (server_name argc argv2);
          stderr_line ("cannot resolve " ++ server_name argc argv2)],
         inl EXIT_FAILURE)
    | Some a =>
        ([EvGetaddrinfo (server_name argc argv2);
          EvPrintAddress "Server:" (server_name argc argv2) (ai_family a)
            (ai_addr a);
          EvStdout NL], inr (Some a))
    end
  else ([], inr srv).
Proof.
  unfold server_once, resolve_server, print_address.
  destruct (i =? 0); [| reflexivity].
  destruct (getaddrinfo (server_name argc argv2)); reflexivity.
Qed.

Lemma exchange_server (i : Z) (srv : option addrinfo) (cq qlen : Z) :
  exch i srv cq qlen =
  bind (server_once getaddrinfo i (server_name argc argv2) srv)
    (fun srv =>
       if argc =? 2 then
         bind (emit (EvResSend cq qlen))
           (fun _ => let '(rlen, response) := res_send i in
                     ret (srv, rlen, response))
       else
         match srv with
         | Some a =>
             bind (invoke (res_ssend (network i) a cq qlen 1024))
               (fun rlen => ret (srv, rlen, answer_buf (network i)))
         | None => Return ABORTED
         end).
Proof.
  unfold exchange, server_name.
  destruct (Z.eqb_spec argc 2) as [E2 | N2]; [reflexivity |].
  destruct (Z.eqb_spec argc 3) as [E3 | N3]; [reflexivity | lia].
Qed.

(** The exchange of a pass: its kinds of events, how many queries it
    sends and servers it resolves, and what it returns. *)
Lemma exchange_facts (i : Z) (srv : option addrinfo) (cq qlen : Z) :
  (i = 0 \/ srv <> None) ->
  all_events (exchange_kind argc argv2 i cq) (exch i srv cq qlen) /\
  (count is_send (fst (exch i srv cq qlen)) <= 1)%nat /\
  (count is_getaddrinfo (fst (exch i srv cq qlen))
     <= if (i =? 0)%Z then 1 else 0)%nat /\
  returns_only (fun rc => rc = EXIT_FAILURE) (exch i srv cq qlen) /\
  (forall srv' rlen response,
     snd (exch i srv cq qlen) = inr (srv', rlen, response) ->
     srv' <> None /\
     (i <> 0 -> srv' = srv) /\
     count is_getaddrinfo (fst (exch i srv cq qlen))
       = (if (i =? 0)%Z then 1 else 0)%nat /\
     (0 <= rlen -> count is_send (fst (exch i srv cq qlen)) = 1%nat)).
Proof.
  intros Hsrv. rewrite exchange_server, server_once_cases.
  assert (Hkinds :
            forall srv1 : option addrinfo,
              srv1 <> None ->
              let k :=
                (if argc =? 2 then
                   bind (emit (EvResSend cq qlen))
                     (fun _ => let '(rlen, response) := res_send i in
                               ret (srv1, rlen, response))
                 else
                   match srv1 with
                   | Some a =>
                       bind (invoke (res_ssend (network i) a cq qlen 1024))
                         (fun rlen => ret (srv1, rlen, answer_buf (network i)))
                   | None => Return ABORTED
                   end) : M Z (option addrinfo * Z * mem) in
              all_events (exchange_kind argc argv2 i cq) k /\
              (count is_send (fst k) <= 1)%nat /\
              count is_getaddrinfo (fst k) = 0%nat /\
              (exists rlen response, snd k = inr (srv1, rlen, response)) /\
              (forall srv' rlen response,
                 snd k = inr (srv', rlen, response) ->
                 0 <= rlen -> count is_send (fst k) = 1%nat)).
  { intros srv1 Hs1. cbv zeta.
    destruct (Z.eqb_spec argc 2) as [E2 | N2].
    - rewrite bind_emit. destruct (res_send i) as [rlen response].
      cbn [fst snd ret]. split; [| split; [| split; [| split]]].
      + repeat constructor; assumption.
      + cbn. lia.
      + reflexivity.
      + eexists _, _. reflexivity.
      + intros. reflexivity.
    - destruct srv1 as [a |]; [| contradiction].
      rewrite bind_invoke. cbn [fst snd ret].
      destruct (res_ssend_sends (network i) a cq qlen 1024)
        as (Hle & Heq & Hg).
      rewrite app_nil_r. split; [| split; [| split; [| split]]].
      + apply res_ssend_kind. lia.
      + exact Hle.
      + exact Hg.
      + eexists _, _. reflexivity.
      + intros srv' rlen response E Hr. inversion E. subst.
        apply Heq. exact Hr. }
  destruct (Z.eqb_spec i 0) as [Ei | Ni].
  - destruct (getaddrinfo (server_name argc argv2)) as [a |] eqn:Eg.
    + destruct (Hkinds (Some a) ltac:(discriminate))
        as (Hk & Hle & Hg & (rl & rs & Hc) & Heq).
      rewrite bind_inr. cbv beta. cbn [fst snd].
      split; [| split; [| split; [| split]]].
      * apply Forall_app. split; [| exact Hk].
        repeat constructor; cbn; auto.
      * rewrite count_app.
        match goal with
        | |- context [(count is_send ?l + _)%nat] =>
            replace (count is_send l) with 0%nat by reflexivity
        end. exact Hle.
      * rewrite count_app, Hg. subst i. cbn. lia.
      * intros rc E. cbn [snd] in E. congruence.
      * intros srv' rlen response E. cbn [snd] in E.
        rewrite Hc in E. injection E as Es Er Eresp.
        subst srv' rl rs.
        split; [discriminate |]. split; [intros; contradiction |].
        split; [rewrite count_app, Hg; subst i; reflexivity |].
        intros Hr. rewrite count_app.
        rewrite (Heq (Some a) rlen response Hc Hr). reflexivity.
    + rewrite bind_inl. cbn [fst snd].
      split; [| split; [| split; [| split]]].
      * repeat constructor; cbn; auto.
      * cbn. lia.
      * subst i. cbn. lia.
      * intros rc E. inversion E. reflexivity.
      * intros srv' rlen response E. discriminate.
  - destruct Hsrv as [Hi | Hs]; [contradiction |].
    destruct (Hkinds srv Hs) as (Hk & Hle & Hg & (rl & rs & Hc) & Heq).
    rewrite bind_inr. cbv beta. cbn [fst snd app].
    split; [| split; [| split; [| split]]].
    + exact Hk.
    + exact Hle.
    + rewrite Hg. lia.
    + intros rc E. cbn [snd] in E. congruence.
    + intros srv' rlen response E. cbn [snd] in E.
      rewrite Hc in E. injection E as Es Er Eresp.
      subst srv' rl rs.
      split; [exact Hs |]. split; [reflexivity |].
      split; [rewrite Hg; destruct (Z.eqb_spec i 0); [lia | reflexivity] |].
      intros Hr. exact (Heq srv rlen response Hc Hr).
Qed.

(** A pass, cut in three: what it does up to the end of its exchange,
    the release of the server address, and what comes after. *)
Lemma step_shape (i cq qlen : Z) (srv : option addrinfo) :
  (i = 0 \/ srv <> None) ->
  exists pre fr rest,
    fst (step i cq qlen srv) = pre ++ fr ++ rest /\
    Forall (exchange_kind argc argv2 i (switch_query i cq)) pre /\
    (count is_send pre <= 1)%nat /\
    (count is_getaddrinfo pre <= if (i =? 0)%Z then 1 else 0)%nat /\
    (fr = [] \/ (fr = [EvFreeaddrinfo] /\ i = qcount - 1)) /\
    Forall parser_event rest /\
    returns_only (fun rc => rc = EXIT_FAILURE) (step i cq qlen srv) /\
    (forall cq' qlen' srv',
       snd (step i cq qlen srv) = inr (cq', qlen', srv') ->
       cq' = switch_query i cq /\ qlen' = switch_qlen qlen2 i qlen /\
       srv' <> None /\
       count is_send pre = 1%nat /\
       count is_getaddrinfo pre = (if (i =? 0)%Z then 1 else 0)%nat /\
       (i = qcount - 1 -> fr = [EvFreeaddrinfo])).
Proof.
  intros Hsrv. unfold query_step.
  destruct (Z.ltb_spec (switch_qlen qlen2 i qlen) 0) as [Hq | Hq].
  { exists [stderr_line "cannot build the query"], [], [].
    cbn [bind emit Return fst snd app].
    split; [reflexivity |]. split; [repeat constructor |].
    split; [cbn; lia |].
    split; [destruct (i =? 0); cbn; lia |].
    split; [left; reflexivity |]. split; [constructor |].
    split; [intros rc E; inversion E; reflexivity |].
    intros cq' qlen' srv' E. discriminate. }
  destruct (exchange_facts i srv (switch_query i cq)
              (switch_qlen qlen2 i qlen) Hsrv)
    as (Hk & Hs & Hg & Hret & Hcont).
  destruct (exch i srv (switch_query i cq) (switch_qlen qlen2 i qlen))
    as [t [rc | [[srv1 rlen] response]]] eqn:E.
  { exists t, [], []. rewrite bind_inl. cbn [fst snd] in *.
    rewrite !app_nil_r.
    split; [reflexivity |]. split; [exact Hk |]. split; [exact Hs |].
    split; [exact Hg |]. split; [left; reflexivity |].
    split; [constructor |].
    split; [intros rc' E'; inversion E'; subst; apply Hret; reflexivity |].
    intros cq' qlen' srv' E'. discriminate. }
  cbn [fst snd] in *.
  destruct (Hcont srv1 rlen response eq_refl) as (Hs1 & _ & Hg1 & Hsend).
  rewrite bind_inr. cbv beta iota.
  set (fr := fst (free_last qcount i)).
  assert (Hfr : (fr = [] \/ (fr = [EvFreeaddrinfo] /\ i = qcount - 1)) /\
                (i = qcount - 1 -> fr = [EvFreeaddrinfo])).
  { subst fr. unfold free_last.
    destruct (Z.eqb_spec i (qcount - 1)) as [Ei | Ni]; cbn.
    - split; [right; split; [reflexivity | exact Ei] | reflexivity].
    - split; [left; reflexivity | intros; contradiction]. }
  assert (Ef : free_last qcount i = (fr, inr tt)).
  { subst fr. unfold free_last. destruct (i =? qcount - 1); reflexivity. }
  rewrite Ef, bind_inr. cbn [fst snd].
  destruct (Z.ltb_spec rlen 0) as [Hr | Hr].
  { exists t, fr, [stderr_line "cannot send the query"].
    cbn [bind emit Return fst snd app].
    split; [reflexivity |]. split; [exact Hk |]. split; [exact Hs |].
    split; [exact Hg |]. split; [apply Hfr |].
    split; [repeat constructor |].
    split; [intros rc E'; inversion E'; reflexivity |].
    intros cq' qlen' srv' E'. discriminate. }
  destruct (memcmp2 (query (switch_query i cq)) response).
  { exists t, fr, [stderr_line "qsections don't match"].
    cbn [bind emit Return fst snd app].
    split; [reflexivity |]. split; [exact Hk |]. split; [exact Hs |].
    split; [exact Hg |]. split; [apply Hfr |].
    split; [repeat constructor |].
    split; [intros rc E'; inversion E'; reflexivity |].
    intros cq' qlen' srv' E'. discriminate. }
  rewrite bind_invoke.
  pose proof (dns_parse_events dn_expand response rlen) as Hp.
  unfold all_events in Hp.
  destruct (Z.ltb_spec (result (dns_parse dn_expand response rlen)) 0).
  { exists t, fr, (events (dns_parse dn_expand response rlen) ++
                   [stderr_line "decode failure"]).
    cbn [bind emit Return fst snd app].
    split; [reflexivity |]. split; [exact Hk |]. split; [exact Hs |].
    split; [exact Hg |]. split; [apply Hfr |].
    split; [apply Forall_app; split; [exact Hp | repeat constructor] |].
    split; [intros rc E'; inversion E'; reflexivity |].
    intros cq' qlen' srv' E'. discriminate. }
  exists t, fr, (events (dns_parse dn_expand response rlen) ++ []).
  cbn [ret fst snd].
  split; [reflexivity |]. split; [exact Hk |]. split; [exact Hs |].
  split; [exact Hg |]. split; [apply Hfr |].
  split; [rewrite app_nil_r; exact Hp |].
  split; [intros rc E'; discriminate |].
  intros cq' qlen' srv' E'. injection E' as <- <- <-.
  split; [reflexivity |]. split; [reflexivity |]. split; [exact Hs1 |].
  split; [apply Hsend; exact Hr |]. split; [exact Hg1 | apply Hfr].
Qed.




End PassFacts.

(** ** main: whole runs *)

Lemma exchange_kind_run (argc : Z) (argv2 : string) (i q : Z) (e : event) :
  q = 0 \/ q = 1 ->
  exchange_kind argc argv2 i q e ->
  run_kind argc argv2 e /\ is_free e = false.
Proof.
  intros Hq. destruct e as [| | | | | s | msg len | srv |]; cbn;
    try tauto; try (intros; split; [exact I | reflexivity]).
  all: intros [Ha Hs]; split; [| reflexivity]; split; [exact Ha |].
  all: try (subst; exact Hq).
  destruct s; try exact I. subst. exact Hq.
Qed.

Lemma parser_event_run (argc : Z) (argv2 : string) (e : event) :
  parser_event e ->
  run_kind argc argv2 e /\ is_free e = false /\ is_send e = false /\
  is_getaddrinfo e = false.
Proof. destruct e; cbn; try tauto; intros; repeat split. Qed.

Lemma exchange_kind_first (argc : Z) (argv2 : string) (i : Z) (e : event) :
  exchange_kind argc argv2 i 0 e -> about_query 1 e = false.
Proof.
  destruct e as [| | | | | s | msg len | srv |]; cbn; try reflexivity.
  - intros [_ Hs]. destruct s; try reflexivity. subst. reflexivity.
  - intros [_ Hm]. subst. reflexivity.
Qed.

Lemma parser_facts (argc : Z) (argv2 : string) (t : trace) :
  Forall parser_event t ->
  Forall (run_kind argc argv2) t /\ count is_free t = 0%nat /\
  count is_send t = 0%nat /\ count is_getaddrinfo t = 0%nat.
Proof.
  intros H. repeat split.
  - eapply Forall_impl; [| exact H]. intros e He.
    apply (parser_event_run argc argv2 e He).
  - apply count_none. eapply Forall_impl; [| exact H]. intros e He.
    apply (parser_event_run argc argv2 e He).
  - apply count_none. eapply Forall_impl; [| exact H]. intros e He.
    apply (parser_event_run argc argv2 e He).
  - apply count_none. eapply Forall_impl; [| exact H]. intros e He.
    apply (parser_event_run argc argv2 e He).
Qed.

Section RunFacts.

Variable inet_pton4 : string -> option (list byte).
Variable inet_pton6 : string -> option (list byte).
Variable dn_expand : mem -> Z -> Z -> option string.
Variable res_mkquery : string -> Z -> Z -> Z * mem.
Variable getaddrinfo : string -> option addrinfo.
Variable res_send : Z -> Z * mem.
Variable network : Z -> net.

Local Abbreviation prog :=
  (main inet_pton4 inet_pton6 dn_expand res_mkquery getaddrinfo res_send
     network).
Local Abbreviation fwd := (forward inet_pton4 inet_pton6).

(** A reverse lookup is the loop over one query. *)
Lemma main_reverse (argc : Z) (argv0 argv1 argv2 : string) :
  2 <= argc <= 3 -> fwd argv1 = false ->
  prog argc argv0 argv1 argv2 =
  bind (queries dn_expand getaddrinfo res_send network argc argv2
          (ptr_query inet_pton4 inet_pton6 res_mkquery argv1)
          (ptr_qlen inet_pton4 inet_pton6 res_mkquery argv1) 1 1 0 0
          (ptr_qlen inet_pton4 inet_pton6 res_mkquery argv1) None)
       (fun _ => ret EXIT_SUCCESS).
Proof.
  intros Hargc Hfwd. unfold main.
  destruct (Z.ltb_spec argc 2); [lia |].
  destruct (Z.ltb_spec 3 argc); [lia |]. cbn [orb].
  rewrite Hfwd. unfold ptr_qlen, ptr_query.
  destruct (res_mkquery (lookup_name inet_pton4 inet_pton6 argv1) ns_c_in
              ns_t_ptr) as [qlen q0].
  cbn [fst snd].
  pose proof (reverse_lookup_body_returns inet_pton4 inet_pton6 argv1
                MAXREVLEN) as Hb.
  unfold reverse_lookup. change (MAXREVLEN <? MAXREVLEN) with false.
  cbv iota.
  destruct (reverse_lookup_body inet_pton4 inet_pton6 argv1 MAXREVLEN);
    [contradiction | reflexivity | reflexivity].
Qed.

(** The loop of a run, as the passes it is made of. *)
Lemma run_loop (argc : Z) (argv0 argv1 argv2 : string) :
  2 <= argc <= 3 ->
  exists query qlen2 qlen,
    prog argc argv0 argv1 argv2 =
    bind (queries dn_expand getaddrinfo res_send network argc argv2 query
            qlen2 (Z.of_nat (run_qcount inet_pton4 inet_pton6 argv1))
            (run_qcount inet_pton4 inet_pton6 argv1) 0 0 qlen None)
         (fun _ => ret EXIT_SUCCESS) /\
    qlen = built_qlen inet_pton4 inet_pton6 res_mkquery argv1.
Proof.
  intros Hargc. unfold run_qcount, built_qlen.
  destruct (fwd argv1) eqn:Hf.
  - eexists _, _, _. split; [| reflexivity].
    exact (main_forward inet_pton4 inet_pton6 dn_expand res_mkquery
             getaddrinfo res_send network argc argv0 argv1 argv2 Hargc Hf).
  - eexists _, _, _. split; [| reflexivity].
    exact (main_reverse argc argv0 argv1 argv2 Hargc Hf).
Qed.

(** A run with two or three arguments, cut in three: everything up to
    the end of its last exchange, the release of the server address, and
    what comes after. *)
Lemma main_run (argc : Z) (argv0 argv1 argv2 : string) :
  2 <= argc <= 3 ->
  exists before fr after,
    events (prog argc argv0 argv1 argv2) = before ++ fr ++ after /\
    Forall (run_kind argc argv2) before /\
    count is_free before = 0%nat /\
    (count is_send before <= run_qcount inet_pton4 inet_pton6 argv1)%nat /\
    (count is_getaddrinfo before <= 1)%nat /\
    (fwd argv1 = false -> Forall (fun e => about_query 1 e = false) before) /\
    (fr = [] \/ fr = [EvFreeaddrinfo]) /\
    Forall parser_event after /\
    (result (prog argc argv0 argv1 argv2) = EXIT_SUCCESS \/
     result (prog argc argv0 argv1 argv2) = EXIT_FAILURE) /\
    (result (prog argc argv0 argv1 argv2) = EXIT_SUCCESS ->
     count is_send before = run_qcount inet_pton4 inet_pton6 argv1 /\
     count is_getaddrinfo before = 1%nat /\
     fr = [EvFreeaddrinfo]).
Proof.
  intros Hargc.
  destruct (run_loop argc argv0 argv1 argv2 Hargc)
    as (query & qlen2 & qlen & Em & _).
  rewrite Em. clear Em. unfold events, result.
  set (qc := run_qcount inet_pton4 inet_pton6 argv1).
  assert (Hqc : (qc = 1%nat /\ fwd argv1 = false) \/
                (qc = 2%nat /\ fwd argv1 = true)).
  { subst qc. unfold run_qcount. destruct (fwd argv1); auto. }
  destruct (step_shape dn_expand getaddrinfo res_send network argc argv2
              query qlen2 (Z.of_nat qc) Hargc 0 0 qlen None
              (or_introl eq_refl))
    as (pre & fr & rest & E0 & Hk0 & Hs0 & Hg0 & Hfr0 & Hr0 & Hret0 & Hc0).
  change (switch_query 0 0) with 0 in Hk0.
  change (0 =? 0) with true in Hg0, Hc0. cbv iota in Hg0, Hc0.
  assert (Hpre : Forall (run_kind argc argv2) pre /\
                 count is_free pre = 0%nat /\
                 Forall (fun e => about_query 1 e = false) pre).
  { split; [| split].
    - eapply Forall_impl; [| exact Hk0]. intros e He.
      apply (exchange_kind_run argc argv2 0 0 e (or_introl eq_refl) He).
    - apply count_none. eapply Forall_impl; [| exact Hk0]. intros e He.
      apply (exchange_kind_run argc argv2 0 0 e (or_introl eq_refl) He).
    - eapply Forall_impl; [| exact Hk0]. intros e.
      apply exchange_kind_first. }
  destruct Hpre as (Hrk0 & Hnf0 & Hq0).
  destruct qc as [| [| qc']] eqn:Eqc;
    [destruct Hqc as [[? _] | [? _]]; discriminate | |].
  - (* one pass *)
    cbn [queries].
    destruct (query_step dn_expand getaddrinfo res_send network argc argv2
                query qlen2 (Z.of_nat 1) 0 0 qlen None)
      as [t0 [rc | [[cq1 ql1] srv1]]] eqn:Es; cbn [fst snd] in *.
    + rewrite !bind_inl. cbn [fst snd].
      exists pre, fr, rest.
      split; [exact E0 |]. split; [exact Hrk0 |]. split; [exact Hnf0 |].
      split; [exact Hs0 |]. split; [exact Hg0 |].
      split; [intros _; exact Hq0 |].
      split; [destruct Hfr0 as [H | [H _]]; auto |].
      split; [exact Hr0 |].
      rewrite (Hret0 rc eq_refl).
      split; [right; reflexivity | discriminate].
    + destruct (Hc0 cq1 ql1 srv1 eq_refl) as (_ & _ & _ & Hs1 & Hg1 & Hf1).
      rewrite bind_inr. cbn [ret fst snd]. rewrite bind_inr.
      cbn [ret fst snd]. rewrite !app_nil_r.
      exists pre, fr, rest.
      split; [exact E0 |]. split; [exact Hrk0 |]. split; [exact Hnf0 |].
      split; [exact Hs0 |]. split; [exact Hg0 |].
      split; [intros _; exact Hq0 |].
      split; [destruct Hfr0 as [H | [H _]]; auto |].
      split; [exact Hr0 |].
      split; [left; reflexivity |].
      intros _. split; [exact Hs1 |]. split; [exact Hg1 |].
      apply Hf1. reflexivity.
  - (* two passes *)
    destruct Hqc as [[? _] | [Hq2 Hfw]]; [discriminate |].
    injection Hq2 as ->.
    assert (Hfr00 : fr = []).
    { destruct Hfr0 as [H | [_ H]]; [exact H | discriminate]. }
    subst fr. cbn [app] in E0.
    cbn [queries].
    destruct (query_step dn_expand getaddrinfo res_send network argc argv2
                query qlen2 (Z.of_nat 2) 0 0 qlen None)
      as [t0 [rc | [[cq1 ql1] srv1]]] eqn:Es; cbn [fst snd] in *.
    + rewrite !bind_inl. cbn [fst snd].
      exists pre, [], rest.
      split; [exact E0 |]. split; [exact Hrk0 |]. split; [exact Hnf0 |].
      split; [lia |]. split; [exact Hg0 |].
      split; [intros; congruence |].
      split; [left; reflexivity |]. split; [exact Hr0 |].
      rewrite (Hret0 rc eq_refl).
      split; [right; reflexivity | discriminate].
    + destruct (Hc0 cq1 ql1 srv1 eq_refl) as (-> & _ & Hsv & Hs1 & Hg1 & _).
      destruct (step_shape dn_expand getaddrinfo res_send network argc argv2
                  query qlen2 (Z.of_nat 2) Hargc (0 + 1) 0 ql1 srv1
                  (or_intror Hsv))
        as (pre' & fr' & rest' & E1 & Hk1 & Hs1' & Hg1' & Hfr1 & Hr1
            & Hret1 & Hc1).
      change (switch_query (0 + 1) 0) with 1 in Hk1.
      change (0 + 1 =? 0) with false in Hg1', Hc1. cbv iota in Hg1', Hc1.
      destruct (parser_facts argc argv2 rest Hr0) as (Prk & Pnf & Pns & Png).
      assert (Hbefore :
                Forall (run_kind argc argv2) (pre ++ rest ++ pre') /\
                count is_free (pre ++ rest ++ pre') = 0%nat /\
                count is_send (pre ++ rest ++ pre')
                  = (count is_send pre + count is_send pre')%nat /\
                count is_getaddrinfo (pre ++ rest ++ pre')
                  = (count is_getaddrinfo pre +
                     count is_getaddrinfo pre')%nat).
      { split; [| split; [| split]].
        - apply Forall_app. split; [exact Hrk0 |].
          apply Forall_app. split; [exact Prk |].
          eapply Forall_impl; [| exact Hk1]. intros e He.
          apply (exchange_kind_run argc argv2 (0 + 1) 1 e
                   (or_intror eq_refl) He).
        - rewrite !count_app, Hnf0, Pnf. cbn [Nat.add].
          apply count_none. eapply Forall_impl; [| exact Hk1]. intros e He.
          apply (exchange_kind_run argc argv2 (0 + 1) 1 e
                   (or_intror eq_refl) He).
        - rewrite !count_app, Pns. reflexivity.
        - rewrite !count_app, Png. reflexivity. }
      destruct Hbefore as (Brk & Bnf & Bs & Bg).
      rewrite bind_inr. cbv beta iota. cbn [queries].
      change (switch_query 0 0) with 0.
      destruct (query_step dn_expand getaddrinfo res_send network argc argv2
                  query qlen2 (Z.of_nat 2) (0 + 1) 0 ql1 srv1)
        as [t1 [rc | [[cq2 ql2] srv2]]] eqn:Es1; cbn [fst snd] in *.
      * rewrite !bind_inl. cbn [fst snd].
        exists (pre ++ rest ++ pre'), fr', rest'.
        split; [rewrite E0, E1, <- !app_assoc; reflexivity |].
        split; [exact Brk |]. split; [exact Bnf |].
        split; [rewrite Bs; lia |]. split; [rewrite Bg; lia |].
        split; [intros; congruence |].
        split; [destruct Hfr1 as [H | [H _]]; auto |].
        split; [exact Hr1 |].
        rewrite (Hret1 rc eq_refl).
        split; [right; reflexivity | discriminate].
      * destruct (Hc1 cq2 ql2 srv2 eq_refl)
          as (_ & _ & _ & Hs2 & Hg2 & Hf2).
        rewrite bind_inr. cbn [ret fst snd]. rewrite bind_inr.
        cbn [ret fst snd]. rewrite !app_nil_r.
        exists (pre ++ rest ++ pre'), fr', rest'.
        split; [rewrite E0, E1, <- !app_assoc; reflexivity |].
        split; [exact Brk |]. split; [exact Bnf |].
        split; [rewrite Bs; lia |]. split; [rewrite Bg; lia |].
        split; [intros; congruence |].
        split; [destruct Hfr1 as [H | [H _]]; auto |].
        split; [exact Hr1 |].
        split; [left; reflexivity |].
        intros _. split; [rewrite Bs; lia |]. split; [rewrite Bg; lia |].
        apply Hf2. reflexivity.
Qed.

Lemma main_usage (argc : Z) (argv0 argv1 argv2 : string) :
  argc < 2 \/ 3 < argc ->
  prog argc argv0 argv1 argv2 =
  ([stderr_line ("Usage: " ++ argv0 ++ " [HOST] [SERVER]")],
   inl EXIT_FAILURE).
Proof.
  intros H. unfold main.
  destruct (Z.ltb_spec argc 2); [reflexivity |].
  destruct (Z.ltb_spec 3 argc); [reflexivity | lia].
Qed.

Lemma count_fr (f : event -> bool) (fr : trace) :
  fr = [] \/ fr = [EvFreeaddrinfo] -> f EvFreeaddrinfo = false ->
  count f fr = 0%nat.
Proof. intros [-> | ->] H; unfold count; cbn; [| rewrite H]; reflexivity. Qed.

(** X12. In every run of [main], the only server handed to
    [getaddrinfo] is 127.0.0.1 when no server argument is given and the
    server argument otherwise; libc's [res_send] is used only without a
    server argument, and only for [query[0]] or [query[1]]; and the
    system calls of [res_ssend] happen only with a server argument. *)
Theorem main_uses_selected_transport (argc : Z)
    (argv0 argv1 argv2 : string) :
  (forall s, In (EvGetaddrinfo s) (events (prog argc argv0 argv1 argv2)) ->
     s = server_name argc argv2) /\
  (forall msg len,
     In (EvResSend msg len) (events (prog argc argv0 argv1 argv2)) ->
     argc = 2 /\ (msg = 0 \/ msg = 1)) /\
  (forall s, In (EvSys s) (events (prog argc argv0 argv1 argv2)) ->
     argc = 3).
Proof.
  assert (H : Forall (run_kind argc argv2)
                (events (prog argc argv0 argv1 argv2))).
  { destruct (Z.lt_ge_cases argc 2) as [Hlo | Hlo];
      [| destruct (Z.lt_ge_cases 3 argc) as [Hhi | Hhi]].
    1,2: rewrite main_usage by lia; repeat constructor.
    destruct (main_run argc argv0 argv1 argv2 ltac:(lia))
      as (before & fr & after & E & Hb & _ & _ & _ & _ & Hfr & Ha & _).
    rewrite E. apply Forall_app. split; [exact Hb |].
    apply Forall_app. split.
    - destruct Hfr as [-> | ->]; repeat constructor.
    - apply (parser_facts argc argv2 after Ha). }
  rewrite Forall_forall in H.
  split; [| split].
  - intros s Hin. exact (H _ Hin).
  - intros msg len Hin. exact (H _ Hin).
  - intros s Hin. exact (proj1 (H _ Hin)).
Qed.




(** X15. A run sends at most one query in a reverse lookup and at most
    two in a forward lookup, and resolves the server at most once; a
    reverse lookup never sends [query[1]]. A run that returns
    [EXIT_SUCCESS] has sent exactly that many queries and resolved the
    server exactly once. *)
Theorem main_sends_per_lookup (argc : Z) (argv0 argv1 argv2 : string) :
  (count is_send (events (prog argc argv0 argv1 argv2))
     <= run_qcount inet_pton4 inet_pton6 argv1)%nat /\
  (count is_getaddrinfo (events (prog argc argv0 argv1 argv2)) <= 1)%nat /\
  (fwd argv1 = false ->
   Forall (fun e => about_query 1 e = false)
     (events (prog argc argv0 argv1 argv2))) /\
  (result (prog argc argv0 argv1 argv2) = EXIT_SUCCESS ->
   count is_send (events (prog argc argv0 argv1 argv2))
     = run_qcount inet_pton4 inet_pton6 argv1 /\
   count is_getaddrinfo (events (prog argc argv0 argv1 argv2)) = 1%nat).
Proof.
  destruct (Z.lt_ge_cases argc 2) as [Hlo | Hlo];
    [| destruct (Z.lt_ge_cases 3 argc) as [Hhi | Hhi]].
  1,2: rewrite main_usage by lia;
       (split; [cbn; lia |]); (split; [cbn; lia |]);
       (split; [intros _; repeat constructor | intros H; discriminate]).
  destruct (main_run argc argv0 argv1 argv2 ltac:(lia))
    as (before & fr & after & E & _ & _ & Hs & Hg & Hq & Hfr & Ha & _ & Hok).
  destruct (parser_facts argc argv2 after Ha) as (_ & _ & Pns & Png).
  rewrite E, !count_app, Pns, Png.
  rewrite (count_fr is_send fr Hfr eq_refl).
  rewrite (count_fr is_getaddrinfo fr Hfr eq_refl).
  rewrite !Nat.add_0_r.
  split; [exact Hs |]. split; [exact Hg |]. split.
  - intros Hf. apply Forall_app. split; [exact (Hq Hf) |].
    apply Forall_app. split.
    + destruct Hfr as [-> | ->]; repeat constructor.
    + eapply Forall_impl; [| exact Ha]. intros e.
      apply parser_event_exchanges_nothing.
  - intros H. destruct (Hok H) as (H1 & H2 & _). split; assumption.
Qed.

(** X16. With two or three arguments: when [res_mkquery] fails for
    the first query, [main] prints "cannot build the query" and returns
    [EXIT_FAILURE] without resolving the server or sending anything; when
    the query is built and the server cannot be resolved, [main] calls
    [getaddrinfo] once, prints "cannot resolve" with the server's name
    and returns [EXIT_FAILURE], again without sending anything. *)
Theorem main_fails_before_sending (argc : Z) (argv0 argv1 argv2 : string) :
  2 <= argc <= 3 ->
  (built_qlen inet_pton4 inet_pton6 res_mkquery argv1 < 0 ->
   prog argc argv0 argv1 argv2 =
   ([stderr_line "cannot build the query"], inl EXIT_FAILURE)) /\
  (0 <= built_qlen inet_pton4 inet_pton6 res_mkquery argv1 ->
   getaddrinfo (server_name argc argv2) = None ->
   prog argc argv0 argv1 argv2 =
   ([EvGetaddrinfo (server_name argc argv2);
     stderr_line ("cannot resolve " ++ server_name argc argv2)],
    inl EXIT_FAILURE)).
Proof.
  intros Hargc.
  destruct (run_loop argc argv0 argv1 argv2 Hargc)
    as (query & qlen2 & qlen & Em & Eq).
  rewrite Em, <- Eq. clear Em Eq.
  assert (Hn : exists n, run_qcount inet_pton4 inet_pton6 argv1 = S n).
  { unfold run_qcount. destruct (fwd argv1); eexists; reflexivity. }
  destruct Hn as [n ->]. cbn [queries]. unfold query_step.
  change (switch_qlen qlen2 0 qlen) with qlen.
  change (switch_query 0 0) with 0.
  split.
  - intros Hq. destruct (Z.ltb_spec qlen 0); [reflexivity | lia].
  - intros Hq Hg. destruct (Z.ltb_spec qlen 0); [lia |].
    rewrite (exchange_server getaddrinfo res_send network argc argv2 Hargc),
      server_once_cases.
    change (0 =? 0) with true. cbv iota. rewrite Hg. reflexivity.
Qed.

(** X17. In a forward lookup whose first query passes every stage, a
    failure of [res_mkquery] for the second query is noticed only in the
    second pass: the run is the first exchange, the complete parse of its
    response with whatever it printed, then "cannot build the query",
    and [main] returns [EXIT_FAILURE] without sending the second query
    and without releasing the server address. *)
Theorem main_second_build_failure (argc : Z) (argv0 argv1 argv2 : string)
    (t : trace) (srv : option addrinfo) (rlen : Z) (response : mem) :
  2 <= argc <= 3 -> fwd argv1 = true ->
  0 <= first_qlen inet_pton4 inet_pton6 res_mkquery argv1 ->
  first_exchange inet_pton4 inet_pton6 res_mkquery getaddrinfo res_send
    network argc argv1 argv2 = (t, inr (srv, rlen, response)) ->
  0 <= rlen ->
  memcmp2 (forward_queries inet_pton4 inet_pton6 res_mkquery argv1 0)
    response = false ->
  0 <= result (dns_parse dn_expand response rlen) ->
  second_qlen inet_pton4 inet_pton6 res_mkquery argv1 < 0 ->
  prog argc argv0 argv1 argv2 =
  ((t ++ events (dns_parse dn_expand response rlen)) ++
     [stderr_line "cannot build the query"], inl EXIT_FAILURE).
Proof.
  intros Hargc Hfwd Hq E Hr Hm Hd Hq2.
  rewrite (main_forward inet_pton4 inet_pton6 dn_expand res_mkquery
             getaddrinfo res_send network argc argv0 argv1 argv2 Hargc Hfwd).
  cbn [queries].
  pose proof (first_pass_continues inet_pton4 inet_pton6 dn_expand
                res_mkquery getaddrinfo res_send network argc argv1 argv2
                t srv rlen response Hq E Hr Hm Hd) as Hs.
  cbv beta in Hs. rewrite Hs, bind_inr. cbv beta iota.
  unfold query_step.
  change (switch_qlen (second_qlen inet_pton4 inet_pton6 res_mkquery argv1)
            (0 + 1) (first_qlen inet_pton4 inet_pton6 res_mkquery argv1))
    with (second_qlen inet_pton4 inet_pton6 res_mkquery argv1).
  destruct (Z.ltb_spec
              (second_qlen inet_pton4 inet_pton6 res_mkquery argv1) 0);
    [| lia].
  reflexivity.
Qed.

Local Abbreviation fails :=
  (first_query_fails inet_pton4 inet_pton6 dn_expand res_mkquery getaddrinfo
     res_send network).
Local Abbreviation qlen1 := (first_qlen inet_pton4 inet_pton6 res_mkquery).
Local Abbreviation qlen2 := (second_qlen inet_pton4 inet_pton6 res_mkquery).
Local Abbreviation queries2 :=
  (forward_queries inet_pton4 inet_pton6 res_mkquery).
Local Abbreviation exchange1 :=
  (first_exchange inet_pton4 inet_pton6 res_mkquery getaddrinfo res_send
     network).

(** The first exchange of a forward lookup, written out. *)
Lemma first_exchange_cases (argc : Z) (argv1 argv2 : string) :
  2 <= argc <= 3 ->
  exchange1 argc argv1 argv2 =
  match getaddrinfo (server_name argc argv2) with
  | None =>
      ([EvGetaddrinfo (server_name argc argv2);
        stderr_line ("cannot resolve " ++ server_name argc argv2)],
       inl EXIT_FAILURE)
  | Some a =>
      if argc =? 2 then
        ([EvGetaddrinfo (server_name argc argv2);
          EvPrintAddress "Server:" (server_name argc argv2) (ai_family a)
            (ai_addr a);
          EvStdout NL] ++ [EvResSend 0 (qlen1 argv1)],
         inr (Some a, fst (res_send 0), snd (res_send 0)))
      else
        ([EvGetaddrinfo (server_name argc argv2);
          EvPrintAddress "Server:" (server_name argc argv2) (ai_family a)
            (ai_addr a);
          EvStdout NL] ++
           events (res_ssend (network 0) a 0 (qlen1 argv1) 1024),
         inr (Some a, result (res_ssend (network 0) a 0 (qlen1 argv1) 1024),
              answer_buf (network 0)))
  end.
Proof.
  intros Hargc. unfold first_exchange.
  rewrite (exchange_server getaddrinfo res_send network argc argv2 Hargc),
    server_once_cases.
  change (0 =? 0) with true. cbv iota.
  destruct (getaddrinfo (server_name argc argv2)) as [a |];
    [| reflexivity].
  rewrite bind_inr. cbv beta.
  destruct (argc =? 2).
  - rewrite bind_emit. destruct (res_send 0) as [rl rs]. reflexivity.
  - rewrite bind_invoke. cbn [fst snd ret]. rewrite app_nil_r. reflexivity.
Qed.

(** C10. In a forward lookup, a first query that fails at the build, at
    the resolution of the server, in the transport, on the transaction
    id or in the decoding makes [main] return [EXIT_FAILURE], which is
    not zero, and nothing in the run sends the second query. The exit is
    immediate: the whole run is, for a failed build, the line "cannot
    build the query"; for a server that cannot be resolved, the call of
    [getaddrinfo] and the line "cannot resolve"; otherwise the first
    exchange (the resolution of the server and one transport of
    [query[0]]) followed by "cannot send the query", by "qsections
    don't match", or by the parse of the response and "decode failure";
    nothing comes after the diagnostic of the failing stage. When the
    first query passes all of these, the run starts with the events of
    the first exchange followed by those of the complete parse of its
    response, none of which sends the second query. Every run is of one
    of the two kinds. *)
Theorem main_first_query_gates_second (argc : Z)
    (argv0 argv1 argv2 : string) :
  2 <= argc <= 3 -> forward inet_pton4 inet_pton6 argv1 = true ->
  (fails argc argv1 argv2 ->
     result (prog argc argv0 argv1 argv2) = EXIT_FAILURE /\
     EXIT_FAILURE <> 0 /\
     Forall (fun e => about_query 1 e = false)
       (events (prog argc argv0 argv1 argv2))) /\
  ((qlen1 argv1 < 0 ->
      prog argc argv0 argv1 argv2 =
      ([stderr_line "cannot build the query"], inl EXIT_FAILURE)) /\
   (forall t rc,
      0 <= qlen1 argv1 ->
      exchange1 argc argv1 argv2 = (t, inl rc) ->
      t = [EvGetaddrinfo (server_name argc argv2);
           stderr_line ("cannot resolve " ++ server_name argc argv2)] /\
      prog argc argv0 argv1 argv2 = (t, inl EXIT_FAILURE)) /\
   (forall t srv rlen response,
      0 <= qlen1 argv1 ->
      exchange1 argc argv1 argv2 = (t, inr (srv, rlen, response)) ->
      (exists a sent,
         getaddrinfo (server_name argc argv2) = Some a /\
         srv = Some a /\
         t = [EvGetaddrinfo (server_name argc argv2);
              EvPrintAddress "Server:" (server_name argc argv2)
                (ai_family a) (ai_addr a);
              EvStdout NL] ++ sent /\
         ((argc = 2 /\ sent = [EvResSend 0 (qlen1 argv1)] /\
           res_send 0 = (rlen, response)) \/
          (argc = 3 /\
           sent = events (res_ssend (network 0) a 0 (qlen1 argv1) 1024) /\
           rlen = result (res_ssend (network 0) a 0 (qlen1 argv1) 1024) /\
           response = answer_buf (network 0)))) /\
      (rlen < 0 ->
         prog argc argv0 argv1 argv2 =
         (t ++ [stderr_line "cannot send the query"], inl EXIT_FAILURE)) /\
      (0 <= rlen -> memcmp2 (queries2 argv1 0) response = true ->
         prog argc argv0 argv1 argv2 =
         (t ++ [stderr_line "qsections don't match"], inl EXIT_FAILURE)) /\
      (0 <= rlen -> memcmp2 (queries2 argv1 0) response = false ->
         result (dns_parse dn_expand response rlen) < 0 ->
         prog argc argv0 argv1 argv2 =
         (t ++ events (dns_parse dn_expand response rlen) ++
            [stderr_line "decode failure"], inl EXIT_FAILURE)))) /\
  (forall t srv rlen response,
     0 <= qlen1 argv1 ->
     exchange1 argc argv1 argv2 = (t, inr (srv, rlen, response)) ->
     0 <= rlen -> memcmp2 (queries2 argv1 0) response = false ->
     0 <= result (dns_parse dn_expand response rlen) ->
     exists after,
       events (prog argc argv0 argv1 argv2) =
       (t ++ events (dns_parse dn_expand response rlen)) ++ after /\
       Forall (fun e => about_query 1 e = false)
         (t ++ events (dns_parse dn_expand response rlen))) /\
  (fails argc argv1 argv2 \/
   exists t srv rlen response,
     0 <= qlen1 argv1 /\
     exchange1 argc argv1 argv2 = (t, inr (srv, rlen, response)) /\
     0 <= rlen /\ memcmp2 (queries2 argv1 0) response = false /\
     0 <= result (dns_parse dn_expand response rlen)).
Proof.
  intros Hargc Hfwd.
  pose proof (query_step_events dn_expand getaddrinfo res_send network argc
                argv2 (queries2 argv1) (qlen2 argv1) 2 0 0 (qlen1 argv1)
                None 1 ltac:(discriminate)) as Hev.
  unfold all_events in Hev.
  pose proof (main_forward inet_pton4 inet_pton6 dn_expand res_mkquery
                getaddrinfo res_send network argc argv0 argv1 argv2 Hargc
                Hfwd) as Em.
  pose proof (first_exchange_cases argc argv1 argv2 Hargc) as Hc.
  split; [| split; [| split]].
  - intros Hf. rewrite Em. cbn [queries].
    pose proof (first_pass_returns inet_pton4 inet_pton6 dn_expand
                  res_mkquery getaddrinfo res_send network argc argv1 argv2
                  Hargc Hf) as Hs.
    cbv beta in Hs.
    rewrite (bind_returned _ _ EXIT_FAILURE Hs), bind_inl.
    split; [reflexivity | split; [discriminate | exact Hev]].
  - split; [| split].
    + intros Hq. rewrite Em. cbn [queries]. unfold query_step.
      change (switch_qlen (qlen2 argv1) 0 (qlen1 argv1))
        with (qlen1 argv1).
      destruct (Z.ltb_spec (qlen1 argv1) 0); [reflexivity | lia].
    + intros t rc Hq E. rewrite E in Hc.
      destruct (getaddrinfo (server_name argc argv2)) as [a |];
        [destruct (argc =? 2); discriminate |].
      injection Hc as Ht Hrc. subst t rc.
      split; [reflexivity |].
      rewrite Em. cbn [queries]. unfold query_step.
      change (switch_qlen (qlen2 argv1) 0 (qlen1 argv1))
        with (qlen1 argv1).
      destruct (Z.ltb_spec (qlen1 argv1) 0); [lia |].
      change (switch_query 0 0) with 0.
      unfold first_exchange in E. rewrite E, !bind_inl. reflexivity.
    + intros t srv rlen response Hq E.
      pose proof (query_step_after_exchange dn_expand getaddrinfo res_send
                    network argc argv2 (queries2 argv1) (qlen2 argv1) 2 0 0
                    (qlen1 argv1) None srv rlen response t Hq E) as Hstep.
      change (fst (free_last 2 0)) with (@nil event) in Hstep.
      rewrite app_nil_r, bind_inr in Hstep. cbv beta in Hstep.
      change (switch_query 0 0) with 0 in Hstep.
      split; [| split; [| split]].
      * rewrite E in Hc.
        destruct (getaddrinfo (server_name argc argv2)) as [a |];
          [| discriminate].
        exists a.
        destruct (Z.eqb_spec argc 2) as [E2 | N2].
        -- injection Hc as Ht Hs Hr Hresp.
           exists [EvResSend 0 (qlen1 argv1)].
           split; [reflexivity |]. split; [exact Hs |].
           split; [exact Ht |]. left.
           split; [exact E2 |]. split; [reflexivity |].
           destruct (res_send 0) as [rl rs]. cbn [fst snd] in Hr, Hresp.
           congruence.
        -- injection Hc as Ht Hs Hr Hresp.
           exists (events (res_ssend (network 0) a 0 (qlen1 argv1) 1024)).
           split; [reflexivity |]. split; [exact Hs |].
           split; [exact Ht |]. right.
           split; [lia |]. split; [reflexivity |].
           split; [exact Hr | exact Hresp].
      * intros Hr. rewrite Em. cbn [queries]. rewrite Hstep.
        destruct (Z.ltb_spec rlen 0); [| lia].
        cbn [bind emit Return fst snd app]. reflexivity.
      * intros Hr Hm. rewrite Em. cbn [queries]. rewrite Hstep.
        destruct (Z.ltb_spec rlen 0); [lia |]. rewrite Hm.
        cbn [bind emit Return fst snd app]. reflexivity.
      * intros Hr Hm Hd. rewrite Em. cbn [queries]. rewrite Hstep.
        destruct (Z.ltb_spec rlen 0); [lia |]. rewrite Hm, bind_invoke.
        destruct (Z.ltb_spec (result (dns_parse dn_expand response rlen)) 0);
          [| lia].
        cbn [bind emit Return fst snd app]. reflexivity.
  - intros t srv rlen response Hq E Hr Hm Hd.
    rewrite Em. cbn [queries].
    pose proof (first_pass_continues inet_pton4 inet_pton6 dn_expand
                  res_mkquery getaddrinfo res_send network argc argv1 argv2
                  t srv rlen response Hq E Hr Hm Hd) as Hs.
    cbv beta in Hs. rewrite Hs in Hev. cbn [fst] in Hev.
    rewrite Hs, bind_inr.
    match goal with
    | |- context [(_ ++ fst ?m, snd ?m)] => destruct m as [tq [rc | []]]
    end;
      cbn [fst snd]; [rewrite bind_inl | rewrite bind_inr];
      unfold events; cbn [fst].
    + exists tq. split; [reflexivity | exact Hev].
    + exists (tq ++ []). split; [| exact Hev].
      rewrite <- !app_assoc. reflexivity.
  - destruct (Z.lt_ge_cases (qlen1 argv1) 0) as [Hq | Hq].
    { left. apply fails_build. exact Hq. }
    destruct (exchange1 argc argv1 argv2) as [t [rc | [[srv rlen] response]]]
      eqn:E.
    { left. eapply fails_server; eassumption. }
    destruct (Z.lt_ge_cases rlen 0) as [Hr | Hr].
    { left. eapply fails_transport; eassumption. }
    destruct (memcmp2 (queries2 argv1 0) response) eqn:Hm.
    { left. eapply fails_mismatch; eassumption. }
    destruct (Z.lt_ge_cases (result (dns_parse dn_expand response rlen)) 0)
      as [Hd | Hd].
    { left. eapply fails_decode; eassumption. }
    right. exists t, srv, rlen, response. repeat split; assumption.
Qed.

End RunFacts.

(** * Concrete runs *)

(** ** dns_parse *)

(** A server failure is rejected on its response code. *)
Lemma dns_parse_rejects_bad_header_servfail :
  rcode_of (mem_of_list servfail) <> 0 /\
  result (dns_parse sample_dn_expand (mem_of_list servfail) 12) = -1 /\
  (forall e,
     In e (events (dns_parse sample_dn_expand (mem_of_list servfail) 12)) ->
     e = EvLoad 3).
Proof.
  assert (H : rcode_of (mem_of_list servfail) <> 0).
  { vm_compute. discriminate. }
  split; [exact H |].
  apply (dns_parse_rejects_bad_header sample_dn_expand (mem_of_list servfail)
           12 (or_intror H)).
Defined.

(** 33 questions and 32 answers are one too many; one question and one
    answer pass and the sections are walked. *)
Lemma dns_parse_count_bound_65_and_2 :
  (64 < qdcount_of (mem_of_list (counts 33 32)) +
        ancount_of (mem_of_list (counts 33 32)) /\
   result (dns_parse sample_dn_expand (mem_of_list (counts 33 32)) 12) = -1) /\
  (qdcount_of (mem_of_list one_answer) + ancount_of (mem_of_list one_answer)
     <= 64 /\
   dns_parse sample_dn_expand (mem_of_list one_answer) 35 =
   (map EvLoad [3; 4; 5; 6; 7] ++
      fst (walk_sections sample_dn_expand (mem_of_list one_answer) 35
             (qdcount_of (mem_of_list one_answer))
             (ancount_of (mem_of_list one_answer))),
    snd (walk_sections sample_dn_expand (mem_of_list one_answer) 35
           (qdcount_of (mem_of_list one_answer))
           (ancount_of (mem_of_list one_answer))))).
Proof.
  assert (H65 : 64 < qdcount_of (mem_of_list (counts 33 32)) +
                     ancount_of (mem_of_list (counts 33 32))).
  { vm_compute. reflexivity. }
  assert (H2 : qdcount_of (mem_of_list one_answer) +
               ancount_of (mem_of_list one_answer) <= 64).
  { vm_compute. discriminate. }
  split; split; [exact H65 | | exact H2 |].
  - apply (proj1 (dns_parse_count_bound sample_dn_expand
                    (mem_of_list (counts 33 32)) 12) H65).
  - apply (proj2 (dns_parse_count_bound sample_dn_expand
                    (mem_of_list one_answer) 35)).
    + vm_compute. discriminate.
    + vm_compute. reflexivity.
    + exact H2.
Defined.

(** ** res_ssend *)

(** A server that never answers: one poll, then the socket is closed. *)
Lemma res_ssend_single_bounded_wait_silent :
  poll_rv silent_net <= 0 /\
  res_ssend silent_net sample_srv 0 29 1024 =
  ([EvSys (sys_socket AF_INET); EvSys (sys_bind 3);
    EvSys (sys_sendto 3 0 29); EvSys (sys_poll 3 5000);
    stderr_line "poll timeout"; EvSys (sys_close 3)], inl (-1)).
Proof.
  assert (H : poll_rv silent_net <= 0). { vm_compute. discriminate. }
  split; [exact H |].
  apply (proj1 (proj2 (proj2
           (res_ssend_single_bounded_wait silent_net sample_srv 0 29 1024)))).
  - vm_compute. discriminate.
  - vm_compute. discriminate.
  - vm_compute. discriminate.
  - exact H.
Defined.

(** ** reverse_lookup *)

(** The two examples of the specification. *)
Lemma reverse_lookup_derives_reverse_name_examples :
  MAXREVLEN <= 73 /\
  reverse_lookup sample_pton4 sample_pton6 "192.0.2.1" 73 =
    ret_buf "1.2.0.192.in-addr.arpa" /\
  reverse_lookup sample_pton4 sample_pton6 "2001:db8::1" 73 =
    ret_buf
      "1.0.0.0.0.0.0.0.0.0.0.0.0.0.0.0.0.0.0.0.0.0.0.0.8.b.d.0.1.0.0.2.ip6.arpa".
Proof.
  assert (H : MAXREVLEN <= 73). { vm_compute. discriminate. }
  split; [exact H | split].
  - apply (proj1 (reverse_lookup_derives_reverse_name sample_pton4
                    sample_pton6 "192.0.2.1" 73 H)
             [xc0; x00; x02; x01] eq_refl eq_refl).
  - apply (proj1 (proj2 (reverse_lookup_derives_reverse_name sample_pton4
                           sample_pton6 "2001:db8::1" 73 H)
                    [x20; x01; x0d; xb8; x00; x00; x00; x00;
                     x00; x00; x00; x00; x00; x00; x00; x01]
                    eq_refl eq_refl eq_refl)).
Defined.

(** With exactly [MAXREVLEN] bytes the IPv6 name still fits. *)
Lemma reverse_lookup_fallback_unreachable_at_73 :
  MAXREVLEN <= 73 /\
  exists p len',
    emit_loop v6_text
      [x20; x01; x0d; xb8; x00; x00; x00; x00;
       x00; x00; x00; x00; x00; x00; x00; x01] 16 15 "" 73 = Some (p, len') /\
    8 < len' /\
    reverse_lookup sample_pton4 sample_pton6 "2001:db8::1" 73 =
      ret_buf (p ++ "ip6.arpa") /\
    snprintf (p ++ "ip6.arpa") + 1 = 73.
Proof.
  assert (H : MAXREVLEN <= 73). { vm_compute. discriminate. }
  split; [exact H |].
  apply (proj2 (reverse_lookup_fallback_unreachable sample_pton4 sample_pton6
                  "2001:db8::1" 73 H)
           [x20; x01; x0d; xb8; x00; x00; x00; x00;
            x00; x00; x00; x00; x00; x00; x00; x01] eq_refl eq_refl).
Defined.

(** Below [MAXREVLEN] nothing is returned: a name that is no literal does
    not come back, and a literal whose reverse name would fit in 30
    bytes is not derived. *)
Lemma reverse_lookup_small_capacity_aborts :
  (sample_pton4 "localhost" = None /\ sample_pton6 "localhost" = None /\
   reverse_lookup sample_pton4 sample_pton6 "localhost" 10 <> ret_addr) /\
  (would_overflow (writes sample_pton4 sample_pton6 "192.0.2.1") 30 = false /\
   reverse_lookup sample_pton4 sample_pton6 "192.0.2.1" 30 <>
     ret_buf "1.2.0.192.in-addr.arpa").
Proof.
  repeat split; try reflexivity; vm_compute; discriminate.
Qed.

(** At [MAXREVLEN] a name that is no literal comes back as it is, and
    below it the assertion fails. *)
Lemma reverse_lookup_fallback_iff_localhost :
  (MAXREVLEN <= 73 /\
   reverse_lookup sample_pton4 sample_pton6 "localhost" 73 = ret_addr) /\
  (10 < MAXREVLEN /\
   reverse_lookup sample_pton4 sample_pton6 "localhost" 10 = assert_failed).
Proof.
  assert (H : MAXREVLEN <= 73). { vm_compute. discriminate. }
  assert (H' : 10 < MAXREVLEN). { vm_compute. reflexivity. }
  split; split; [exact H | | exact H' |].
  - apply (proj1 (proj1 (proj2 (reverse_lookup_fallback_iff sample_pton4
                                  sample_pton6 "localhost" 73)) H)).
    left. split; reflexivity.
  - apply (proj1 (reverse_lookup_fallback_iff sample_pton4 sample_pton6
                    "localhost" 10) H').
Defined.

(** ** main *)

(** The answer of another transaction: the first pass stops the program
    right after the exchange. *)
Lemma query_step_checks_transaction_id_other_id :
  first_two (forward_queries sample_pton4 sample_pton6 sample_res_mkquery
               "a" 0) <>
    first_two (mem_of_list other_id_answer) /\
  queries sample_dn_expand sample_getaddrinfo other_id_res_send
    sample_network 2 "" (forward_queries sample_pton4 sample_pton6
                           sample_res_mkquery "a") 19 2 2 0 0 19 None =
  ([EvGetaddrinfo "127.0.0.1";
    EvPrintAddress "Server:" "127.0.0.1" AF_INET 0;
    EvStdout NL;
    EvResSend 0 19;
    stderr_line "qsections don't match"], inl EXIT_FAILURE).
Proof.
  assert (H : first_two (forward_queries sample_pton4 sample_pton6
                           sample_res_mkquery "a" 0) <>
              first_two (mem_of_list other_id_answer)).
  { vm_compute. discriminate. }
  split; [exact H |].
  apply (proj1 (proj1 (query_step_checks_transaction_id sample_dn_expand
                  sample_getaddrinfo other_id_res_send sample_network 2 ""
                  (forward_queries sample_pton4 sample_pton6
                     sample_res_mkquery "a") 19 2 0 0 19 None
                  (Some sample_srv) 35 (mem_of_list other_id_answer)
                  [EvGetaddrinfo "127.0.0.1";
                   EvPrintAddress "Server:" "127.0.0.1" AF_INET 0;
                   EvStdout NL;
                   EvResSend 0 19]
                  ltac:(vm_compute; discriminate) eq_refl
                  ltac:(vm_compute; discriminate)) H) 1%nat).
Defined.

(** A forward lookup of [a] whose first answer carries another
    transaction id: the program fails right after the comparison, its
    whole run being the first exchange and the diagnostic, and the second
    query stays unsent. *)
Lemma main_first_query_gates_second_other_id :
  forward sample_pton4 sample_pton6 "a" = true /\
  result (main sample_pton4 sample_pton6 sample_dn_expand sample_res_mkquery
            sample_getaddrinfo other_id_res_send sample_network
            2 "nslookup" "a" "") = EXIT_FAILURE /\
  Forall (fun e => about_query 1 e = false)
    (events (main sample_pton4 sample_pton6 sample_dn_expand
               sample_res_mkquery sample_getaddrinfo other_id_res_send
               sample_network 2 "nslookup" "a" "")) /\
  main sample_pton4 sample_pton6 sample_dn_expand sample_res_mkquery
    sample_getaddrinfo other_id_res_send sample_network
    2 "nslookup" "a" "" =
  ([EvGetaddrinfo "127.0.0.1";
    EvPrintAddress "Server:" "127.0.0.1" AF_INET 0;
    EvStdout NL;
    EvResSend 0 19] ++
   [stderr_line "qsections don't match"], inl EXIT_FAILURE).
Proof.
  assert (Hf : forward sample_pton4 sample_pton6 "a" = true).
  { reflexivity. }
  assert (Ha : 2 <= 2 <= 3). { split; discriminate. }
  assert (Hq : 0 <= first_qlen sample_pton4 sample_pton6 sample_res_mkquery
                      "a").
  { vm_compute. discriminate. }
  assert (Hr : 0 <= 35). { discriminate. }
  assert (Hm : memcmp2 (forward_queries sample_pton4 sample_pton6
                          sample_res_mkquery "a" 0)
                 (mem_of_list other_id_answer) = true).
  { vm_compute. reflexivity. }
  assert (Hfail : first_query_fails sample_pton4 sample_pton6 sample_dn_expand
                    sample_res_mkquery sample_getaddrinfo other_id_res_send
                    sample_network 2 "a" "").
  { apply (fails_mismatch sample_pton4 sample_pton6 sample_dn_expand
             sample_res_mkquery sample_getaddrinfo other_id_res_send
             sample_network 2 "a" ""
             [EvGetaddrinfo "127.0.0.1";
              EvPrintAddress "Server:" "127.0.0.1" AF_INET 0;
              EvStdout NL;
              EvResSend 0 19]
             (Some sample_srv) 35 (mem_of_list other_id_answer)).
    - exact Hq.
    - reflexivity.
    - exact Hr.
    - exact Hm. }
  split; [exact Hf |].
  destruct (main_first_query_gates_second sample_pton4 sample_pton6
              sample_dn_expand sample_res_mkquery sample_getaddrinfo
              other_id_res_send sample_network 2 "nslookup" "a" ""
              Ha Hf) as (Hgate & (_ & _ & Hrun) & _).
  destruct (Hgate Hfail) as (Hres & _ & Hev).
  split; [exact Hres | split; [exact Hev |]].
  apply (proj1 (proj2 (proj2
           (Hrun [EvGetaddrinfo "127.0.0.1";
                  EvPrintAddress "Server:" "127.0.0.1" AF_INET 0;
                  EvStdout NL;
                  EvResSend 0 19]
              (Some sample_srv) 35 (mem_of_list other_id_answer)
              Hq eq_refl))) Hr Hm).
Defined.

(** A forward lookup whose answers match sends both queries, the second
    after the parse of the first answer, and succeeds; a reverse lookup
    through a given server sends one. *)
Lemma main_forward_lookup_run :
  result (main sample_pton4 sample_pton6 sample_dn_expand sample_res_mkquery
            sample_getaddrinfo good_res_send sample_network
            2 "nslookup" "a" "") = EXIT_SUCCESS /\
  filter (fun e => about_query 0 e || about_query 1 e || is_call e)
    (events (main sample_pton4 sample_pton6 sample_dn_expand
               sample_res_mkquery sample_getaddrinfo good_res_send
               sample_network 2 "nslookup" "a" "")) =
  [EvResSend 0 19; EvCall (mkCall 1 31 4 19 35);
   EvResSend 1 19; EvCall (mkCall 1 31 4 19 35)].
Proof. split; vm_compute; reflexivity. Qed.

Lemma main_reverse_lookup_run :
  result (main sample_pton4 sample_pton6 sample_dn_expand sample_res_mkquery
            sample_getaddrinfo good_res_send sample_network
            3 "nslookup" "192.0.2.1" "10.0.0.1") = EXIT_SUCCESS /\
  filter (fun e => about_query 0 e || about_query 1 e || is_call e)
    (events (main sample_pton4 sample_pton6 sample_dn_expand
               sample_res_mkquery sample_getaddrinfo good_res_send
               sample_network 3 "nslookup" "192.0.2.1" "10.0.0.1")) =
  [EvSys (sys_sendto 3 0 19); EvCall (mkCall 1 31 4 19 35)].
Proof. split; vm_compute; reflexivity. Qed.

(** ** Further concrete runs *)

(** With a [dn_expand] that fails, the answer of [one_answer] is handed
    to the callback and the walk ends on its diagnostic. *)
Lemma dns_parse_stops_at_expansion_error_one_answer :
  In dn_expand_error
    (events (dns_parse failing_dn_expand (mem_of_list one_answer) 35)) /\
  result (dns_parse failing_dn_expand (mem_of_list one_answer) 35) = -1 /\
  exists t,
    events (dns_parse failing_dn_expand (mem_of_list one_answer) 35) =
      t ++ [dn_expand_error] /\
    ~ In dn_expand_error t.
Proof.
  assert (H : In dn_expand_error
                (events (dns_parse failing_dn_expand
                           (mem_of_list one_answer) 35))).
  { vm_compute. do 19 right. left. reflexivity. }
  split; [exact H |].
  apply (dns_parse_stops_at_expansion_error failing_dn_expand
           (mem_of_list one_answer) 35 H).
Defined.

(** [one_answer] is laid out as one question and one answer, and the
    answer is what the callback gets. *)
Lemma dns_parse_accepts_layout_one_answer :
  (12 <= 35 /\ rcode_of (mem_of_list one_answer) = 0 /\
   qdcount_of (mem_of_list one_answer) + ancount_of (mem_of_list one_answer)
     <= 64) /\
  exists pq cs,
    questions_at (mem_of_list one_answer) 35
      (Z.to_nat (qdcount_of (mem_of_list one_answer))) 12 pq /\
    answers_at sample_dn_expand (mem_of_list one_answer) 35
      (Z.to_nat (ancount_of (mem_of_list one_answer))) pq cs /\
    calls (events (dns_parse sample_dn_expand (mem_of_list one_answer) 35))
      = cs.
Proof.
  assert (H1 : 12 <= 35) by (vm_compute; discriminate).
  assert (H2 : rcode_of (mem_of_list one_answer) = 0)
    by (vm_compute; reflexivity).
  assert (H3 : qdcount_of (mem_of_list one_answer) +
               ancount_of (mem_of_list one_answer) <= 64)
    by (vm_compute; discriminate).
  split; [repeat split; assumption |].
  destruct (dns_parse_accepts_layout sample_dn_expand
              (mem_of_list one_answer) 35 H1 H2 H3) as [Hiff Hcalls].
  destruct (proj1 Hiff) as (pq & cs & Hq & Ha).
  { vm_compute. reflexivity. }
  exists pq, cs. split; [exact Hq |]. split; [exact Ha |].
  exact (Hcalls pq cs Hq Ha).
Defined.

(** The response [question_only] ends five bytes after the zero byte of
    its question's name: it is refused. *)
Lemma dns_parse_rejects_short_tail_question_only :
  name_ends (mem_of_list question_only) 19 12 14 /\
  result (dns_parse sample_dn_expand (mem_of_list question_only) 19) = -1 /\
  calls (events (dns_parse sample_dn_expand (mem_of_list question_only) 19))
    = [].
Proof.
  assert (Hn : name_ends (mem_of_list question_only) 19 12 14).
  { split; [lia |]. split.
    - intros i Hi. assert (Hc : i = 12 \/ i = 13) by lia.
      destruct Hc as [-> | ->]; vm_compute; split; discriminate.
    - vm_compute. intros [H _]. apply H. reflexivity. }
  split; [exact Hn |].
  apply (dns_parse_rejects_short_tail sample_dn_expand
           (mem_of_list question_only) 19 14).
  - lia.
  - vm_compute. reflexivity.
  - vm_compute. discriminate.
  - vm_compute. discriminate.
  - exact Hn.
  - lia.
Defined.

(** A capacity of 23 is just enough for the 22 characters of this name
    and its NUL. *)
Lemma reverse_lookup_name_fits_at_23 :
  reverse_lookup_body sample_pton4 sample_pton6 "192.0.2.1" 23 =
    ret_buf "1.2.0.192.in-addr.arpa" /\
  snprintf "1.2.0.192.in-addr.arpa" + 1 <= 23 /\
  20 <= snprintf "1.2.0.192.in-addr.arpa".
Proof.
  assert (H : reverse_lookup_body sample_pton4 sample_pton6 "192.0.2.1" 23 =
              ret_buf "1.2.0.192.in-addr.arpa") by reflexivity.
  split; [exact H |].
  destruct (reverse_lookup_name_fits sample_pton4 sample_pton6 "192.0.2.1" 23
              "1.2.0.192.in-addr.arpa" H) as (H1 & H2 & _).
  split; [exact H1 | exact H2].
Defined.

(** 192.0.2.1 and 192.0.2.10 have different reverse names. *)
Lemma reverse_lookup_v4_distinct_two :
  [xc0; x00; x02; x01] <> [xc0; x00; x02; x0a] /\
  reverse_lookup two_pton4 two_pton6 "192.0.2.1" 73 <>
  reverse_lookup two_pton4 two_pton6 "192.0.2.10" 73.
Proof.
  assert (Hne : [xc0; x00; x02; x01] <> [xc0; x00; x02; x0a])
    by discriminate.
  assert (Hl : MAXREVLEN <= 73) by (vm_compute; discriminate).
  split; [exact Hne |].
  apply (reverse_lookup_v4_distinct two_pton4 two_pton6 "192.0.2.1"
           "192.0.2.10" 73 73 [xc0; x00; x02; x01] [xc0; x00; x02; x0a]
           Hl Hl eq_refl eq_refl eq_refl eq_refl Hne).
Defined.

(** 2001:db8::1 and 2001:db8::10 have different reverse names. *)
Lemma reverse_lookup_v6_distinct_two :
  [x20; x01; x0d; xb8; x00; x00; x00; x00;
   x00; x00; x00; x00; x00; x00; x00; x01] <>
  [x20; x01; x0d; xb8; x00; x00; x00; x00;
   x00; x00; x00; x00; x00; x00; x00; x10] /\
  reverse_lookup two_pton4 two_pton6 "2001:db8::1" 73 <>
  reverse_lookup two_pton4 two_pton6 "2001:db8::10" 73.
Proof.
  assert (Hne : [x20; x01; x0d; xb8; x00; x00; x00; x00;
                 x00; x00; x00; x00; x00; x00; x00; x01] <>
                [x20; x01; x0d; xb8; x00; x00; x00; x00;
                 x00; x00; x00; x00; x00; x00; x00; x10])
    by discriminate.
  assert (Hl : MAXREVLEN <= 73) by (vm_compute; discriminate).
  split; [exact Hne |].
  apply (reverse_lookup_v6_distinct two_pton4 two_pton6 "2001:db8::1"
           "2001:db8::10" 73 73
           [x20; x01; x0d; xb8; x00; x00; x00; x00;
            x00; x00; x00; x00; x00; x00; x00; x01]
           [x20; x01; x0d; xb8; x00; x00; x00; x00;
            x00; x00; x00; x00; x00; x00; x00; x10]
           Hl Hl eq_refl eq_refl eq_refl eq_refl eq_refl eq_refl Hne).
Defined.

(** A query that cannot be built, and a server that cannot be
    resolved. *)
Lemma main_fails_before_sending_examples :
  2 <= 3 <= 3 /\
  main sample_pton4 sample_pton6 sample_dn_expand failing_res_mkquery
    sample_getaddrinfo good_res_send sample_network
    3 "nslookup" "a" "10.0.0.1" =
  ([stderr_line "cannot build the query"], inl EXIT_FAILURE) /\
  main sample_pton4 sample_pton6 sample_dn_expand sample_res_mkquery
    no_getaddrinfo good_res_send sample_network
    3 "nslookup" "192.0.2.1" "ns.invalid" =
  ([EvGetaddrinfo "ns.invalid"; stderr_line "cannot resolve ns.invalid"],
   inl EXIT_FAILURE).
Proof.
  assert (Ha : 2 <= 3 <= 3) by (split; discriminate).
  split; [exact Ha | split].
  - apply (proj1 (main_fails_before_sending sample_pton4 sample_pton6
                    sample_dn_expand failing_res_mkquery sample_getaddrinfo
                    good_res_send sample_network 3 "nslookup" "a" "10.0.0.1"
                    Ha)).
    vm_compute. reflexivity.
  - apply (proj2 (main_fails_before_sending sample_pton4 sample_pton6
                    sample_dn_expand sample_res_mkquery no_getaddrinfo
                    good_res_send sample_network 3 "nslookup" "192.0.2.1"
                    "ns.invalid" Ha)).
    + vm_compute. discriminate.
    + reflexivity.
Defined.

(** The A query is answered and printed, the AAAA query cannot be
    built. *)
Lemma main_second_build_failure_no_aaaa :
  second_qlen sample_pton4 sample_pton6 no_aaaa_res_mkquery "a" < 0 /\
  main sample_pton4 sample_pton6 sample_dn_expand no_aaaa_res_mkquery
    sample_getaddrinfo good_res_send sample_network 2 "nslookup" "a" "" =
  (([EvGetaddrinfo "127.0.0.1";
     EvPrintAddress "Server:" "127.0.0.1" AF_INET 0;
     EvStdout NL;
     EvResSend 0 19] ++
    events (dns_parse sample_dn_expand (mem_of_list one_answer) 35)) ++
   [stderr_line "cannot build the query"], inl EXIT_FAILURE).
Proof.
  assert (H2 : second_qlen sample_pton4 sample_pton6 no_aaaa_res_mkquery "a"
               < 0) by (vm_compute; reflexivity).
  split; [exact H2 |].
  apply (main_second_build_failure sample_pton4 sample_pton6 sample_dn_expand
           no_aaaa_res_mkquery sample_getaddrinfo good_res_send
           sample_network 2 "nslookup" "a" ""
           [EvGetaddrinfo "127.0.0.1";
            EvPrintAddress "Server:" "127.0.0.1" AF_INET 0;
            EvStdout NL;
            EvResSend 0 19]
           (Some sample_srv) 35 (mem_of_list one_answer)).
  - split; discriminate.
  - reflexivity.
  - vm_compute. discriminate.
  - reflexivity.
  - discriminate.
  - vm_compute. reflexivity.
  - vm_compute. discriminate.
  - exact H2.
Defined.

(** An answering network gives what [recvfrom] returned; a silent one
    gives -1. *)
Lemma res_ssend_result_answering_and_silent :
  result (res_ssend answering_net sample_srv 0 19 1024) =
    recvfrom_rv answering_net /\
  result (res_ssend silent_net sample_srv 0 19 1024) = -1.
Proof.
  split.
  - apply (proj1 (proj2 (res_ssend_result answering_net sample_srv 0 19
                           1024))).
    apply (proj2 (proj1 (res_ssend_result answering_net sample_srv 0 19
                           1024))).
    vm_compute. repeat split; (discriminate || reflexivity).
  - apply (proj1 (proj2 (proj2 (res_ssend_result silent_net sample_srv 0 19
                                  1024)))).
    vm_compute. reflexivity.
Defined.

(** On an answering network all five calls are made. *)
Lemma res_ssend_syscall_order_answering :
  exists k : nat,
    (5 <= k)%nat /\
    0 <= sendto_rv answering_net /\ 0 < poll_rv answering_net.
Proof.
  destruct (res_ssend_syscall_order answering_net sample_srv 0 19 1024)
    as (k & _ & E & H5).
  exists k.
  assert (Hk : (5 <= k)%nat).
  { destruct k as [| [| [| [| [| k]]]]];
      try (vm_compute in E; discriminate E).
    apply le_n_S, le_n_S, le_n_S, le_n_S, le_n_S, Nat.le_0_l. }
  split; [exact Hk | exact (H5 Hk)].
Defined.

(** An A record whose owner cannot be expanded, and a record of type 99
    whose owner can. *)
Lemma dns_print_reports_expansion_failure_examples :
  result (dns_print failing_dn_expand RR_TYPE_A 31 4 19
            (mem_of_list one_answer) 35) = -1 /\
  events (dns_print sample_dn_expand 99 31 4 19
            (mem_of_list one_answer) 35) = [].
Proof.
  split.
  - apply (proj1 (dns_print_reports_expansion_failure failing_dn_expand
                    RR_TYPE_A 31 4 19 (mem_of_list one_answer) 35)).
    left. reflexivity.
  - apply (proj2 (proj2 (dns_print_reports_expansion_failure sample_dn_expand
                           99 31 4 19 (mem_of_list one_answer) 35)));
      discriminate.
Defined.

(** The record of [truncated_record] is handed over with a data region
    that ends ten bytes after the message; the last load of [one_answer]
    is inside it. *)
Lemma dns_parse_reads_and_calls_examples :
  3 <= 30 < 35 + 12 /\
  call_ok (mem_of_list truncated_record) 23 (mkCall 1 23 10 12 23).
Proof.
  split.
  - apply (proj1 (dns_parse_reads_and_calls sample_dn_expand
                    (mem_of_list one_answer) 35) 30).
    vm_compute. repeat (try (left; reflexivity); right).
  - apply (proj2 (dns_parse_reads_and_calls sample_dn_expand
                    (mem_of_list truncated_record) 23)
             (mkCall 1 23 10 12 23)).
    vm_compute. repeat (try (left; reflexivity); right).
Defined.

(** One announced answer, one call. *)
Lemma dns_parse_calls_per_answer_one_answer :
  count is_call (events (dns_parse sample_dn_expand (mem_of_list one_answer)
                           35)) =
  Z.to_nat (ancount_of (mem_of_list one_answer)).
Proof.
  apply (proj2 (proj2 (proj2 (dns_parse_calls_per_answer sample_dn_expand
                                (mem_of_list one_answer) 35)))).
  reflexivity.
Defined.

(** With a server argument, that server is the one resolved. *)
Lemma main_uses_selected_transport_server_given :
  server_name 3 "10.0.0.1" = "10.0.0.1"%string.
Proof.
  symmetry.
  apply (proj1 (main_uses_selected_transport sample_pton4 sample_pton6
                  sample_dn_expand sample_res_mkquery sample_getaddrinfo
                  good_res_send sample_network 3 "nslookup" "192.0.2.1"
                  "10.0.0.1") "10.0.0.1"%string).
  vm_compute. left. reflexivity.
Defined.



(** A successful forward lookup sends two queries, a successful reverse
    lookup one that is not [query[1]]. *)
Lemma main_sends_per_lookup_examples :
  (count is_send
     (events (main sample_pton4 sample_pton6 sample_dn_expand
                sample_res_mkquery sample_getaddrinfo good_res_send
                sample_network 2 "nslookup" "a" "")) = 2%nat /\
   count is_getaddrinfo
     (events (main sample_pton4 sample_pton6 sample_dn_expand
                sample_res_mkquery sample_getaddrinfo good_res_send
                sample_network 2 "nslookup" "a" "")) = 1%nat) /\
  Forall (fun e => about_query 1 e = false)
    (events (main sample_pton4 sample_pton6 sample_dn_expand
               sample_res_mkquery sample_getaddrinfo good_res_send
               sample_network 3 "nslookup" "192.0.2.1" "10.0.0.1")).
Proof.
  split.
  - apply (proj2 (proj2 (proj2 (main_sends_per_lookup sample_pton4
                                  sample_pton6 sample_dn_expand
                                  sample_res_mkquery sample_getaddrinfo
                                  good_res_send sample_network 2 "nslookup"
                                  "a" "")))).
    reflexivity.
  - apply (proj1 (proj2 (proj2 (main_sends_per_lookup sample_pton4
                                  sample_pton6 sample_dn_expand
                                  sample_res_mkquery sample_getaddrinfo
                                  good_res_send sample_network 3 "nslookup"
                                  "192.0.2.1" "10.0.0.1")))).
    reflexivity.
Defined.
